(** * Drift detection of the document manager: a shallow embedding

    The development follows [DriftDetection] (utils/driftDetection): the
    Jaccard similarity of two texts, the section comparison keyed by title,
    the metadata comparison, the aggregation into a [DriftAnalysis] with its
    confidence and recommendation, and the merge preview.

    Modelling conventions.
    - A JavaScript string is a [string] whose characters are the UTF-16 code
      units U+0000..U+00FF of the JavaScript string.
    - [Set] and [Map] are insertion-ordered lists without duplicate keys.
    - A similarity is the quotient of two set sizes and is kept as an exact
      rational [Q]; the thresholds it is compared with are the decimal
      literals of the source.  The source rounds the quotient and the
      literals 0.5, 0.8 and 0.95 to binary64; rounding is monotone, and a
      quotient of two sizes below 2^50 that differs from a threshold is
      further from it than the rounding error, so every comparison has the
      outcome it has here.
    - The confidence is computed with the arithmetic of the source on IEEE
      binary64 numbers ([PrimFloat]).
    - [new Date().toISOString()] reads a clock that is passed in. *)

From Stdlib Require Import List String Ascii Bool Arith Lia ZArith QArith PrimFloat.
From Stdlib Require Import Permutation.
Import ListNotations.

Set Warnings "-inexact-float,-register-all".
Close Scope Q_scope.
Set Implicit Arguments.

(* ================================================================= *)
(** ** The JavaScript runtime used by the source *)

Module Js.

(** *** Strings *)

(** [\s] restricted to U+0000..U+00FF: TAB, LF, VT, FF, CR, SPACE, NBSP. *)
Definition isWhiteSpace (c : ascii) : bool :=
  let n := nat_of_ascii c in
  ((9 <=? n) && (n <=? 13)) || (n =? 32) || (n =? 160).

(** [toLowerCase] on one code unit below U+0100: A-Z, and U+00C0..U+00DE
    except the multiplication sign U+00D7. *)
Definition toLowerChar (c : ascii) : ascii :=
  let n := nat_of_ascii c in
  if ((65 <=? n) && (n <=? 90))
     || ((192 <=? n) && (n <=? 222) && negb (n =? 215))
  then ascii_of_nat (n + 32)
  else c.

Fixpoint toLowerCase (s : string) : string :=
  match s with
  | EmptyString => EmptyString
  | String c s' => String (toLowerChar c) (toLowerCase s')
  end.

Definition startsWithWhiteSpace (s : string) : bool :=
  match s with
  | EmptyString => false
  | String c _ => isWhiteSpace c
  end.

(** [s.split(/\s+/)]: the pieces between the maximal runs of white space.
    A run at either end leaves an empty piece there, and the empty string
    splits into one empty piece. *)
Fixpoint split_ws (s : string) : list string :=
  match s with
  | EmptyString => [EmptyString]
  | String c s' =>
      let rest := split_ws s' in
      if isWhiteSpace c then
        if startsWithWhiteSpace s' then rest else EmptyString :: rest
      else
        match rest with
        | piece :: pieces => String c piece :: pieces
        | [] => [String c EmptyString]
        end
  end.

(** [array.join(sep)] on an array of strings. *)
Fixpoint join (sep : string) (l : list string) : string :=
  match l with
  | [] => EmptyString
  | [x] => x
  | x :: l' => (x ++ sep ++ join sep l')%string
  end.

(** *** Set of strings: [new Set(iterable)], [has], [size] *)

Definition Set_has (s : list string) (x : string) : bool :=
  existsb (String.eqb x) s.

Definition Set_add (s : list string) (x : string) : list string :=
  if Set_has s x then s else s ++ [x].

Definition Set_of (l : list string) : list string :=
  fold_left Set_add l [].

Definition size {A : Type} (l : list A) : nat := List.length l.

(** *** Map with string keys: [new Map(entries)], [has], [get], iteration *)

Section JsMap.
Variable V : Type.

Fixpoint Map_set (m : list (string * V)) (k : string) (v : V)
  : list (string * V) :=
  match m with
  | [] => [(k, v)]
  | (k', v') :: m' =>
      if String.eqb k' k then (k', v) :: m'
      else (k', v') :: Map_set m' k v
  end.

Definition Map_of (entries : list (string * V)) : list (string * V) :=
  fold_left (fun m kv => Map_set m (fst kv) (snd kv)) entries [].

Fixpoint Map_get (m : list (string * V)) (k : string) : option V :=
  match m with
  | [] => None
  | (k', v') :: m' => if String.eqb k' k then Some v' else Map_get m' k
  end.

Definition Map_has (m : list (string * V)) (k : string) : bool :=
  match Map_get m k with
  | Some _ => true
  | None => false
  end.
End JsMap.

(** *** Loops that push onto an array *)

(** [for (const x of l) { acc.push(...body(x)) }]. *)
Definition for_of {A B : Type} (l : list A) (body : A -> list B)
  (acc : list B) : list B :=
  fold_left (fun acc x => acc ++ body x) l acc.

(** *** Values read from a metadata object *)

Inductive Value : Type :=
| VUndefined
| VString (s : string)
| VStrings (l : list string)
| VNumber (x : float).

Definition dquote : string := String (ascii_of_nat 34) EmptyString.
Definition backslash : string := String (ascii_of_nat 92) EmptyString.

Definition hexDigit (n : nat) : string :=
  String (ascii_of_nat (if n <? 10 then 48 + n else 87 + n)) EmptyString.

(** One code unit of a string literal of [JSON.stringify]. *)
Definition quoteChar (c : ascii) : string :=
  let n := nat_of_ascii c in
  if n =? 34 then (backslash ++ dquote)%string
  else if n =? 92 then (backslash ++ backslash)%string
  else if n =? 8 then (backslash ++ "b")%string
  else if n =? 9 then (backslash ++ "t")%string
  else if n =? 10 then (backslash ++ "n")%string
  else if n =? 12 then (backslash ++ "f")%string
  else if n =? 13 then (backslash ++ "r")%string
  else if n <? 32 then
    (backslash ++ "u00" ++ hexDigit (n / 16) ++ hexDigit (n mod 16))%string
  else String c EmptyString.

Fixpoint quoteBody (s : string) : string :=
  match s with
  | EmptyString => EmptyString
  | String c s' => (quoteChar c ++ quoteBody s')%string
  end.

Definition quote (s : string) : string :=
  (dquote ++ quoteBody s ++ dquote)%string.

Definition isFiniteNumber (x : float) : bool :=
  negb (PrimFloat.is_nan x || PrimFloat.is_infinity x).

(** A number is falsy when it is zero or NaN. *)
Definition truthyNumber (x : float) : bool :=
  negb (PrimFloat.is_zero x || PrimFloat.is_nan x).

Section Stringify.
(** [Number::toString] of ECMAScript, on which nothing below depends. *)
Variable Number_toString : float -> string.

(** [JSON.stringify(v)]; [None] is the result [undefined]. *)
Definition JSON_stringify (v : Value) : option string :=
  match v with
  | VUndefined => None
  | VString s => Some (quote s)
  | VStrings l => Some ("[" ++ join "," (map quote l) ++ "]")%string
  | VNumber x =>
      Some (if isFiniteNumber x then Number_toString x else "null"%string)
  end.

(** [String(v || '')]; an array is truthy and prints as its elements
    joined by commas. *)
Definition String_or_empty (v : Value) : string :=
  match v with
  | VUndefined => EmptyString
  | VString s => s
  | VStrings l => join "," l
  | VNumber x => if truthyNumber x then Number_toString x else EmptyString
  end.
End Stringify.

(** [a !== b] on the results of [JSON.stringify]. *)
Definition strictNotEqual (a b : option string) : bool :=
  match a, b with
  | None, None => false
  | Some x, Some y => negb (String.eqb x y)
  | _, _ => true
  end.

(** *** Numbers *)

(** An array length as a number; exact below 2^53. *)
Fixpoint Number_of_positive (p : positive) : float :=
  match p with
  | xH => 1
  | xO p' => 2 * Number_of_positive p'
  | xI p' => 2 * Number_of_positive p' + 1
  end.

Definition Number_of_nat (n : nat) : float :=
  match N.of_nat n with
  | N0 => 0
  | Npos p => Number_of_positive p
  end.

(** [Math.min] and [Math.max] on two arguments: NaN is contagious and the
    negative zero is below the positive one. *)
Definition Math_min (x y : float) : float :=
  if PrimFloat.is_nan x || PrimFloat.is_nan y then PrimFloat.nan
  else if (x <? y)%float then x
  else if (y <? x)%float then y
  else if PrimFloat.get_sign x then x else y.

Definition Math_max (x y : float) : float :=
  if PrimFloat.is_nan x || PrimFloat.is_nan y then PrimFloat.nan
  else if (x <? y)%float then y
  else if (y <? x)%float then x
  else if PrimFloat.get_sign x then y else x.

(** *** Completion of a call *)

Inductive Error : Type := TypeError.

Inductive Completion (A : Type) : Type :=
| Returned (a : A)
| Thrown (e : Error).
Arguments Thrown {A} e.

Definition bind {A B : Type} (c : Completion A) (k : A -> Completion B)
  : Completion B :=
  match c with
  | Returned a => k a
  | Thrown e => Thrown e
  end.

Definition isReturned {A : Type} (c : Completion A) : bool :=
  match c with
  | Returned _ => true
  | Thrown _ => false
  end.

(** [receiver.map(f)] where the receiver may be [undefined]. *)
Definition Array_map {A B : Type} (receiver : option (list A)) (f : A -> B)
  : Completion (list B) :=
  match receiver with
  | Some l => Returned (map f l)
  | None => Thrown TypeError
  end.

End Js.


(* ================================================================= *)
(** ** The types of the document manager (types/index.ts) *)

(** A value of type [any]. *)
Inductive Json : Type :=
| JNull
| JBool (b : bool)
| JNumber (x : float)
| JString (s : string)
| JArray (items : list Json)
| JObject (fields : list (string * Json)).

Inductive DocumentType : Type :=
| microservice | api_endpoint | business_logic | system_architecture
| database_schema | configuration_document | deployment | security_policy.

Inductive SectionType : Type :=
| overview | inputs | outputs | dependencies_section | examples
| configuration | troubleshooting | related_services.

Inductive ReviewStatus : Type := pending | approved | rejected.

Inductive ChangeType : Type := addition | deletion | modification.

Inductive Significance : Type := low | medium | high.

Inductive DriftRecommendation : Type :=
| create_new | update_existing | manual_review | merge_required.

Inductive ConflictResolution : Type :=
| prefer_new | prefer_existing | merge_sections.

Module DocumentMetadata.
Record t : Type := mk {
  serviceName : option string;
  version : option string;
  author : option string;
  dependencies : option (list string);
  tags : option (list string);
  category : option string;
  businessUnit : option string
}.
End DocumentMetadata.

Module DocumentInput.
Record t : Type := mk {
  content : string;
  type : DocumentType;
  metadata : DocumentMetadata.t
}.
End DocumentInput.

Module DocumentSection.
Record t : Type := mk {
  title : string;
  content : string;
  type : SectionType;
  metadata : option (list (string * Json))
}.
End DocumentSection.

Module DocumentContent.
Record t : Type := mk {
  title : string;
  summary : string;
  description : string;
  purpose : string;
  sections : list DocumentSection.t
}.
End DocumentContent.

Module EnrichedDocumentMetadata.
Record t : Type := mk {
  serviceName : option string;
  version : option string;
  author : option string;
  dependencies : option (list string);
  tags : option (list string);
  category : option string;
  businessUnit : option string;
  enrichmentTimestamp : string;
  llmModel : string;
  confidence : float;
  reviewStatus : ReviewStatus;
  reviewedBy : option string
}.

Definition ofString (o : option string) : Js.Value :=
  match o with
  | Some s => Js.VString s
  | None => Js.VUndefined
  end.

Definition ofStrings (o : option (list string)) : Js.Value :=
  match o with
  | Some l => Js.VStrings l
  | None => Js.VUndefined
  end.

Definition reviewStatusName (r : ReviewStatus) : string :=
  match r with
  | pending => "pending"
  | approved => "approved"
  | rejected => "rejected"
  end.

(** [metadata[field]]: the declared properties; any other name reads
    [undefined]. *)
Definition get (m : t) (field : string) : Js.Value :=
  if String.eqb field "serviceName" then ofString (serviceName m)
  else if String.eqb field "version" then ofString (version m)
  else if String.eqb field "author" then ofString (author m)
  else if String.eqb field "dependencies" then ofStrings (dependencies m)
  else if String.eqb field "tags" then ofStrings (tags m)
  else if String.eqb field "category" then ofString (category m)
  else if String.eqb field "businessUnit" then ofString (businessUnit m)
  else if String.eqb field "enrichmentTimestamp"
       then Js.VString (enrichmentTimestamp m)
  else if String.eqb field "llmModel" then Js.VString (llmModel m)
  else if String.eqb field "confidence" then Js.VNumber (confidence m)
  else if String.eqb field "reviewStatus"
       then Js.VString (reviewStatusName (reviewStatus m))
  else if String.eqb field "reviewedBy" then ofString (reviewedBy m)
  else Js.VUndefined.

Definition orElse {A : Type} (new old : option A) : option A :=
  match new with
  | Some _ => new
  | None => old
  end.

(** [{ ...existing, ...incoming, enrichmentTimestamp: now }]: a property
    that the incoming object defines wins. *)
Definition spread (existing incoming : t) (now : string) : t :=
  mk (orElse (serviceName incoming) (serviceName existing))
     (orElse (version incoming) (version existing))
     (orElse (author incoming) (author existing))
     (orElse (dependencies incoming) (dependencies existing))
     (orElse (tags incoming) (tags existing))
     (orElse (category incoming) (category existing))
     (orElse (businessUnit incoming) (businessUnit existing))
     now
     (llmModel incoming)
     (confidence incoming)
     (reviewStatus incoming)
     (orElse (reviewedBy incoming) (reviewedBy existing)).
End EnrichedDocumentMetadata.

Module EnrichedDocument.
Record t : Type := mk {
  id : option string;
  originalInput : DocumentInput.t;
  enrichedContent : DocumentContent.t;
  metadata : EnrichedDocumentMetadata.t;
  structuredData : list (string * Json);
  createdAt : string;
  updatedAt : string
}.
End EnrichedDocument.

Module DriftChange.
Record t : Type := mk {
  section : string;
  type : ChangeType;
  oldValue : option string;
  newValue : option string;
  significance : Significance
}.
End DriftChange.

Module DriftAnalysis.
Record t : Type := mk {
  hasChanges : bool;
  confidence : float;
  changes : list DriftChange.t;
  recommendation : DriftRecommendation
}.
End DriftAnalysis.

(** The [options] argument of [analyzeDocuments]; an omitted argument is
    [empty]. *)
Module Options.
Record t : Type := mk {
  threshold : option float;
  ignoreMinorChanges : option bool;
  focusAreas : option (list string)
}.

Definition empty : t := mk None None None.
End Options.

(** The part of an object passed as [EnrichedDocument] that
    [analyzeDocuments] reads, as it is at run time: the [sections] property
    may be missing ([None] is [undefined]). *)
Module Unchecked.
Record content : Type := mkContent {
  title : string;
  description : string;
  purpose : string;
  sections : option (list DocumentSection.t)
}.

Record document : Type := mk {
  enrichedContent : content;
  metadata : EnrichedDocumentMetadata.t
}.

Definition ofContent (c : DocumentContent.t) : content :=
  mkContent (DocumentContent.title c) (DocumentContent.description c)
    (DocumentContent.purpose c) (Some (DocumentContent.sections c)).

(** An object that honours the declared type. *)
Definition ofDocument (d : EnrichedDocument.t) : document :=
  mk (ofContent (EnrichedDocument.enrichedContent d))
     (EnrichedDocument.metadata d).

(** The same object with the [sections] property deleted. *)
Definition withoutSections (d : EnrichedDocument.t) : document :=
  let c := EnrichedDocument.enrichedContent d in
  mk (mkContent (DocumentContent.title c) (DocumentContent.description c)
        (DocumentContent.purpose c) None)
     (EnrichedDocument.metadata d).
End Unchecked.

Definition Significance_eqb (a b : Significance) : bool :=
  match a, b with
  | low, low | medium, medium | high, high => true
  | _, _ => false
  end.


(* ================================================================= *)
(** ** [class DriftDetection] *)

Module DriftDetection.

Definition Qlt_bool (x y : Q) : bool := negb (Qle_bool y x).

Definition SIMILARITY_THRESHOLD : float := 0.7%float.
Definition HIGH_SIGNIFICANCE_THRESHOLD : Q := 0.5%Q.
Definition MEDIUM_SIGNIFICANCE_THRESHOLD : Q := 0.8%Q.

(** The token set of one argument of [calculateStringSimilarity]. *)
Definition tokenSet (str : string) : list string :=
  Js.Set_of (Js.split_ws (Js.toLowerCase str)).

(** [union.size === 0 ? 1 : intersection.size / union.size]. *)
Definition sizeRatio (intersectionSize unionSize : nat) : Q :=
  if unionSize =? 0 then 1%Q
  else (Z.of_nat intersectionSize # Pos.of_nat unionSize)%Q.

Definition calculateStringSimilarity (str1 str2 : string) : Q :=
  let set1 := tokenSet str1 in
  let set2 := tokenSet str2 in
  let intersection := Js.Set_of (filter (Js.Set_has set2) set1) in
  let union := Js.Set_of (set1 ++ set2) in
  sizeRatio (Js.size intersection) (Js.size union).

Definition determineSignificance (similarity : Q) : Significance :=
  if Qlt_bool similarity HIGH_SIGNIFICANCE_THRESHOLD then high
  else if Qlt_bool similarity MEDIUM_SIGNIFICANCE_THRESHOLD then medium
  else low.

(** [ignoreMinor: boolean = false]. *)
Definition orFalse (ignoreMinor : option bool) : bool :=
  match ignoreMinor with
  | Some b => b
  | None => false
  end.

Definition analyzeTextChanges (section oldText newText : string)
  (ignoreMinor : option bool) : list DriftChange.t :=
  let ignoreMinor := orFalse ignoreMinor in
  if String.eqb oldText newText then []
  else
    let similarity := calculateStringSimilarity oldText newText in
    if ignoreMinor && Qlt_bool 0.95%Q similarity then []
    else
      let significance := determineSignificance similarity in
      [DriftChange.mk section modification (Some oldText) (Some newText)
         significance].

(** [s => [s.title, s]]. *)
Definition sectionEntry (s : DocumentSection.t) : string * DocumentSection.t :=
  (DocumentSection.title s, s).

Definition sectionPath (title : string) : string :=
  ("sections." ++ title)%string.

(** The three loops of [analyzeSectionChanges] over the two maps. *)
Definition sectionChangesOfMaps
  (existingMap newMap : list (string * DocumentSection.t))
  (ignoreMinor : bool) : list DriftChange.t :=
  let changes := [] in
  let changes :=
    Js.for_of existingMap
      (fun '(title, section) =>
         if negb (Js.Map_has newMap title) then
           [DriftChange.mk (sectionPath title) deletion
              (Some (DocumentSection.content section)) None medium]
         else [])
      changes in
  let changes :=
    Js.for_of newMap
      (fun '(title, section) =>
         if negb (Js.Map_has existingMap title) then
           [DriftChange.mk (sectionPath title) addition
              None (Some (DocumentSection.content section)) medium]
         else [])
      changes in
  let changes :=
    Js.for_of newMap
      (fun '(title, newSection) =>
         match Js.Map_get existingMap title with
         | Some existingSection =>
             if negb (String.eqb (DocumentSection.content existingSection)
                                 (DocumentSection.content newSection))
             then
               let similarity :=
                 calculateStringSimilarity
                   (DocumentSection.content existingSection)
                   (DocumentSection.content newSection) in
               if ignoreMinor && Qlt_bool 0.95%Q similarity then []
               else
                 [DriftChange.mk (sectionPath title) modification
                    (Some (DocumentSection.content existingSection))
                    (Some (DocumentSection.content newSection))
                    (determineSignificance similarity)]
             else []
         | None => []
         end)
      changes in
  changes.

Definition analyzeSectionChanges
  (existingSections newSections : list DocumentSection.t)
  (ignoreMinor : option bool) : list DriftChange.t :=
  let ignoreMinor := orFalse ignoreMinor in
  let existingMap := Js.Map_of (map sectionEntry existingSections) in
  let newMap := Js.Map_of (map sectionEntry newSections) in
  sectionChangesOfMaps existingMap newMap ignoreMinor.

Definition determineMetadataSignificance (field : string)
  (oldValue newValue : Js.Value) : Significance :=
  let highImpactFields := ["serviceName"; "version"]%string in
  let mediumImpactFields :=
    ["dependencies"; "category"; "businessUnit"]%string in
  if existsb (String.eqb field) highImpactFields then high
  else if existsb (String.eqb field) mediumImpactFields then medium
  else low.

Definition defaultFields : list string :=
  ["serviceName"; "version"; "dependencies"; "tags"; "category";
   "businessUnit"]%string.

Section WithNumberToString.
Variable Number_toString : float -> string.

Definition formatMetadataValue (value : Js.Value) : string :=
  match value with
  | Js.VStrings l => Js.join ", " l
  | _ => Js.String_or_empty Number_toString value
  end.

Definition analyzeMetadataChanges
  (existingMetadata newMetadata : EnrichedDocumentMetadata.t)
  (focusAreas : option (list string)) : list DriftChange.t :=
  let changes := [] in
  let fieldsToCheck :=
    match focusAreas with
    | Some fields => fields
    | None => defaultFields
    end in
  Js.for_of fieldsToCheck
    (fun field =>
       let oldValue := EnrichedDocumentMetadata.get existingMetadata field in
       let newValue := EnrichedDocumentMetadata.get newMetadata field in
       if Js.strictNotEqual (Js.JSON_stringify Number_toString oldValue)
                            (Js.JSON_stringify Number_toString newValue)
       then
         [DriftChange.mk ("metadata." ++ field)%string modification
            (Some (formatMetadataValue oldValue))
            (Some (formatMetadataValue newValue))
            (determineMetadataSignificance field oldValue newValue)]
       else [])
    changes.

Definition countSignificance (s : Significance)
  (changes : list DriftChange.t) : nat :=
  Js.size
    (filter (fun c => Significance_eqb (DriftChange.significance c) s)
       changes).

Definition calculateConfidence (changes : list DriftChange.t) : float :=
  if Js.size changes =? 0 then 1.0%float
  else
    let confidence := 0.8%float in
    let confidence :=
      (confidence
       - Js.Math_min 0.4 (Js.Number_of_nat (Js.size changes) * 0.05))%float in
    let highImpactChanges := countSignificance high changes in
    let mediumImpactChanges := countSignificance medium changes in
    let confidence :=
      (confidence
       - (Js.Number_of_nat highImpactChanges * 0.15
          + Js.Number_of_nat mediumImpactChanges * 0.08))%float in
    Js.Math_max 0.1 (Js.Math_min 1.0 confidence).

Definition generateRecommendation (changes : list DriftChange.t)
  (confidence : float) : DriftRecommendation :=
  if Js.size changes =? 0 then create_new
  else
    let highImpactChanges := countSignificance high changes in
    let mediumImpactChanges := countSignificance medium changes in
    let totalChanges := Js.size changes in
    if (2 <? highImpactChanges) || (confidence <? 0.5)%float
    then manual_review
    else if (totalChanges <=? 3) && (highImpactChanges <=? 1)
    then update_existing
    else if 5 <? totalChanges then create_new
    else merge_required.

(** [options.threshold || this.SIMILARITY_THRESHOLD]. *)
Definition thresholdOrDefault (threshold : option float) : float :=
  match threshold with
  | Some x => if Js.truthyNumber x then x else SIMILARITY_THRESHOLD
  | None => SIMILARITY_THRESHOLD
  end.

Definition analyzeDocuments (existing newDoc : EnrichedDocument.t)
  (options : Options.t) : DriftAnalysis.t :=
  let existingContent := EnrichedDocument.enrichedContent existing in
  let newContent := EnrichedDocument.enrichedContent newDoc in
  let changes := [] in
  let threshold := thresholdOrDefault (Options.threshold options) in
  let changes :=
    if negb (String.eqb (DocumentContent.title existingContent)
                        (DocumentContent.title newContent))
    then
      let titleSimilarity :=
        calculateStringSimilarity (DocumentContent.title existingContent)
          (DocumentContent.title newContent) in
      changes ++
      [DriftChange.mk "title" modification
         (Some (DocumentContent.title existingContent))
         (Some (DocumentContent.title newContent))
         (if Qlt_bool titleSimilarity HIGH_SIGNIFICANCE_THRESHOLD
          then high else medium)]
    else changes in
  let descriptionChanges :=
    analyzeTextChanges "description"
      (DocumentContent.description existingContent)
      (DocumentContent.description newContent)
      (Options.ignoreMinorChanges options) in
  let changes := changes ++ descriptionChanges in
  let changes :=
    if negb (String.eqb (DocumentContent.purpose existingContent)
                        (DocumentContent.purpose newContent))
    then
      let purposeChanges :=
        analyzeTextChanges "purpose"
          (DocumentContent.purpose existingContent)
          (DocumentContent.purpose newContent)
          (Options.ignoreMinorChanges options) in
      changes ++ purposeChanges
    else changes in
  let sectionChanges :=
    analyzeSectionChanges (DocumentContent.sections existingContent)
      (DocumentContent.sections newContent)
      (Options.ignoreMinorChanges options) in
  let changes := changes ++ sectionChanges in
  let metadataChanges :=
    analyzeMetadataChanges (EnrichedDocument.metadata existing)
      (EnrichedDocument.metadata newDoc) (Options.focusAreas options) in
  let changes := changes ++ metadataChanges in
  let filteredChanges :=
    if orFalse (Options.ignoreMinorChanges options)
    then filter
           (fun change =>
              negb (Significance_eqb (DriftChange.significance change) low))
           changes
    else changes in
  let hasChanges := 0 <? Js.size filteredChanges in
  let confidence := calculateConfidence filteredChanges in
  let recommendation := generateRecommendation filteredChanges confidence in
  DriftAnalysis.mk hasChanges confidence filteredChanges recommendation.

(** [analyzeSectionChanges] and [analyzeDocuments] on objects whose
    [sections] may be missing: [existingSections.map] and
    [newSections.map] throw on [undefined]. *)
Definition analyzeSectionChangesUnchecked
  (existingSections newSections : option (list DocumentSection.t))
  (ignoreMinor : option bool) : Js.Completion (list DriftChange.t) :=
  let ignoreMinor := orFalse ignoreMinor in
  Js.bind (Js.Array_map existingSections sectionEntry) (fun existingEntries =>
  let existingMap := Js.Map_of existingEntries in
  Js.bind (Js.Array_map newSections sectionEntry) (fun newEntries =>
  let newMap := Js.Map_of newEntries in
  Js.Returned (sectionChangesOfMaps existingMap newMap ignoreMinor))).

Definition analyzeDocumentsUnchecked (existing newDoc : Unchecked.document)
  (options : Options.t) : Js.Completion DriftAnalysis.t :=
  let existingContent := Unchecked.enrichedContent existing in
  let newContent := Unchecked.enrichedContent newDoc in
  let changes := [] in
  let threshold := thresholdOrDefault (Options.threshold options) in
  let changes :=
    if negb (String.eqb (Unchecked.title existingContent)
                        (Unchecked.title newContent))
    then
      let titleSimilarity :=
        calculateStringSimilarity (Unchecked.title existingContent)
          (Unchecked.title newContent) in
      changes ++
      [DriftChange.mk "title" modification
         (Some (Unchecked.title existingContent))
         (Some (Unchecked.title newContent))
         (if Qlt_bool titleSimilarity HIGH_SIGNIFICANCE_THRESHOLD
          then high else medium)]
    else changes in
  let descriptionChanges :=
    analyzeTextChanges "description"
      (Unchecked.description existingContent)
      (Unchecked.description newContent)
      (Options.ignoreMinorChanges options) in
  let changes := changes ++ descriptionChanges in
  let changes :=
    if negb (String.eqb (Unchecked.purpose existingContent)
                        (Unchecked.purpose newContent))
    then
      let purposeChanges :=
        analyzeTextChanges "purpose"
          (Unchecked.purpose existingContent)
          (Unchecked.purpose newContent)
          (Options.ignoreMinorChanges options) in
      changes ++ purposeChanges
    else changes in
  Js.bind
    (analyzeSectionChangesUnchecked (Unchecked.sections existingContent)
       (Unchecked.sections newContent)
       (Options.ignoreMinorChanges options))
    (fun sectionChanges =>
  let changes := changes ++ sectionChanges in
  let metadataChanges :=
    analyzeMetadataChanges (Unchecked.metadata existing)
      (Unchecked.metadata newDoc) (Options.focusAreas options) in
  let changes := changes ++ metadataChanges in
  let filteredChanges :=
    if orFalse (Options.ignoreMinorChanges options)
    then filter
           (fun change =>
              negb (Significance_eqb (DriftChange.significance change) low))
           changes
    else changes in
  let hasChanges := 0 <? Js.size filteredChanges in
  let confidence := calculateConfidence filteredChanges in
  let recommendation := generateRecommendation filteredChanges confidence in
  Js.Returned
    (DriftAnalysis.mk hasChanges confidence filteredChanges recommendation)).

End WithNumberToString.

(** *** [compareSections] *)

Module ModifiedSection.
Record t : Type := mk {
  title : string;
  existing : DocumentSection.t;
  new : DocumentSection.t;
  similarity : Q
}.
End ModifiedSection.

Module SectionComparison.
Record t : Type := mk {
  added : list DocumentSection.t;
  removed : list DocumentSection.t;
  modified : list ModifiedSection.t;
  unchanged : list DocumentSection.t
}.
End SectionComparison.

Definition compareSections
  (existingSections newSections : list DocumentSection.t)
  : SectionComparison.t :=
  let existingMap := Js.Map_of (map sectionEntry existingSections) in
  let newMap := Js.Map_of (map sectionEntry newSections) in
  let added := [] in
  let removed := [] in
  let modified := [] in
  let unchanged := [] in
  let added :=
    Js.for_of newMap
      (fun '(title, section) =>
         if negb (Js.Map_has existingMap title) then [section] else [])
      added in
  let removed :=
    Js.for_of existingMap
      (fun '(title, section) =>
         if negb (Js.Map_has newMap title) then [section] else [])
      removed in
  let '(modified, unchanged) :=
    fold_left
      (fun '(modified, unchanged) '(title, newSection) =>
         match Js.Map_get existingMap title with
         | Some existingSection =>
             if String.eqb (DocumentSection.content existingSection)
                           (DocumentSection.content newSection)
             then (modified, unchanged ++ [newSection])
             else
               let similarity :=
                 calculateStringSimilarity
                   (DocumentSection.content existingSection)
                   (DocumentSection.content newSection) in
               (modified ++
                [ModifiedSection.mk title existingSection newSection
                   similarity],
                unchanged)
         | None => (modified, unchanged)
         end)
      newMap (modified, unchanged) in
  SectionComparison.mk added removed modified unchanged.

(** *** [createMergePreview] and [mergeSections] *)

(** The clock: [clock k] is what the [k]-th evaluation of
    [new Date().toISOString()] in a call returns, counted from zero. *)
Definition Clock : Type := nat -> string.

Definition mergeSections (existing newDoc : EnrichedDocument.t)
  (clock : Clock) : EnrichedDocument.t :=
  let comparison :=
    compareSections
      (DocumentContent.sections (EnrichedDocument.enrichedContent existing))
      (DocumentContent.sections (EnrichedDocument.enrichedContent newDoc)) in
  let mergedSections :=
    SectionComparison.unchanged comparison
    ++ map ModifiedSection.new (SectionComparison.modified comparison)
    ++ SectionComparison.added comparison in
  let newContent := EnrichedDocument.enrichedContent newDoc in
  EnrichedDocument.mk
    (EnrichedDocument.id existing)
    (EnrichedDocument.originalInput existing)
    (DocumentContent.mk
       (DocumentContent.title newContent)
       (DocumentContent.summary newContent)
       (DocumentContent.description newContent)
       (DocumentContent.purpose newContent)
       mergedSections)
    (EnrichedDocumentMetadata.spread
       (EnrichedDocument.metadata existing)
       (EnrichedDocument.metadata newDoc)
       (clock 0%nat))
    (EnrichedDocument.structuredData existing)
    (EnrichedDocument.createdAt existing)
    (clock 1%nat).

(** [strategy] is [None] when the caller omits the argument. *)
Definition createMergePreview (existing newDoc : EnrichedDocument.t)
  (strategy : option ConflictResolution) (clock : Clock)
  : EnrichedDocument.t :=
  let strategy :=
    match strategy with
    | Some s => s
    | None => merge_sections
    end in
  match strategy with
  | prefer_new =>
      EnrichedDocument.mk
        (EnrichedDocument.id existing)
        (EnrichedDocument.originalInput newDoc)
        (EnrichedDocument.enrichedContent newDoc)
        (EnrichedDocument.metadata newDoc)
        (EnrichedDocument.structuredData newDoc)
        (EnrichedDocument.createdAt existing)
        (clock 0%nat)
  | prefer_existing =>
      EnrichedDocument.mk
        (EnrichedDocument.id existing)
        (EnrichedDocument.originalInput existing)
        (EnrichedDocument.enrichedContent existing)
        (EnrichedDocument.metadata existing)
        (EnrichedDocument.structuredData existing)
        (EnrichedDocument.createdAt existing)
        (clock 0%nat)
  | merge_sections => mergeSections existing newDoc clock
  end.

End DriftDetection.


(* ================================================================= *)
(** ** The analyzer as the specification words it *)

Module Spec.

(** The number of changes of one significance. *)
Fixpoint count (s : Significance) (changes : list DriftChange.t) : nat :=
  match changes with
  | [] => 0
  | c :: rest =>
      if Significance_eqb (DriftChange.significance c) s
      then S (count s rest)
      else count s rest
  end.

Definition clamp (lo hi x : float) : float :=
  Js.Math_max lo (Js.Math_min hi x).

(** Confidence: 1.0 without changes; otherwise 0.8, minus
    min(0.4, n * 0.05), minus (high * 0.15 + medium * 0.08), clamped to
    [0.1, 1.0]. *)
Definition confidence (changes : list DriftChange.t) : float :=
  match changes with
  | [] => 1.0%float
  | _ :: _ =>
      let n := Js.Number_of_nat (List.length changes) in
      let h := Js.Number_of_nat (count high changes) in
      let m := Js.Number_of_nat (count medium changes) in
      clamp 0.1 1.0
        (0.8 - Js.Math_min 0.4 (n * 0.05) - (h * 0.15 + m * 0.08))%float
  end.

(** Recommendation, in the order of precedence of the specification. *)
Definition recommendation (changes : list DriftChange.t)
  (confidence : float) : DriftRecommendation :=
  let total := List.length changes in
  let h := count high changes in
  match changes with
  | [] => create_new
  | _ :: _ =>
      if (2 <? h) || (confidence <? 0.5)%float then manual_review
      else if (total <=? 3) && (h <=? 1) then update_existing
      else if 5 <? total then create_new
      else merge_required
  end.

End Spec.


(* ================================================================= *)
(** ** Vocabulary of the statements *)

(** The keys of a [Map], in iteration order. *)
Definition keys {V : Type} (m : list (string * V)) : list string :=
  map fst m.

Definition titlesOf (l : list DocumentSection.t) : list string :=
  map DocumentSection.title l.

(** How often a title occurs in a list of titles. *)
Definition occurrences (t : string) (l : list string) : nat :=
  count_occ string_dec l t.

Definition addedTitles (c : DriftDetection.SectionComparison.t) :=
  titlesOf (DriftDetection.SectionComparison.added c).
Definition removedTitles (c : DriftDetection.SectionComparison.t) :=
  titlesOf (DriftDetection.SectionComparison.removed c).
Definition modifiedTitles (c : DriftDetection.SectionComparison.t) :=
  map DriftDetection.ModifiedSection.title
    (DriftDetection.SectionComparison.modified c).
Definition unchangedTitles (c : DriftDetection.SectionComparison.t) :=
  titlesOf (DriftDetection.SectionComparison.unchanged c).

Definition sectionsOf (d : EnrichedDocument.t) : list DocumentSection.t :=
  DocumentContent.sections (EnrichedDocument.enrichedContent d).

(** The document [d] with another title and nothing else changed. *)
Definition withTitle (d : EnrichedDocument.t) (newTitle : string)
  : EnrichedDocument.t :=
  let c := EnrichedDocument.enrichedContent d in
  EnrichedDocument.mk
    (EnrichedDocument.id d)
    (EnrichedDocument.originalInput d)
    (DocumentContent.mk newTitle
       (DocumentContent.summary c)
       (DocumentContent.description c)
       (DocumentContent.purpose c)
       (DocumentContent.sections c))
    (EnrichedDocument.metadata d)
    (EnrichedDocument.structuredData d)
    (EnrichedDocument.createdAt d)
    (EnrichedDocument.updatedAt d).

(** The title-keyed map that the comparisons build from a section list. *)
Definition sectionMap (l : list DocumentSection.t)
  : list (string * DocumentSection.t) :=
  Js.Map_of (map DriftDetection.sectionEntry l).

(** Every entry of a section map is filed under the title of its section. *)
Definition TitleKeyed (m : list (string * DocumentSection.t)) : Prop :=
  forall k s, In (k, s) m -> DocumentSection.title s = k.

(** What one entry of a map adds to a bucket of [compareSections]: to
    [added] or [removed] when the other map lacks its title, and to
    [modified] or [unchanged] when the existing map has it. *)
Definition absentFrom (other : list (string * DocumentSection.t))
  (entry : string * DocumentSection.t) : list DocumentSection.t :=
  if negb (Js.Map_has other (fst entry)) then [snd entry] else [].

Definition modifiedOf (existingMap : list (string * DocumentSection.t))
  (entry : string * DocumentSection.t)
  : list DriftDetection.ModifiedSection.t :=
  match Js.Map_get existingMap (fst entry) with
  | Some existingSection =>
      if String.eqb (DocumentSection.content existingSection)
                    (DocumentSection.content (snd entry))
      then []
      else [DriftDetection.ModifiedSection.mk (fst entry) existingSection
              (snd entry)
              (DriftDetection.calculateStringSimilarity
                 (DocumentSection.content existingSection)
                 (DocumentSection.content (snd entry)))]
  | None => []
  end.

Definition unchangedOf (existingMap : list (string * DocumentSection.t))
  (entry : string * DocumentSection.t) : list DocumentSection.t :=
  match Js.Map_get existingMap (fst entry) with
  | Some existingSection =>
      if String.eqb (DocumentSection.content existingSection)
                    (DocumentSection.content (snd entry))
      then [snd entry]
      else []
  | None => []
  end.

(** The section list that [mergeSections] builds. *)
Definition mergedSectionsOf
  (existingSections newSections : list DocumentSection.t)
  : list DocumentSection.t :=
  let comparison :=
    DriftDetection.compareSections existingSections newSections in
  DriftDetection.SectionComparison.unchanged comparison
  ++ map DriftDetection.ModifiedSection.new
       (DriftDetection.SectionComparison.modified comparison)
  ++ DriftDetection.SectionComparison.added comparison.

(** Whether a property is present. *)
Definition isDefined {A : Type} (o : option A) : bool :=
  match o with
  | Some _ => true
  | None => false
  end.

(* ================================================================= *)
(** ** Example documents *)

Module Examples.
Local Open Scope string_scope.

(** Agrees with [Number::toString] on 0.5, the only number that the
    examples hold. *)
Definition numberToString (x : float) : string :=
  if (x =? 0.5)%float then "0.5"%string else EmptyString.

Definition input : DocumentInput.t :=
  DocumentInput.mk "Service that signs users in" microservice
    (DocumentMetadata.mk (Some "auth") (Some "1.0.0") None
       (Some ["ldap"; "redis"]%string) None None None).

Definition metadata : EnrichedDocumentMetadata.t :=
  EnrichedDocumentMetadata.mk (Some "auth") (Some "1.0.0") None
    (Some ["ldap"; "redis"]%string) None None None
    "2024-01-01T00:00:00.000Z" "gpt-4" 0.5 pending None.

Definition overviewSection : DocumentSection.t :=
  DocumentSection.mk "Overview" "Signs users in" overview None.
Definition overviewRevised : DocumentSection.t :=
  DocumentSection.mk "Overview" "Signs users in and out" overview None.
Definition inputsSection : DocumentSection.t :=
  DocumentSection.mk "Inputs" "User name and password" inputs None.
Definition outputsSection : DocumentSection.t :=
  DocumentSection.mk "Outputs" "A session token" outputs None.
Definition legacySection : DocumentSection.t :=
  DocumentSection.mk "Legacy" "Basic authentication" troubleshooting None.

Definition document (title : string) (sections : list DocumentSection.t)
  : EnrichedDocument.t :=
  EnrichedDocument.mk (Some "doc-1") input
    (DocumentContent.mk title "Signs users in"
       "Service that signs users in" "Authentication" sections)
    metadata [] "2024-01-01T00:00:00.000Z" "2024-01-02T00:00:00.000Z".

Definition authExisting : EnrichedDocument.t :=
  document "Auth Service" [overviewSection].
Definition authIncoming : EnrichedDocument.t :=
  document "Authentication Service" [overviewSection].

Definition stored : EnrichedDocument.t :=
  document "Auth Service" [overviewSection; inputsSection; legacySection].
Definition incoming : EnrichedDocument.t :=
  document "Auth Service" [overviewRevised; inputsSection; outputsSection].

Definition clock : DriftDetection.Clock :=
  fun k => if Nat.eqb k 0 then "2024-03-01T10:00:00.000Z"
           else "2024-03-01T10:00:00.001Z".

Definition strict : Options.t := Options.mk (Some 0.9%float) (Some true) None.
Definition lenient : Options.t := Options.mk None (Some true) None.

End Examples.


(* ================================================================= *)
(** ** Vocabulary of the further statements *)

(** Significance as a level: low below medium below high. *)
Definition Significance_rank (s : Significance) : nat :=
  match s with
  | low => 0
  | medium => 1
  | high => 2
  end.

(** [change => change.significance !== 'low']. *)
Definition notLow (change : DriftChange.t) : bool :=
  negb (Significance_eqb (DriftChange.significance change) low).

(** The metadata fields that [analyzeMetadataChanges] looks at. *)
Definition fieldsChecked (options : Options.t) : list string :=
  match Options.focusAreas options with
  | Some fields => fields
  | None => DriftDetection.defaultFields
  end.

(** The shape of a change: an addition has a new value only, a deletion an
    old value only, both of medium significance; a modification has
    both values. *)
Definition changeShaped (c : DriftChange.t) : bool :=
  match DriftChange.type c with
  | addition =>
      negb (isDefined (DriftChange.oldValue c))
      && isDefined (DriftChange.newValue c)
      && Significance_eqb (DriftChange.significance c) medium
  | deletion =>
      isDefined (DriftChange.oldValue c)
      && negb (isDefined (DriftChange.newValue c))
      && Significance_eqb (DriftChange.significance c) medium
  | modification =>
      isDefined (DriftChange.oldValue c) && isDefined (DriftChange.newValue c)
  end.

(** The changes that [analyzeSectionChanges] reports, read off the buckets
    of [compareSections]. *)
Definition deletionOf (s : DocumentSection.t) : DriftChange.t :=
  DriftChange.mk (DriftDetection.sectionPath (DocumentSection.title s))
    deletion (Some (DocumentSection.content s)) None medium.

Definition additionOf (s : DocumentSection.t) : DriftChange.t :=
  DriftChange.mk (DriftDetection.sectionPath (DocumentSection.title s))
    addition None (Some (DocumentSection.content s)) medium.

Definition modificationOf (m : DriftDetection.ModifiedSection.t)
  : DriftChange.t :=
  DriftChange.mk
    (DriftDetection.sectionPath (DriftDetection.ModifiedSection.title m))
    modification
    (Some (DocumentSection.content (DriftDetection.ModifiedSection.existing m)))
    (Some (DocumentSection.content (DriftDetection.ModifiedSection.new m)))
    (DriftDetection.determineSignificance
       (DriftDetection.ModifiedSection.similarity m)).

(** Whether a modified section is reported: not when minor changes are
    ignored and its similarity is above 0.95. *)
Definition reported (ignoreMinor : bool)
  (m : DriftDetection.ModifiedSection.t) : bool :=
  negb (ignoreMinor
        && DriftDetection.Qlt_bool 0.95%Q
             (DriftDetection.ModifiedSection.similarity m)).

Module MoreExamples.
Local Open Scope string_scope.

(** A second record of the stored example: another identifier, input,
    summary, structured data, time stamps, author, model, confidence and
    review state, and the same title, description, purpose, sections and
    service, version, dependencies, tags, category and business unit. *)
Definition storedElsewhere : EnrichedDocument.t :=
  EnrichedDocument.mk (Some "doc-2")
    (DocumentInput.mk "Login service" api_endpoint
       (DocumentMetadata.mk None None (Some "eve") None None None None))
    (DocumentContent.mk "Auth Service" "Another summary"
       "Service that signs users in" "Authentication"
       [Examples.overviewSection; Examples.inputsSection;
        Examples.legacySection])
    (EnrichedDocumentMetadata.mk (Some "auth") (Some "1.0.0") (Some "eve")
       (Some ["ldap"; "redis"]) None None None
       "2025-05-05T00:00:00.000Z" "other-model" 0.5 approved (Some "bob"))
    [("k", JBool true)] "2025-05-05T00:00:00.000Z" "2025-05-06T00:00:00.000Z".

End MoreExamples.


(** The change that [analyzeDocuments] pushes for the title. *)
Definition titleChange (oldTitle newTitle : string) : list DriftChange.t :=
  if negb (String.eqb oldTitle newTitle) then
    [DriftChange.mk "title" modification (Some oldTitle) (Some newTitle)
       (if DriftDetection.Qlt_bool
             (DriftDetection.calculateStringSimilarity oldTitle newTitle)
             DriftDetection.HIGH_SIGNIFICANCE_THRESHOLD
        then high else medium)]
  else [].

(** The running change list of [analyzeDocuments] before the final
    filter. *)
Definition allChanges (Number_toString : float -> string)
  (existing newDoc : EnrichedDocument.t) (options : Options.t)
  : list DriftChange.t :=
  let existingContent := EnrichedDocument.enrichedContent existing in
  let newContent := EnrichedDocument.enrichedContent newDoc in
  titleChange (DocumentContent.title existingContent)
    (DocumentContent.title newContent)
  ++ DriftDetection.analyzeTextChanges "description"
       (DocumentContent.description existingContent)
       (DocumentContent.description newContent)
       (Options.ignoreMinorChanges options)
  ++ DriftDetection.analyzeTextChanges "purpose"
       (DocumentContent.purpose existingContent)
       (DocumentContent.purpose newContent)
       (Options.ignoreMinorChanges options)
  ++ DriftDetection.analyzeSectionChanges
       (DocumentContent.sections existingContent)
       (DocumentContent.sections newContent)
       (Options.ignoreMinorChanges options)
  ++ DriftDetection.analyzeMetadataChanges Number_toString
       (EnrichedDocument.metadata existing)
       (EnrichedDocument.metadata newDoc) (Options.focusAreas options).

(** The analysis that [analyzeDocuments] derives from a filtered change
    list. *)
Definition analysisOf (filteredChanges : list DriftChange.t)
  : DriftAnalysis.t :=
  DriftAnalysis.mk (0 <? Js.size filteredChanges)
    (DriftDetection.calculateConfidence filteredChanges)
    filteredChanges
    (DriftDetection.generateRecommendation filteredChanges
       (DriftDetection.calculateConfidence filteredChanges)).


(** Reading back one code unit of a string literal of [JSON.stringify]:
    the inverse of [Js.quoteChar], used to show that the literals tell
    strings apart. The closing quote and malformed input read nothing. *)
Definition hexValue (c : ascii) : nat :=
  let n := nat_of_ascii c in
  if n <? 58 then n - 48 else n - 87.

Definition unquoteChar (s : string) : option (ascii * string) :=
  match s with
  | EmptyString => None
  | String b rest =>
      let n := nat_of_ascii b in
      if n =? 34 then None
      else if n =? 92 then
        match rest with
        | EmptyString => None
        | String e rest' =>
            let m := nat_of_ascii e in
            if m =? 34 then Some (ascii_of_nat 34, rest')
            else if m =? 92 then Some (ascii_of_nat 92, rest')
            else if m =? 98 then Some (ascii_of_nat 8, rest')
            else if m =? 116 then Some (ascii_of_nat 9, rest')
            else if m =? 110 then Some (ascii_of_nat 10, rest')
            else if m =? 102 then Some (ascii_of_nat 12, rest')
            else if m =? 114 then Some (ascii_of_nat 13, rest')
            else if m =? 117 then
              match rest' with
              | String _ (String _ (String h1 (String h2 rest''))) =>
                  Some (ascii_of_nat (16 * hexValue h1 + hexValue h2), rest'')
              | _ => None
              end
            else None
        end
      else Some (b, rest)
  end.


(** The confidence and the recommendation as functions of the three numbers
    that [calculateConfidence] and [generateRecommendation] take from a
    change list: its length and its numbers of changes of high and of medium
    significance. *)
Definition confidenceOf (n h m : nat) : float :=
  if n =? 0 then 1.0%float
  else
    Js.Math_max 0.1
      (Js.Math_min 1.0
         (0.8 - Js.Math_min 0.4 (Js.Number_of_nat n * 0.05)
          - (Js.Number_of_nat h * 0.15 + Js.Number_of_nat m * 0.08)))%float.

Definition recommendationOf (n h m : nat) : DriftRecommendation :=
  if n =? 0 then create_new
  else if (2 <? h) || (confidenceOf n h m <? 0.5)%float then manual_review
  else if (n <=? 3) && (h <=? 1) then update_existing
  else if 5 <? n then create_new
  else merge_required.

Definition DriftRecommendation_eqb (a b : DriftRecommendation) : bool :=
  match a, b with
  | create_new, create_new | update_existing, update_existing
  | manual_review, manual_review | merge_required, merge_required => true
  | _, _ => false
  end.

(** The counts for which merge-required and update-existing come out. *)
Definition mergeRequiredFor (n h m : nat) : bool :=
  ((n =? 4) && (h =? 0) && (m <=? 1)) || ((n =? 5) && (h =? 0) && (m =? 0)).

Definition updateExistingFor (n h m : nat) : bool :=
  (n =? 1)
  || ((n =? 2) && ((h =? 0) || ((h =? 1) && (m =? 0))))
  || ((n =? 3) && (h + m <=? 1)).

(** The check of the two tables on every feasible triple of counts up to
    a bound. *)
Definition tablesHoldUpTo (bound : nat) : bool :=
  forallb
    (fun n =>
       forallb
         (fun h =>
            forallb
              (fun m =>
                 negb (h + m <=? n)
                 || (Bool.eqb
                       (DriftRecommendation_eqb (recommendationOf n h m)
                          merge_required)
                       (mergeRequiredFor n h m)
                     && Bool.eqb
                          (DriftRecommendation_eqb (recommendationOf n h m)
                             update_existing)
                          (updateExistingFor n h m)))
              (seq 0 (S bound)))
         (seq 0 (S bound)))
    (seq 0 (S bound)).


(** A change seen from the other side: an addition becomes a deletion and
    back, and the old and the new value trade places. *)
Definition mirrorType (t : ChangeType) : ChangeType :=
  match t with
  | addition => deletion
  | deletion => addition
  | modification => modification
  end.

Definition mirror (c : DriftChange.t) : DriftChange.t :=
  DriftChange.mk (DriftChange.section c) (mirrorType (DriftChange.type c))
    (DriftChange.newValue c) (DriftChange.oldValue c)
    (DriftChange.significance c).

(** What the third loop of [analyzeSectionChanges] pushes for a title that
    both maps have. *)
Definition modificationEntry (ignoreMinor : bool) (title : string)
  (existingSection newSection : DocumentSection.t) : list DriftChange.t :=
  if negb (String.eqb (DocumentSection.content existingSection)
                      (DocumentSection.content newSection))
  then
    if ignoreMinor
       && DriftDetection.Qlt_bool 0.95%Q
            (DriftDetection.calculateStringSimilarity
               (DocumentSection.content existingSection)
               (DocumentSection.content newSection))
    then []
    else
      [DriftChange.mk (DriftDetection.sectionPath title) modification
         (Some (DocumentSection.content existingSection))
         (Some (DocumentSection.content newSection))
         (DriftDetection.determineSignificance
            (DriftDetection.calculateStringSimilarity
               (DocumentSection.content existingSection)
               (DocumentSection.content newSection)))]
  else [].


(** The third loop of [analyzeSectionChanges] as a whole: the modifications
    over the entries of the new map, looked up in the existing one. *)
Definition modificationsOver (ignoreMinor : bool)
  (existingMap newMap : list (string * DocumentSection.t))
  : list DriftChange.t :=
  flat_map
    (fun entry =>
       match Js.Map_get existingMap (fst entry) with
       | Some existingSection =>
           modificationEntry ignoreMinor (fst entry) existingSection
             (snd entry)
       | None => []
       end)
    newMap.


(** The first two loops of [analyzeSectionChanges] as wholes. *)
Definition deletionsOver
  (existingMap newMap : list (string * DocumentSection.t))
  : list DriftChange.t :=
  flat_map
    (fun entry =>
       if negb (Js.Map_has newMap (fst entry)) then
         [DriftChange.mk (DriftDetection.sectionPath (fst entry)) deletion
            (Some (DocumentSection.content (snd entry))) None medium]
       else [])
    existingMap.

Definition additionsOver
  (existingMap newMap : list (string * DocumentSection.t))
  : list DriftChange.t :=
  flat_map
    (fun entry =>
       if negb (Js.Map_has existingMap (fst entry)) then
         [DriftChange.mk (DriftDetection.sectionPath (fst entry)) addition
            None (Some (DocumentSection.content (snd entry))) medium]
       else [])
    newMap.


(* ================================================================= *)
(** ** [class QAService]: the local drift detection (services/llmService.ts) *)

Module QAService.

(** [calculateSimilarity]: the Jaccard index again, with zero for an empty
    union. *)
Definition calculateSimilarity (text1 text2 : string) : Q :=
  let set1 := Js.Set_of (Js.split_ws (Js.toLowerCase text1)) in
  let set2 := Js.Set_of (Js.split_ws (Js.toLowerCase text2)) in
  let intersection := Js.Set_of (filter (Js.Set_has set2) set1) in
  let union := Js.Set_of (set1 ++ set2) in
  if Js.size union =? 0 then 0%Q
  else (Z.of_nat (Js.size intersection) # Pos.of_nat (Js.size union))%Q.

Definition calculateDriftConfidence (changes : list DriftChange.t) : float :=
  if Js.size changes =? 0 then 1.0%float
  else
    let confidence :=
      Js.Math_max 0.3
        (1.0 - Js.Number_of_nat (Js.size changes) * 0.1)%float in
    let highImpact :=
      Js.size
        (filter (fun c => Significance_eqb (DriftChange.significance c) high)
           changes) in
    let mediumImpact :=
      Js.size
        (filter (fun c => Significance_eqb (DriftChange.significance c) medium)
           changes) in
    let confidence :=
      (confidence
       - (Js.Number_of_nat highImpact * 0.2
          + Js.Number_of_nat mediumImpact * 0.1))%float in
    Js.Math_max 0.1 (Js.Math_min 1.0 confidence).

Definition performLocalDriftDetection (existing newDoc : EnrichedDocument.t)
  : DriftAnalysis.t :=
  let existingContent := EnrichedDocument.enrichedContent existing in
  let newContent := EnrichedDocument.enrichedContent newDoc in
  let changes := [] in
  let changes :=
    if negb (String.eqb (DocumentContent.title existingContent)
                        (DocumentContent.title newContent))
    then
      changes ++
      [DriftChange.mk "title" modification
         (Some (DocumentContent.title existingContent))
         (Some (DocumentContent.title newContent))
         medium]
    else changes in
  let descriptionSimilarity :=
    calculateSimilarity (DocumentContent.description existingContent)
      (DocumentContent.description newContent) in
  let changes :=
    if DriftDetection.Qlt_bool descriptionSimilarity 0.8%Q then
      changes ++
      [DriftChange.mk "description" modification
         (Some (DocumentContent.description existingContent))
         (Some (DocumentContent.description newContent))
         (if DriftDetection.Qlt_bool descriptionSimilarity 0.5%Q
          then high else medium)]
    else changes in
  let existingSections :=
    Js.Map_of
      (map (fun s => (DocumentSection.title s, s))
         (DocumentContent.sections existingContent)) in
  let newSections :=
    Js.Map_of
      (map (fun s => (DocumentSection.title s, s))
         (DocumentContent.sections newContent)) in
  let changes :=
    Js.for_of existingSections
      (fun '(title, section) =>
         if negb (Js.Map_has newSections title) then
           [DriftChange.mk ("sections." ++ title)%string deletion
              (Some (DocumentSection.content section)) None medium]
         else [])
      changes in
  let changes :=
    Js.for_of newSections
      (fun '(title, section) =>
         if negb (Js.Map_has existingSections title) then
           [DriftChange.mk ("sections." ++ title)%string addition
              None (Some (DocumentSection.content section)) medium]
         else [])
      changes in
  let changes :=
    Js.for_of newSections
      (fun '(title, newSection) =>
         match Js.Map_get existingSections title with
         | Some existingSection =>
             let sectionSimilarity :=
               calculateSimilarity (DocumentSection.content existingSection)
                 (DocumentSection.content newSection) in
             if DriftDetection.Qlt_bool sectionSimilarity 0.8%Q then
               [DriftChange.mk ("sections." ++ title)%string modification
                  (Some (DocumentSection.content existingSection))
                  (Some (DocumentSection.content newSection))
                  (if DriftDetection.Qlt_bool sectionSimilarity 0.5%Q
                   then high else medium)]
             else []
         | None => []
         end)
      changes in
  let hasChanges := 0 <? Js.size changes in
  let highImpactChanges :=
    Js.size
      (filter (fun c => Significance_eqb (DriftChange.significance c) high)
         changes) in
  let confidence := calculateDriftConfidence changes in
  let recommendation :=
    if negb hasChanges then create_new
    else if 2 <? highImpactChanges then manual_review
    else if Js.size changes <=? 3 then update_existing
    else manual_review in
  DriftAnalysis.mk hasChanges confidence changes recommendation.

End QAService.

(** The title change as the local detection grades it. *)
Definition gradeTitleMedium (c : DriftChange.t) : DriftChange.t :=
  if String.eqb (DriftChange.section c) "title" then
    DriftChange.mk (DriftChange.section c) (DriftChange.type c)
      (DriftChange.oldValue c) (DriftChange.newValue c) medium
  else c.


(** A section list without the sections that a later one of the same title
    hides: what the title-keyed map keeps of it, in its order. *)
Definition lastByTitle (l : list DocumentSection.t) : list DocumentSection.t :=
  map snd (sectionMap l).


(** The document [d] with another section list and nothing else changed. *)
Definition withSections (d : EnrichedDocument.t)
  (sections : list DocumentSection.t) : EnrichedDocument.t :=
  let c := EnrichedDocument.enrichedContent d in
  EnrichedDocument.mk
    (EnrichedDocument.id d)
    (EnrichedDocument.originalInput d)
    (DocumentContent.mk (DocumentContent.title c)
       (DocumentContent.summary c)
       (DocumentContent.description c)
       (DocumentContent.purpose c)
       sections)
    (EnrichedDocument.metadata d)
    (EnrichedDocument.structuredData d)
    (EnrichedDocument.createdAt d)
    (EnrichedDocument.updatedAt d).


(* ================================================================= *)
(** ** Facts about the runtime structures *)

Section SetFacts.

Lemma Set_has_In (s : list string) (x : string) :
  Js.Set_has s x = true <-> In x s.
Proof.
  unfold Js.Set_has. rewrite existsb_exists. split.
  - intros [y [Hy Heq]]. apply String.eqb_eq in Heq. now subst.
  - intros H. exists x. split; [assumption | apply String.eqb_refl].
Qed.

Lemma Set_add_In (s : list string) (x y : string) :
  In y (Js.Set_add s x) <-> In y s \/ y = x.
Proof.
  unfold Js.Set_add. destruct (Js.Set_has s x) eqn:E.
  - apply Set_has_In in E. split; [auto | intros [H | ->]; assumption].
  - rewrite in_app_iff. simpl. intuition.
Qed.

Lemma Set_add_NoDup (s : list string) (x : string) :
  NoDup s -> NoDup (Js.Set_add s x).
Proof.
  intros Hs. unfold Js.Set_add. destruct (Js.Set_has s x) eqn:E; [assumption|].
  assert (Hx : ~ In x s).
  { intros H. apply Set_has_In in H. congruence. }
  clear E. induction Hs as [| a s Ha Hs IH]; simpl.
  - constructor; [auto | constructor].
  - constructor.
    + rewrite in_app_iff. simpl in *. intuition.
    + apply IH. simpl in Hx. intuition.
Qed.

Lemma Set_fold_spec (l acc : list string) :
  NoDup acc ->
  NoDup (fold_left Js.Set_add l acc)
  /\ (forall x, In x (fold_left Js.Set_add l acc) <-> In x acc \/ In x l).
Proof.
  revert acc. induction l as [| a l IH]; intros acc Hacc; simpl.
  - split; [assumption | intuition].
  - destruct (IH (Js.Set_add acc a) (Set_add_NoDup a Hacc)) as [Hnd Hin].
    split; [assumption|]. intros x. rewrite Hin, Set_add_In. intuition.
Qed.

Lemma Set_of_NoDup (l : list string) : NoDup (Js.Set_of l).
Proof. apply Set_fold_spec. constructor. Qed.

Lemma Set_of_In (l : list string) (x : string) :
  In x (Js.Set_of l) <-> In x l.
Proof.
  unfold Js.Set_of. destruct (@Set_fold_spec l [] (NoDup_nil _)) as [_ H].
  rewrite H. simpl. intuition.
Qed.

End SetFacts.

Section MapFacts.
Variable V : Type.
Implicit Types (m : list (string * V)) (k : string) (v : V).

Lemma Map_get_set m k v k' :
  Js.Map_get (Js.Map_set m k v) k'
  = if String.eqb k k' then Some v else Js.Map_get m k'.
Proof.
  induction m as [| [k0 v0] m IH]; simpl.
  - reflexivity.
  - destruct (String.eqb k0 k) eqn:E0; simpl.
    + apply String.eqb_eq in E0. subst k0.
      destruct (String.eqb k k'); reflexivity.
    + destruct (String.eqb k0 k') eqn:E1.
      * apply String.eqb_eq in E1. subst k0.
        rewrite String.eqb_sym in E0. now rewrite E0.
      * exact IH.
Qed.

Lemma Map_has_keys m k : Js.Map_has m k = true <-> In k (keys m).
Proof.
  unfold Js.Map_has. induction m as [| [k0 v0] m IH]; simpl.
  - split; [discriminate | contradiction].
  - destruct (String.eqb k0 k) eqn:E.
    + apply String.eqb_eq in E. intuition.
    + apply String.eqb_neq in E. rewrite IH. intuition.
Qed.

Lemma Map_has_false m k : Js.Map_has m k = false <-> ~ In k (keys m).
Proof.
  rewrite <- Map_has_keys. destruct (Js.Map_has m k); intuition congruence.
Qed.

Lemma Map_set_keys m k v :
  keys (Js.Map_set m k v) = if Js.Map_has m k then keys m else keys m ++ [k].
Proof.
  unfold Js.Map_has. induction m as [| [k0 v0] m IH]; simpl.
  - reflexivity.
  - destruct (String.eqb k0 k) eqn:E; simpl.
    + reflexivity.
    + rewrite IH. now destruct (Js.Map_get m k).
Qed.

Lemma Map_set_In m k v k' v' :
  In (k', v') (Js.Map_set m k v) -> (k', v') = (k, v) \/ In (k', v') m.
Proof.
  induction m as [| [k0 v0] m IH]; simpl.
  - intuition.
  - destruct (String.eqb k0 k) eqn:E; simpl.
    + apply String.eqb_eq in E. subst k0. intuition.
    + intuition.
Qed.

Lemma Map_set_NoDup m k v : NoDup (keys m) -> NoDup (keys (Js.Map_set m k v)).
Proof.
  intros H. rewrite Map_set_keys. destruct (Js.Map_has m k) eqn:E.
  - assumption.
  - apply Map_has_false in E. apply NoDup_app; auto.
    + constructor; [auto | constructor].
    + intros x Hx [-> | []]. contradiction.
Qed.

Lemma Map_fold_spec (entries : list (string * V)) m :
  NoDup (keys m) ->
  let m' := fold_left (fun m kv => Js.Map_set m (fst kv) (snd kv)) entries m in
  NoDup (keys m')
  /\ (forall k, In k (keys m') <-> In k (keys m) \/ In k (keys entries))
  /\ (forall k v, In (k, v) m' -> In (k, v) m \/ In (k, v) entries).
Proof.
  revert m. induction entries as [| [k0 v0] entries IH]; intros m Hm; simpl.
  - split; [assumption | split; intros; intuition].
  - destruct (IH (Js.Map_set m k0 v0) (@Map_set_NoDup m k0 v0 Hm))
      as (Hnd & Hkeys & Hin).
    split; [assumption | split].
    + intros k. rewrite Hkeys, Map_set_keys.
      change (keys ((k0, v0) :: entries)) with (k0 :: keys entries).
      destruct (Js.Map_has m k0) eqn:E.
      * apply Map_has_keys in E. simpl. split.
        -- intros [H | H]; auto.
        -- intros [H | [<- | H]]; auto.
      * rewrite in_app_iff. simpl. intuition.
    + intros k v H. apply Hin in H. destruct H as [H | H]; [| auto].
      apply Map_set_In in H. intuition.
Qed.

Lemma Map_of_NoDup (entries : list (string * V)) :
  NoDup (keys (Js.Map_of entries)).
Proof. apply Map_fold_spec. constructor. Qed.

Lemma Map_of_keys (entries : list (string * V)) k :
  In k (keys (Js.Map_of entries)) <-> In k (keys entries).
Proof.
  destruct (@Map_fold_spec entries [] (NoDup_nil _)) as (_ & H & _).
  unfold Js.Map_of. rewrite H. simpl. intuition.
Qed.

Lemma Map_of_In (entries : list (string * V)) k v :
  In (k, v) (Js.Map_of entries) -> In (k, v) entries.
Proof.
  destruct (@Map_fold_spec entries [] (NoDup_nil _)) as (_ & _ & H).
  intros Hin. apply H in Hin. simpl in Hin. intuition.
Qed.

Lemma Map_get_In m k v :
  NoDup (keys m) -> In (k, v) m -> Js.Map_get m k = Some v.
Proof.
  induction m as [| [k0 v0] m IH]; simpl; intros Hnd Hin.
  - contradiction.
  - inversion Hnd as [| ? ? Hk0 Hm]; subst.
    destruct Hin as [Heq | Hin].
    + inversion Heq; subst. now rewrite String.eqb_refl.
    + destruct (String.eqb k0 k) eqn:E.
      * apply String.eqb_eq in E. subst k0. exfalso. apply Hk0.
        unfold keys. apply in_map_iff. now exists (k, v).
      * now apply IH.
Qed.

Lemma Map_get_Some_In m k v : Js.Map_get m k = Some v -> In (k, v) m.
Proof.
  induction m as [| [k0 v0] m IH]; simpl; [discriminate|].
  destruct (String.eqb k0 k) eqn:E.
  - apply String.eqb_eq in E. intros [= ->]. subst. now left.
  - intros H. right. now apply IH.
Qed.

Lemma Map_has_get m k :
  Js.Map_has m k = match Js.Map_get m k with Some _ => true | None => false end.
Proof. reflexivity. Qed.

Lemma find_app_last (A : Type) (p : A -> bool) (l : list A) (a : A) :
  find p (l ++ [a])
  = match find p l with
    | Some x => Some x
    | None => if p a then Some a else None
    end.
Proof.
  induction l as [| b l IH]; simpl; [reflexivity|].
  destruct (p b); [reflexivity | exact IH].
Qed.

(** On duplicate keys the last entry wins. *)
Lemma Map_fold_get (entries : list (string * V)) m k :
  Js.Map_get
    (fold_left (fun m kv => Js.Map_set m (fst kv) (snd kv)) entries m) k
  = match find (fun kv => String.eqb (fst kv) k) (rev entries) with
    | Some kv => Some (snd kv)
    | None => Js.Map_get m k
    end.
Proof.
  revert m. induction entries as [| [k0 v0] entries IH]; intros m.
  - reflexivity.
  - cbn [fold_left rev fst snd]. rewrite IH, find_app_last.
    destruct (find _ (rev entries)); [reflexivity|].
    rewrite Map_get_set. cbn [fst snd].
    now destruct (String.eqb k0 k).
Qed.

Lemma Map_of_get (entries : list (string * V)) k :
  Js.Map_get (Js.Map_of entries) k
  = option_map snd (find (fun kv => String.eqb (fst kv) k) (rev entries)).
Proof.
  unfold Js.Map_of. rewrite Map_fold_get.
  now destruct (find _ (rev entries)).
Qed.

End MapFacts.

Section LoopFacts.
Variables A B : Type.

Lemma for_of_flat_map (l : list A) (body : A -> list B) (acc : list B) :
  Js.for_of l body acc = acc ++ flat_map body l.
Proof.
  unfold Js.for_of. revert acc. induction l as [| a l IH]; intros acc; simpl.
  - now rewrite app_nil_r.
  - rewrite IH. now rewrite app_assoc.
Qed.

Lemma flat_map_nil (l : list A) (body : A -> list B) :
  (forall a, In a l -> body a = []) -> flat_map body l = [].
Proof.
  induction l as [| a l IH]; simpl; intros H; [reflexivity|].
  rewrite (H a) by now left. simpl. apply IH. intros; apply H. now right.
Qed.

End LoopFacts.


(* ================================================================= *)
(** ** The text similarity scorer *)

Section Similarity.
Import DriftDetection.

Lemma split_ws_not_nil (s : string) : Js.split_ws s <> [].
Proof.
  induction s as [| c s IH]; simpl; [discriminate|].
  destruct (Js.isWhiteSpace c).
  - destruct (Js.startsWithWhiteSpace s); [exact IH | discriminate].
  - destruct (Js.split_ws s); discriminate.
Qed.

(** Every string has a token, so the union of two token sets has one too:
    the guard on an empty union never fires. *)
Lemma tokenSet_not_nil (s : string) : tokenSet s <> [].
Proof.
  unfold tokenSet.
  destruct (Js.split_ws (Js.toLowerCase s)) as [| x l] eqn:E.
  - now apply split_ws_not_nil in E.
  - intros H. assert (Hin : In x (Js.Set_of (x :: l))).
    { apply <- Set_of_In. now left. }
    rewrite H in Hin. contradiction.
Qed.

Lemma union_not_nil (a b : string) :
  Js.Set_of (tokenSet a ++ tokenSet b) <> [].
Proof.
  destruct (tokenSet a) as [| x l] eqn:E.
  - now apply tokenSet_not_nil in E.
  - intros H. assert (Hin : In x (Js.Set_of ((x :: l) ++ tokenSet b))).
    { apply <- Set_of_In. now left. }
    rewrite H in Hin. contradiction.
Qed.

Lemma intersection_le_union (set1 set2 : list string) :
  Js.size (Js.Set_of (filter (Js.Set_has set2) set1))
  <= Js.size (Js.Set_of (set1 ++ set2)).
Proof.
  unfold Js.size. apply NoDup_incl_length.
  - apply Set_of_NoDup.
  - intros x Hx. apply -> Set_of_In in Hx. apply filter_In in Hx.
    apply <- Set_of_In. apply in_or_app. left. tauto.
Qed.

Lemma Zpos_of_nat (u : nat) : u <> 0 -> Z.pos (Pos.of_nat u) = Z.of_nat u.
Proof.
  intros Hu. rewrite <- (Nat2Pos.id u Hu) at 2. now rewrite positive_nat_Z.
Qed.

Lemma sizeRatio_range (i u : nat) :
  i <= u -> (0 <= sizeRatio i u)%Q /\ (sizeRatio i u <= 1)%Q.
Proof.
  intros Hle. unfold sizeRatio. destruct (u =? 0) eqn:E.
  - split; unfold Qle; simpl; lia.
  - apply Nat.eqb_neq in E. pose proof (Zpos_of_nat E) as Hu.
    split; unfold Qle; cbn [Qnum Qden]; rewrite ?Hu; lia.
Qed.

(** C8: the similarity of two strings lies between zero and one; an empty
    union is given the similarity one instead of a division by zero; and two
    empty strings have similarity one. *)
Theorem calculateStringSimilarity_range :
  (forall a b : string,
      (0 <= calculateStringSimilarity a b)%Q
      /\ (calculateStringSimilarity a b <= 1)%Q)
  /\ (forall intersectionSize : nat, sizeRatio intersectionSize 0 = 1%Q)
  /\ calculateStringSimilarity "" "" = 1%Q.
Proof.
  split; [| split].
  - intros a b. unfold calculateStringSimilarity.
    apply sizeRatio_range, intersection_le_union.
  - reflexivity.
  - reflexivity.
Qed.

End Similarity.


(* ================================================================= *)
(** ** A document compared with itself *)

Section SelfComparison.
Import DriftDetection.
Variable Number_toString : float -> string.

Lemma analyzeTextChanges_same (section text : string)
  (ignoreMinor : option bool) :
  analyzeTextChanges section text text ignoreMinor = [].
Proof. unfold analyzeTextChanges. now rewrite String.eqb_refl. Qed.

Lemma In_keys (V : Type) (m : list (string * V)) (k : string) (v : V) :
  In (k, v) m -> In k (keys m).
Proof. intros H. unfold keys. apply in_map_iff. now exists (k, v). Qed.

Lemma sectionChangesOfMaps_same (m : list (string * DocumentSection.t))
  (ignoreMinor : bool) :
  NoDup (keys m) -> sectionChangesOfMaps m m ignoreMinor = [].
Proof.
  intros Hnd. unfold sectionChangesOfMaps. rewrite !for_of_flat_map.
  rewrite !flat_map_nil; try reflexivity.
  - intros [k s] Hin. rewrite (@Map_get_In _ m k s Hnd Hin).
    now rewrite String.eqb_refl.
  - intros [k s] Hin. apply In_keys, Map_has_keys in Hin. now rewrite Hin.
  - intros [k s] Hin. apply In_keys, Map_has_keys in Hin. now rewrite Hin.
Qed.

Lemma analyzeSectionChanges_same (l : list DocumentSection.t)
  (ignoreMinor : option bool) :
  analyzeSectionChanges l l ignoreMinor = [].
Proof.
  unfold analyzeSectionChanges. apply sectionChangesOfMaps_same.
  apply Map_of_NoDup.
Qed.

Lemma strictNotEqual_same (a : option string) : Js.strictNotEqual a a = false.
Proof. destruct a; simpl; [now rewrite String.eqb_refl | reflexivity]. Qed.

Lemma analyzeMetadataChanges_same (m : EnrichedDocumentMetadata.t)
  (focusAreas : option (list string)) :
  analyzeMetadataChanges Number_toString m m focusAreas = [].
Proof.
  unfold analyzeMetadataChanges. rewrite for_of_flat_map. simpl.
  apply flat_map_nil. intros field _. now rewrite strictNotEqual_same.
Qed.

(** C4: a document compared with itself has no changes: [hasChanges] is
    false, the confidence is 1.0, the change list is empty and the
    recommendation is create-new, whatever the options. *)
Theorem analyzeDocuments_self (d : EnrichedDocument.t) (options : Options.t) :
  analyzeDocuments Number_toString d d options
  = DriftAnalysis.mk false 1.0%float [] create_new.
Proof.
  unfold analyzeDocuments. cbv zeta.
  rewrite !String.eqb_refl, analyzeTextChanges_same,
    analyzeSectionChanges_same, analyzeMetadataChanges_same.
  simpl. now destruct (orFalse (Options.ignoreMinorChanges options)).
Qed.

End SelfComparison.


(* ================================================================= *)
(** ** Confidence and recommendation *)

Section Aggregation.
Import DriftDetection.
Variable Number_toString : float -> string.

Lemma countSignificance_count (s : Significance)
  (changes : list DriftChange.t) :
  countSignificance s changes = Spec.count s changes.
Proof.
  unfold countSignificance, Js.size.
  induction changes as [| c rest IH]; simpl; [reflexivity|].
  destruct (Significance_eqb (DriftChange.significance c) s); simpl;
    now rewrite IH.
Qed.

Lemma calculateConfidence_spec (changes : list DriftChange.t) :
  calculateConfidence changes = Spec.confidence changes.
Proof.
  unfold calculateConfidence, Spec.confidence, Spec.clamp.
  destruct changes as [| c rest]; [reflexivity|].
  cbv zeta. rewrite !countSignificance_count. reflexivity.
Qed.

Lemma generateRecommendation_spec (changes : list DriftChange.t)
  (confidence : float) :
  generateRecommendation changes confidence
  = Spec.recommendation changes confidence.
Proof.
  unfold generateRecommendation, Spec.recommendation.
  destruct changes as [| c rest]; [reflexivity|].
  cbv zeta. rewrite !countSignificance_count. reflexivity.
Qed.

(** The returned changes are the filtered ones: with [ignoreMinorChanges]
    set, none of them has low significance. *)
Lemma analyzeDocuments_filtered (existing newDoc : EnrichedDocument.t)
  (options : Options.t) :
  Options.ignoreMinorChanges options = Some true ->
  Forall (fun c => DriftChange.significance c <> low)
    (DriftAnalysis.changes
       (analyzeDocuments Number_toString existing newDoc options)).
Proof.
  intros H. unfold analyzeDocuments. cbv zeta. rewrite H.
  cbn [orFalse DriftAnalysis.changes]. apply Forall_forall.
  intros c Hc. apply filter_In in Hc. destruct Hc as [_ Hc].
  intros Heq. rewrite Heq in Hc. discriminate.
Qed.

(** C2: the confidence that [analyzeDocuments] returns is 1.0 when the
    returned (filtered) change list is empty and otherwise 0.8, minus
    min(0.4, n * 0.05) for n changes, minus 0.15 per change of high and 0.08
    per change of medium significance, clamped to the interval from 0.1 to
    1.0. *)
Theorem analyzeDocuments_confidence (existing newDoc : EnrichedDocument.t)
  (options : Options.t) :
  let analysis := analyzeDocuments Number_toString existing newDoc options in
  DriftAnalysis.confidence analysis
  = Spec.confidence (DriftAnalysis.changes analysis).
Proof.
  unfold analyzeDocuments. cbv zeta. cbn [DriftAnalysis.confidence
    DriftAnalysis.changes]. apply calculateConfidence_spec.
Qed.

(** C3: the recommendation that [analyzeDocuments] returns follows the
    order of precedence: create-new for an empty change list; else
    manual-review when more than two changes are of high significance or
    the confidence is below 0.5; else update-existing when there are at most
    three changes and at most one of high significance; else create-new
    when there are more than five changes; else merge-required. *)
Theorem analyzeDocuments_recommendation
  (existing newDoc : EnrichedDocument.t) (options : Options.t) :
  let analysis := analyzeDocuments Number_toString existing newDoc options in
  DriftAnalysis.recommendation analysis
  = Spec.recommendation (DriftAnalysis.changes analysis)
      (DriftAnalysis.confidence analysis).
Proof.
  unfold analyzeDocuments. cbv zeta. cbn [DriftAnalysis.confidence
    DriftAnalysis.changes DriftAnalysis.recommendation].
  apply generateRecommendation_spec.
Qed.

(** C10: the [threshold] option does not reach the result: two option
    values that differ in it only, one of them possibly omitting it, give
    the same analysis. *)
Theorem analyzeDocuments_threshold_unused
  (existing newDoc : EnrichedDocument.t) (options1 options2 : Options.t) :
  Options.ignoreMinorChanges options1 = Options.ignoreMinorChanges options2 ->
  Options.focusAreas options1 = Options.focusAreas options2 ->
  analyzeDocuments Number_toString existing newDoc options1
  = analyzeDocuments Number_toString existing newDoc options2.
Proof.
  intros Hminor Hfocus. unfold analyzeDocuments. cbv zeta.
  rewrite Hminor, Hfocus. reflexivity.
Qed.

(** The second scenario of the specification: one change of high and one of
    medium significance give 0.8 - 0.1 - 0.23, which is below 0.5, hence
    manual-review. *)
Lemma confidence_two_changes (c1 c2 : DriftChange.t) :
  DriftChange.significance c1 = high ->
  DriftChange.significance c2 = medium ->
  calculateConfidence [c1; c2] = (0.8 - 0.1 - (0.15 + 0.08))%float
  /\ generateRecommendation [c1; c2] (calculateConfidence [c1; c2])
     = manual_review.
Proof.
  intros H1 H2. unfold calculateConfidence, generateRecommendation,
    countSignificance.
  cbn [Js.size List.length Nat.eqb filter]. rewrite H1, H2.
  split; reflexivity.
Qed.

End Aggregation.


(* ================================================================= *)
(** ** The title scenario *)

Section TitleScenario.
Import DriftDetection.
Variable Number_toString : float -> string.
Local Open Scope string_scope.

(** C1, as the code has it: when only the title differs, Auth Service
    against Authentication Service, the analysis with default options holds
    exactly one change, a modification of the section title; the two titles
    share one token of three, so the similarity is 1/3, which is below 0.5
    and makes the significance high; the confidence is 0.8 - 0.05 - 0.15,
    the number 0.6, and the recommendation is update-existing (one change,
    one of high significance). *)
Theorem analyzeDocuments_title_scenario (d : EnrichedDocument.t) :
  analyzeDocuments Number_toString
    (withTitle d "Auth Service") (withTitle d "Authentication Service")
    Options.empty
  = DriftAnalysis.mk true 0.6%float
      [DriftChange.mk "title" modification
         (Some "Auth Service") (Some "Authentication Service") high]
      update_existing
  /\ calculateStringSimilarity "Auth Service" "Authentication Service"
     = (1 # 3)%Q
  /\ Qlt_bool (1 # 3) HIGH_SIGNIFICANCE_THRESHOLD = true.
Proof.
  split; [| split; reflexivity].
  unfold analyzeDocuments, withTitle. cbv zeta.
  cbn [EnrichedDocument.enrichedContent EnrichedDocument.metadata
       DocumentContent.title DocumentContent.description
       DocumentContent.purpose DocumentContent.sections].
  rewrite !String.eqb_refl, analyzeTextChanges_same,
    analyzeSectionChanges_same, analyzeMetadataChanges_same.
  reflexivity.
Qed.

End TitleScenario.

(** C1, as the specification states it, fails on two documents that differ
    in the title only: the similarity of the titles is not 2/3 and the one
    change is not of medium significance. *)
Lemma title_scenario_counterexample :
  ~ (DriftDetection.calculateStringSimilarity
       "Auth Service" "Authentication Service" == 2 # 3)%Q
  /\ map DriftChange.significance
       (DriftAnalysis.changes
          (DriftDetection.analyzeDocuments Examples.numberToString
             Examples.authExisting Examples.authIncoming Options.empty))
     <> [medium].
Proof.
  split.
  - vm_compute. discriminate.
  - vm_compute. discriminate.
Qed.

(* ================================================================= *)
(** ** The merge preview with the existing document preferred *)

(** C7: with the strategy prefer-existing the preview is the existing
    document in every field, the identifier, the creation time, the content
    with its sections and the metadata included; only [updatedAt] is set
    anew, to the time read from the clock. *)
Theorem createMergePreview_prefer_existing
  (existing newDoc : EnrichedDocument.t) (clock : DriftDetection.Clock) :
  let merged :=
    DriftDetection.createMergePreview existing newDoc (Some prefer_existing)
      clock in
  EnrichedDocument.id merged = EnrichedDocument.id existing
  /\ EnrichedDocument.originalInput merged
     = EnrichedDocument.originalInput existing
  /\ EnrichedDocument.enrichedContent merged
     = EnrichedDocument.enrichedContent existing
  /\ EnrichedDocument.metadata merged = EnrichedDocument.metadata existing
  /\ EnrichedDocument.structuredData merged
     = EnrichedDocument.structuredData existing
  /\ EnrichedDocument.createdAt merged = EnrichedDocument.createdAt existing
  /\ EnrichedDocument.updatedAt merged = clock 0.
Proof. cbv zeta. simpl. repeat split. Qed.

(* ================================================================= *)
(** ** Documents without a section list *)

Section MissingSections.
Import DriftDetection.
Variable Number_toString : float -> string.

Lemma analyzeSectionChangesUnchecked_defined
  (existingSections newSections : list DocumentSection.t)
  (ignoreMinor : option bool) :
  analyzeSectionChangesUnchecked (Some existingSections) (Some newSections)
    ignoreMinor
  = Js.Returned
      (analyzeSectionChanges existingSections newSections ignoreMinor).
Proof. reflexivity. Qed.

Lemma analyzeSectionChangesUnchecked_returns
  (existingSections newSections : option (list DocumentSection.t))
  (ignoreMinor : option bool) :
  Js.isReturned
    (analyzeSectionChangesUnchecked existingSections newSections ignoreMinor)
  = isDefined existingSections && isDefined newSections.
Proof. now destruct existingSections, newSections. Qed.

(** C9, as the code has it: on objects that carry their section lists the
    call returns the analysis of the typed documents, an empty list
    included; and the call returns at all exactly when both section lists
    are present, as [existingSections.map] and [newSections.map] throw a
    TypeError on [undefined]. *)
Theorem analyzeDocumentsUnchecked_sections :
  (forall (existing newDoc : EnrichedDocument.t) (options : Options.t),
      analyzeDocumentsUnchecked Number_toString
        (Unchecked.ofDocument existing) (Unchecked.ofDocument newDoc) options
      = Js.Returned
          (analyzeDocuments Number_toString existing newDoc options))
  /\ (forall (existing newDoc : Unchecked.document) (options : Options.t),
         Js.isReturned
           (analyzeDocumentsUnchecked Number_toString existing newDoc options)
         = isDefined (Unchecked.sections (Unchecked.enrichedContent existing))
           && isDefined
                (Unchecked.sections (Unchecked.enrichedContent newDoc))).
Proof.
  split.
  - reflexivity.
  - intros existing newDoc options. unfold analyzeDocumentsUnchecked.
    cbv zeta.
    destruct (Unchecked.sections (Unchecked.enrichedContent existing));
      destruct (Unchecked.sections (Unchecked.enrichedContent newDoc));
      reflexivity.
Qed.

End MissingSections.

(** C9, as the specification states it, fails on an existing document whose
    section list is missing: the call throws instead of returning the
    analysis that an empty section list gives. *)
Lemma missing_sections_counterexample :
  DriftDetection.analyzeDocumentsUnchecked Examples.numberToString
    (Unchecked.withoutSections Examples.authExisting)
    (Unchecked.ofDocument Examples.authIncoming) Options.empty
  = Js.Thrown Js.TypeError
  /\ Js.isReturned
       (DriftDetection.analyzeDocumentsUnchecked Examples.numberToString
          (Unchecked.withoutSections Examples.authExisting)
          (Unchecked.ofDocument Examples.authIncoming) Options.empty)
     = false.
Proof. split; reflexivity. Qed.


(* ================================================================= *)
(** ** The section differ *)

Section SectionDiffer.
Import DriftDetection.

Lemma keys_sectionEntry (l : list DocumentSection.t) :
  keys (map sectionEntry l) = titlesOf l.
Proof. unfold keys, titlesOf. rewrite map_map. reflexivity. Qed.

Lemma sectionMap_NoDup (l : list DocumentSection.t) :
  NoDup (keys (sectionMap l)).
Proof. apply Map_of_NoDup. Qed.

Lemma sectionMap_keys (l : list DocumentSection.t) (t : string) :
  In t (keys (sectionMap l)) <-> In t (titlesOf l).
Proof. unfold sectionMap. now rewrite Map_of_keys, keys_sectionEntry. Qed.

Lemma sectionMap_TitleKeyed (l : list DocumentSection.t) :
  TitleKeyed (sectionMap l).
Proof.
  intros k s H. apply Map_of_In in H. apply in_map_iff in H.
  destruct H as [s' [Heq _]]. unfold sectionEntry in Heq.
  now inversion Heq.
Qed.

Lemma sectionMap_has (l : list DocumentSection.t) (t : string) :
  Js.Map_has (sectionMap l) t = true <-> In t (titlesOf l).
Proof. now rewrite Map_has_keys, sectionMap_keys. Qed.

(** Sections that share a title are keyed by it once, and the last of them
    is the one that the map holds. *)
Lemma sectionMap_last_wins (l : list DocumentSection.t) (t : string) :
  Js.Map_get (sectionMap l) t
  = find (fun s => String.eqb (DocumentSection.title s) t) (rev l).
Proof.
  unfold sectionMap. rewrite Map_of_get, <- map_rev.
  induction (rev l) as [| s r IH]; simpl; [reflexivity|].
  destruct (String.eqb (DocumentSection.title s) t); [reflexivity | exact IH].
Qed.

Lemma TitleKeyed_tail (e : string * DocumentSection.t)
  (m : list (string * DocumentSection.t)) :
  TitleKeyed (e :: m) -> TitleKeyed m.
Proof. intros H k s Hin. apply H. now right. Qed.

(** The third loop, which fills two arrays at once. *)
Lemma modified_unchanged_fold (existingMap l : list (string * DocumentSection.t))
  (modified0 : list ModifiedSection.t) (unchanged0 : list DocumentSection.t) :
  fold_left
    (fun '(modified, unchanged) '(title, newSection) =>
       match Js.Map_get existingMap title with
       | Some existingSection =>
           if String.eqb (DocumentSection.content existingSection)
                         (DocumentSection.content newSection)
           then (modified, unchanged ++ [newSection])
           else
             let similarity :=
               calculateStringSimilarity
                 (DocumentSection.content existingSection)
                 (DocumentSection.content newSection) in
             (modified ++
              [ModifiedSection.mk title existingSection newSection
                 similarity],
              unchanged)
       | None => (modified, unchanged)
       end)
    l (modified0, unchanged0)
  = (modified0 ++ flat_map (modifiedOf existingMap) l,
     unchanged0 ++ flat_map (unchangedOf existingMap) l).
Proof.
  revert modified0 unchanged0.
  induction l as [| [k s] l IH]; intros modified0 unchanged0.
  - simpl. now rewrite !app_nil_r.
  - cbn [fold_left flat_map]. unfold modifiedOf at 1, unchangedOf at 1.
    cbn [fst snd]. destruct (Js.Map_get existingMap k) as [e |].
    + destruct (String.eqb (DocumentSection.content e)
                  (DocumentSection.content s)).
      * rewrite IH. cbn [app]. now rewrite <- app_assoc.
      * cbv zeta. rewrite IH. cbn [app]. now rewrite <- app_assoc.
    + rewrite IH. reflexivity.
Qed.

Lemma absentFrom_loop (other l : list (string * DocumentSection.t)) :
  Js.for_of l
    (fun '(title, section) =>
       if negb (Js.Map_has other title) then [section] else [])
    []
  = flat_map (absentFrom other) l.
Proof.
  rewrite for_of_flat_map. cbn [app]. apply flat_map_ext.
  now intros [k s].
Qed.

(** [compareSections], bucket by bucket. *)
Lemma compareSections_buckets
  (existingSections newSections : list DocumentSection.t) :
  compareSections existingSections newSections
  = SectionComparison.mk
      (flat_map (absentFrom (sectionMap existingSections))
         (sectionMap newSections))
      (flat_map (absentFrom (sectionMap newSections))
         (sectionMap existingSections))
      (flat_map (modifiedOf (sectionMap existingSections))
         (sectionMap newSections))
      (flat_map (unchangedOf (sectionMap existingSections))
         (sectionMap newSections)).
Proof.
  unfold compareSections. cbv zeta. fold (sectionMap existingSections).
  fold (sectionMap newSections).
  rewrite modified_unchanged_fold, !absentFrom_loop. reflexivity.
Qed.

End SectionDiffer.

Section Partition.
Import DriftDetection.

Lemma occurrences_app (t : string) (l1 l2 : list string) :
  occurrences t (l1 ++ l2) = occurrences t l1 + occurrences t l2.
Proof. apply count_occ_app. Qed.

Lemma occurrences_filter_split (t : string) (p : string -> bool)
  (l : list string) :
  occurrences t (filter p l) + occurrences t (filter (fun k => negb (p k)) l)
  = occurrences t l.
Proof.
  unfold occurrences. induction l as [| a l IH]; simpl; [reflexivity|].
  destruct (p a); simpl; destruct (string_dec a t); lia.
Qed.

Lemma occurrences_NoDup_in (t : string) (l : list string) :
  NoDup l -> In t l -> occurrences t l = 1.
Proof. intros Hnd Hin. now apply NoDup_count_occ'. Qed.

Lemma occurrences_not_in (t : string) (l : list string) :
  ~ In t l -> occurrences t l = 0.
Proof. intros H. now apply count_occ_not_In. Qed.

Lemma titles_absentFrom (other m : list (string * DocumentSection.t)) :
  TitleKeyed m ->
  titlesOf (flat_map (absentFrom other) m)
  = filter (fun k => negb (Js.Map_has other k)) (keys m).
Proof.
  unfold titlesOf. induction m as [| [k s] m IH]; intros Hm; simpl.
  - reflexivity.
  - unfold absentFrom at 1. cbn [fst snd]. rewrite map_app.
    rewrite IH by (eapply TitleKeyed_tail; eassumption).
    destruct (negb (Js.Map_has other k)); simpl; [| reflexivity].
    rewrite (Hm k s) by now left. reflexivity.
Qed.

Lemma occurrences_modified_unchanged (t : string)
  (existingMap m : list (string * DocumentSection.t)) :
  TitleKeyed m ->
  occurrences t
    (map ModifiedSection.title (flat_map (modifiedOf existingMap) m))
  + occurrences t (titlesOf (flat_map (unchangedOf existingMap) m))
  = occurrences t (filter (Js.Map_has existingMap) (keys m)).
Proof.
  unfold titlesOf. induction m as [| [k s] m IH]; intros Hm.
  - reflexivity.
  - cbn [flat_map keys map fst filter]. rewrite !map_app, !occurrences_app.
    fold (keys m).
    specialize (IH (TitleKeyed_tail Hm)).
    unfold modifiedOf at 1, unchangedOf at 1. cbn [fst snd].
    rewrite (Map_has_get existingMap k).
    destruct (Js.Map_get existingMap k) as [e |]; [| simpl; lia].
    assert (Hk : DocumentSection.title s = k) by (apply Hm; now left).
    destruct (String.eqb (DocumentSection.content e)
                (DocumentSection.content s));
      unfold occurrences in *; simpl; rewrite ?Hk;
      destruct (string_dec k t); lia.
Qed.

(** The titles of a bucket come from one of the two lists. *)
Lemma In_filter_keys (p : string -> bool) (l : list string) (t : string) :
  In t (filter p l) <-> In t l /\ p t = true.
Proof. apply filter_In. Qed.

(** C5: [compareSections] partitions the titles: a title of the existing or
    of the incoming list occurs exactly once in the four buckets added,
    removed, modified and unchanged taken together, hence in exactly one of
    them. *)
Theorem compareSections_partition
  (existingSections newSections : list DocumentSection.t) (t : string) :
  In t (titlesOf existingSections) \/ In t (titlesOf newSections) ->
  let c := compareSections existingSections newSections in
  occurrences t (addedTitles c) + occurrences t (removedTitles c)
  + occurrences t (modifiedTitles c) + occurrences t (unchangedTitles c)
  = 1.
Proof.
  intros Hin. cbv zeta. rewrite compareSections_buckets.
  unfold addedTitles, removedTitles, modifiedTitles, unchangedTitles.
  cbn [SectionComparison.added SectionComparison.removed
       SectionComparison.modified SectionComparison.unchanged].
  rewrite !titles_absentFrom by apply sectionMap_TitleKeyed.
  pose proof (occurrences_modified_unchanged t (sectionMap existingSections)
                (sectionMap_TitleKeyed newSections)) as Hmu.
  pose proof (occurrences_filter_split t (Js.Map_has (sectionMap existingSections))
                (keys (sectionMap newSections))) as Hsplit.
  set (E := sectionMap existingSections) in *.
  set (N := sectionMap newSections) in *.
  assert (Hcases :
            occurrences t (keys N)
            + occurrences t (filter (fun k => negb (Js.Map_has N k)) (keys E))
            = 1).
  { destruct (Js.Map_has N t) eqn:HN.
    - rewrite (@occurrences_NoDup_in t (keys N)
                 (sectionMap_NoDup newSections))
        by now apply Map_has_keys.
      rewrite occurrences_not_in; [reflexivity|].
      intros H. apply filter_In in H. destruct H as [_ H].
      rewrite HN in H. discriminate.
    - rewrite occurrences_not_in by now apply Map_has_false.
      rewrite occurrences_NoDup_in; [reflexivity | |].
      + apply NoDup_filter, sectionMap_NoDup.
      + apply filter_In. split; [| now rewrite HN].
        apply sectionMap_keys. destruct Hin as [H | H]; [assumption|].
        apply sectionMap_has in H. fold N in H. congruence. }
  lia.
Qed.

(** A title that neither list has is in no bucket. *)
Lemma compareSections_no_stranger
  (existingSections newSections : list DocumentSection.t) (t : string) :
  ~ In t (titlesOf existingSections) -> ~ In t (titlesOf newSections) ->
  let c := compareSections existingSections newSections in
  occurrences t (addedTitles c) + occurrences t (removedTitles c)
  + occurrences t (modifiedTitles c) + occurrences t (unchangedTitles c)
  = 0.
Proof.
  intros HE HN. cbv zeta. rewrite compareSections_buckets.
  unfold addedTitles, removedTitles, modifiedTitles, unchangedTitles.
  cbn [SectionComparison.added SectionComparison.removed
       SectionComparison.modified SectionComparison.unchanged].
  rewrite !titles_absentFrom by apply sectionMap_TitleKeyed.
  pose proof (occurrences_modified_unchanged t (sectionMap existingSections)
                (sectionMap_TitleKeyed newSections)) as Hmu.
  rewrite <- sectionMap_keys in HE, HN.
  assert (H1 : forall p, occurrences t
                 (filter p (keys (sectionMap newSections))) = 0).
  { intros p. apply occurrences_not_in. intros H.
    apply filter_In in H. tauto. }
  assert (H2 : forall p, occurrences t
                 (filter p (keys (sectionMap existingSections))) = 0).
  { intros p. apply occurrences_not_in. intros H.
    apply filter_In in H. tauto. }
  rewrite H1 in Hmu. rewrite H1, H2. lia.
Qed.

End Partition.


(* ================================================================= *)
(** ** Merging sections and comparing again *)

Section RoundTrip.
Import DriftDetection.

Lemma In_occurrences (t : string) (l : list string) :
  In t l <-> occurrences t l > 0.
Proof. apply count_occ_In. Qed.

Lemma modified_new_titles (existingMap m : list (string * DocumentSection.t)) :
  TitleKeyed m ->
  titlesOf (map ModifiedSection.new (flat_map (modifiedOf existingMap) m))
  = map ModifiedSection.title (flat_map (modifiedOf existingMap) m).
Proof.
  unfold titlesOf. induction m as [| [k s] m IH]; intros Hm.
  - reflexivity.
  - cbn [flat_map]. rewrite !map_app, IH by (eapply TitleKeyed_tail; eassumption).
    f_equal. unfold modifiedOf. cbn [fst snd].
    destruct (Js.Map_get existingMap k) as [e |]; [| reflexivity].
    destruct (String.eqb _ _); [reflexivity|].
    simpl. rewrite (Hm k s) by now left. reflexivity.
Qed.

(** The titles that both maps have are the modified and the unchanged
    ones. *)
Lemma In_modified_or_unchanged (t : string)
  (existingMap m : list (string * DocumentSection.t)) :
  TitleKeyed m ->
  In t (map ModifiedSection.title (flat_map (modifiedOf existingMap) m))
  \/ In t (titlesOf (flat_map (unchangedOf existingMap) m))
  <-> In t (keys m) /\ Js.Map_has existingMap t = true.
Proof.
  intros Hm. rewrite <- In_filter_keys. rewrite !In_occurrences.
  pose proof (occurrences_modified_unchanged t existingMap Hm). lia.
Qed.

Lemma mergeSections_sections (existing newDoc : EnrichedDocument.t)
  (clock : Clock) :
  sectionsOf (createMergePreview existing newDoc (Some merge_sections) clock)
  = mergedSectionsOf (sectionsOf existing) (sectionsOf newDoc).
Proof. reflexivity. Qed.

(** The merged list has the titles of the incoming list, no more and no
    less. *)
Lemma mergedSections_titles
  (existingSections newSections : list DocumentSection.t) (t : string) :
  In t (titlesOf (mergedSectionsOf existingSections newSections))
  <-> In t (titlesOf newSections).
Proof.
  unfold mergedSectionsOf. cbv zeta. rewrite compareSections_buckets.
  cbn [SectionComparison.added SectionComparison.modified
       SectionComparison.unchanged].
  unfold titlesOf at 1. rewrite !map_app, !in_app_iff.
  fold (titlesOf (flat_map (unchangedOf (sectionMap existingSections))
                    (sectionMap newSections))).
  fold (titlesOf (map ModifiedSection.new
                    (flat_map (modifiedOf (sectionMap existingSections))
                       (sectionMap newSections)))).
  fold (titlesOf (flat_map (absentFrom (sectionMap existingSections))
                    (sectionMap newSections))).
  rewrite modified_new_titles by apply sectionMap_TitleKeyed.
  rewrite titles_absentFrom by apply sectionMap_TitleKeyed.
  pose proof (In_modified_or_unchanged t (sectionMap existingSections)
                (sectionMap_TitleKeyed newSections)) as Hmu.
  rewrite In_filter_keys, <- (sectionMap_keys newSections t).
  destruct (Js.Map_has (sectionMap existingSections) t); simpl in *;
    intuition congruence.
Qed.

Lemma mergedSections_has
  (existingSections newSections : list DocumentSection.t) (t : string) :
  Js.Map_has (sectionMap (mergedSectionsOf existingSections newSections)) t
  = Js.Map_has (sectionMap newSections) t.
Proof.
  pose proof (sectionMap_has (mergedSectionsOf existingSections newSections) t)
    as H1.
  pose proof (sectionMap_has newSections t) as H2.
  pose proof (mergedSections_titles existingSections newSections t) as H3.
  destruct (Js.Map_has (sectionMap (mergedSectionsOf _ _)) t),
    (Js.Map_has (sectionMap newSections) t); intuition congruence.
Qed.

Lemma removed_again
  (existingSections newSections : list DocumentSection.t) :
  SectionComparison.removed
    (compareSections existingSections
       (mergedSectionsOf existingSections newSections))
  = SectionComparison.removed (compareSections existingSections newSections).
Proof.
  rewrite !compareSections_buckets. cbn [SectionComparison.removed].
  apply flat_map_ext. intros [k s]. unfold absentFrom. cbn [fst snd].
  now rewrite mergedSections_has.
Qed.

Lemma removedTitles_spec
  (existingSections newSections : list DocumentSection.t) (t : string) :
  In t (removedTitles (compareSections existingSections newSections))
  <-> In t (titlesOf existingSections) /\ ~ In t (titlesOf newSections).
Proof.
  unfold removedTitles. rewrite compareSections_buckets.
  cbn [SectionComparison.removed].
  rewrite titles_absentFrom by apply sectionMap_TitleKeyed.
  rewrite In_filter_keys, sectionMap_keys, <- (sectionMap_has newSections).
  destruct (Js.Map_has (sectionMap newSections) t); simpl;
    intuition congruence.
Qed.

(** C6: after a merge with the strategy merge-sections, comparing the
    existing sections with the merged ones reports no title as removed that
    the first comparison classified as unchanged or modified; the removed
    bucket is the one of the first comparison, and an existing title is
    absent from the merged list exactly when it was classified as removed. *)
Theorem mergeSections_roundtrip (existing newDoc : EnrichedDocument.t)
  (clock : Clock) :
  let merged :=
    createMergePreview existing newDoc (Some merge_sections) clock in
  let original := compareSections (sectionsOf existing) (sectionsOf newDoc) in
  let again := compareSections (sectionsOf existing) (sectionsOf merged) in
  (forall t : string,
      In t (unchangedTitles original) \/ In t (modifiedTitles original) ->
      ~ In t (removedTitles again))
  /\ (forall t : string,
         In t (removedTitles original)
         <-> In t (titlesOf (sectionsOf existing))
             /\ ~ In t (titlesOf (sectionsOf merged)))
  /\ SectionComparison.removed again = SectionComparison.removed original.
Proof.
  cbv zeta. rewrite mergeSections_sections.
  set (es := sectionsOf existing). set (ns := sectionsOf newDoc).
  split; [| split].
  - intros t Hkept. unfold removedTitles. rewrite removed_again.
    fold (removedTitles (compareSections es ns)).
    rewrite removedTitles_spec. intros [_ Hnot]. apply Hnot.
    unfold unchangedTitles, modifiedTitles in Hkept.
    rewrite compareSections_buckets in Hkept.
    cbn [SectionComparison.modified SectionComparison.unchanged] in Hkept.
    apply sectionMap_keys.
    apply (In_modified_or_unchanged t (sectionMap es)
             (sectionMap_TitleKeyed ns)).
    tauto.
  - intros t. rewrite removedTitles_spec, mergedSections_titles. tauto.
  - apply removed_again.
Qed.

End RoundTrip.


(* ================================================================= *)
(** ** The theorems on the example documents *)

Section OnExamples.
Import DriftDetection.
Local Open Scope string_scope.

(** The stored and the incoming example: Overview is modified, Inputs is
    unchanged, Legacy is removed and Outputs is added. *)
Lemma compareSections_examples :
  let c := compareSections (sectionsOf Examples.stored)
             (sectionsOf Examples.incoming) in
  addedTitles c = ["Outputs"] /\ removedTitles c = ["Legacy"]
  /\ modifiedTitles c = ["Overview"] /\ unchangedTitles c = ["Inputs"].
Proof. cbv zeta. repeat split. Qed.

Lemma compareSections_partition_witness :
  (In "Legacy" (titlesOf (sectionsOf Examples.stored))
   \/ In "Legacy" (titlesOf (sectionsOf Examples.incoming)))
  /\ (let c := compareSections (sectionsOf Examples.stored)
                 (sectionsOf Examples.incoming) in
      occurrences "Legacy" (addedTitles c)
      + occurrences "Legacy" (removedTitles c)
      + occurrences "Legacy" (modifiedTitles c)
      + occurrences "Legacy" (unchangedTitles c) = 1).
Proof.
  assert (H : In "Legacy" (titlesOf (sectionsOf Examples.stored))
              \/ In "Legacy" (titlesOf (sectionsOf Examples.incoming))).
  { left. simpl. tauto. }
  split.
  - exact H.
  - exact (compareSections_partition (sectionsOf Examples.stored)
             (sectionsOf Examples.incoming) "Legacy" H).
Defined.

Lemma mergeSections_roundtrip_witness :
  (In "Overview"
     (unchangedTitles
        (compareSections (sectionsOf Examples.stored)
           (sectionsOf Examples.incoming)))
   \/ In "Overview"
        (modifiedTitles
           (compareSections (sectionsOf Examples.stored)
              (sectionsOf Examples.incoming))))
  /\ ~ In "Overview"
         (removedTitles
            (compareSections (sectionsOf Examples.stored)
               (sectionsOf
                  (createMergePreview Examples.stored Examples.incoming
                     (Some merge_sections) Examples.clock)))).
Proof.
  assert (H : In "Overview"
                (unchangedTitles
                   (compareSections (sectionsOf Examples.stored)
                      (sectionsOf Examples.incoming)))
              \/ In "Overview"
                   (modifiedTitles
                      (compareSections (sectionsOf Examples.stored)
                         (sectionsOf Examples.incoming)))).
  { right. simpl. tauto. }
  split.
  - exact H.
  - exact (proj1 (mergeSections_roundtrip Examples.stored Examples.incoming
                    Examples.clock) "Overview" H).
Defined.

Lemma analyzeDocuments_threshold_unused_witness :
  Options.threshold Examples.strict <> Options.threshold Examples.lenient
  /\ analyzeDocuments Examples.numberToString Examples.stored
       Examples.incoming Examples.strict
     = analyzeDocuments Examples.numberToString Examples.stored
         Examples.incoming Examples.lenient.
Proof.
  split.
  - discriminate.
  - apply (analyzeDocuments_threshold_unused Examples.numberToString
             Examples.stored Examples.incoming Examples.strict
             Examples.lenient); reflexivity.
Defined.

End OnExamples.


(* ================================================================= *)
(** ** Further facts: the similarity as a function of the token sets *)

Section SimilarityAlgebra.
Import DriftDetection.

Lemma Set_of_length_ext (l1 l2 : list string) :
  (forall x, In x l1 <-> In x l2) ->
  List.length (Js.Set_of l1) = List.length (Js.Set_of l2).
Proof.
  intros H. apply Permutation_length. apply NoDup_Permutation.
  - apply Set_of_NoDup.
  - apply Set_of_NoDup.
  - intros x. rewrite !Set_of_In. apply H.
Qed.


Lemma In_intersection (set1 set2 : list string) (x : string) :
  In x (Js.Set_of (filter (Js.Set_has set2) set1))
  <-> In x set1 /\ In x set2.
Proof. now rewrite Set_of_In, filter_In, Set_has_In. Qed.

Lemma In_union (set1 set2 : list string) (x : string) :
  In x (Js.Set_of (set1 ++ set2)) <-> In x set1 \/ In x set2.
Proof. now rewrite Set_of_In, in_app_iff. Qed.

Lemma union_size_positive (a b : string) :
  Js.size (Js.Set_of (tokenSet a ++ tokenSet b)) <> 0.
Proof.
  unfold Js.size. intros H. apply length_zero_iff_nil in H.
  now apply union_not_nil in H.
Qed.

Lemma sizeRatio_same (n : nat) : (sizeRatio n n == 1)%Q.
Proof.
  unfold sizeRatio. destruct (n =? 0) eqn:E; [reflexivity|].
  apply Nat.eqb_neq in E. unfold Qeq. cbn [Qnum Qden].
  rewrite (Zpos_of_nat E). lia.
Qed.


Lemma sizeRatio_zero (i u : nat) :
  u <> 0 -> (sizeRatio i u == 0)%Q <-> i = 0.
Proof.
  intros Hu. unfold sizeRatio. destruct (u =? 0) eqn:E.
  - apply Nat.eqb_eq in E. contradiction.
  - unfold Qeq. cbn [Qnum Qden]. lia.
Qed.

Lemma similarity_swap (a b : string) :
  calculateStringSimilarity a b = calculateStringSimilarity b a.
Proof.
  unfold calculateStringSimilarity. cbv zeta. unfold Js.size. f_equal.
  - apply Permutation_length. apply NoDup_Permutation;
      try apply Set_of_NoDup.
    intros x. rewrite !In_intersection. tauto.
  - apply Set_of_length_ext. intros x. rewrite !in_app_iff. tauto.
Qed.

(** X1: the similarity does not depend on the order of its arguments. *)
Theorem calculateStringSimilarity_symmetric (a b : string) :
  calculateStringSimilarity a b = calculateStringSimilarity b a.
Proof. exact (similarity_swap a b). Qed.


(** X3: the similarity is zero exactly when the two texts share no
    lower-cased token. *)
Theorem calculateStringSimilarity_zero_iff (a b : string) :
  (calculateStringSimilarity a b == 0)%Q
  <-> (forall x, In x (tokenSet a) -> ~ In x (tokenSet b)).
Proof.
  unfold calculateStringSimilarity. cbv zeta.
  rewrite (sizeRatio_zero _ (union_size_positive a b)). unfold Js.size.
  rewrite length_zero_iff_nil. split.
  - intros Hnil x Ha Hb.
    assert (Hx : In x (Js.Set_of
                         (filter (Js.Set_has (tokenSet b)) (tokenSet a)))).
    { apply In_intersection. tauto. }
    rewrite Hnil in Hx. contradiction.
  - intros Hdisjoint.
    destruct (Js.Set_of (filter (Js.Set_has (tokenSet b)) (tokenSet a)))
      as [| x l] eqn:E; [reflexivity|].
    assert (Hx : In x (Js.Set_of
                         (filter (Js.Set_has (tokenSet b)) (tokenSet a)))).
    { rewrite E. now left. }
    apply In_intersection in Hx. exfalso. apply (Hdisjoint x); tauto.
Qed.

Lemma toLowerChar_idempotent (c : ascii) :
  Js.toLowerChar (Js.toLowerChar c) = Js.toLowerChar c.
Proof.
  destruct c as [[] [] [] [] [] [] [] []]; reflexivity.
Qed.

Lemma toLowerCase_idempotent (s : string) :
  Js.toLowerCase (Js.toLowerCase s) = Js.toLowerCase s.
Proof.
  induction s as [| c s IH]; simpl; [reflexivity|].
  now rewrite toLowerChar_idempotent, IH.
Qed.

(** X4: the similarity ignores the case of the letters: lower-casing either
    text beforehand changes nothing. *)
Theorem calculateStringSimilarity_case_insensitive (a b : string) :
  calculateStringSimilarity (Js.toLowerCase a) b
  = calculateStringSimilarity a b
  /\ calculateStringSimilarity a (Js.toLowerCase b)
     = calculateStringSimilarity a b.
Proof.
  unfold calculateStringSimilarity, tokenSet.
  now rewrite !toLowerCase_idempotent.
Qed.

End SimilarityAlgebra.


(* ================================================================= *)
(** ** Further facts: the drift analyzer *)

Section AnalyzerFacts.
Import DriftDetection.
Variable Number_toString : float -> string.

Lemma Qlt_bool_iff (x y : Q) : Qlt_bool x y = true <-> (x < y)%Q.
Proof.
  unfold Qlt_bool. rewrite negb_true_iff. split.
  - intros H. apply Qnot_le_lt. intros Hle.
    apply Qle_bool_iff in Hle. congruence.
  - intros H. destruct (Qle_bool y x) eqn:E; [| reflexivity].
    apply Qle_bool_iff in E. exfalso. now apply (Qlt_not_le x y).
Qed.

Lemma Qlt_bool_le (s1 s2 t : Q) :
  (s1 <= s2)%Q -> Qlt_bool s2 t = true -> Qlt_bool s1 t = true.
Proof.
  intros Hle H. apply Qlt_bool_iff. apply Qlt_bool_iff in H.
  now apply Qle_lt_trans with s2.
Qed.

(** X5: a higher similarity never gives a higher significance. *)
Theorem determineSignificance_antitone (s1 s2 : Q) :
  (s1 <= s2)%Q ->
  Significance_rank (determineSignificance s2)
  <= Significance_rank (determineSignificance s1).
Proof.
  intros Hle. unfold determineSignificance.
  destruct (Qlt_bool s2 HIGH_SIGNIFICANCE_THRESHOLD) eqn:H2.
  - now rewrite (Qlt_bool_le _ Hle H2).
  - destruct (Qlt_bool s2 MEDIUM_SIGNIFICANCE_THRESHOLD) eqn:M2.
    + rewrite (Qlt_bool_le _ Hle M2).
      destruct (Qlt_bool s1 HIGH_SIGNIFICANCE_THRESHOLD); simpl; lia.
    + destruct (Qlt_bool s1 HIGH_SIGNIFICANCE_THRESHOLD),
        (Qlt_bool s1 MEDIUM_SIGNIFICANCE_THRESHOLD); simpl; lia.
Qed.

Lemma analyzeTextChanges_guard (section a b : string)
  (ignoreMinor : option bool) (l : list DriftChange.t) :
  (if negb (String.eqb a b)
   then l ++ analyzeTextChanges section a b ignoreMinor
   else l)
  = l ++ analyzeTextChanges section a b ignoreMinor.
Proof.
  unfold analyzeTextChanges. destruct (String.eqb a b); simpl;
    [now rewrite app_nil_r | reflexivity].
Qed.

(** [analyzeDocuments] in one equation: the five groups of changes in
    order, the filter, and the derived fields. *)
Lemma analyzeDocuments_eq (existing newDoc : EnrichedDocument.t)
  (options : Options.t) :
  analyzeDocuments Number_toString existing newDoc options
  = analysisOf
      (if orFalse (Options.ignoreMinorChanges options)
       then filter notLow (allChanges Number_toString existing newDoc options)
       else allChanges Number_toString existing newDoc options).
Proof.
  unfold analyzeDocuments, allChanges, titleChange, analysisOf. cbv zeta.
  rewrite analyzeTextChanges_guard.
  destruct (negb (String.eqb _ _)); cbn [app];
    rewrite <- ?app_assoc; reflexivity.
Qed.

Lemma analyzeDocuments_changes (existing newDoc : EnrichedDocument.t)
  (options : Options.t) :
  DriftAnalysis.changes
    (analyzeDocuments Number_toString existing newDoc options)
  = if orFalse (Options.ignoreMinorChanges options)
    then filter notLow (allChanges Number_toString existing newDoc options)
    else allChanges Number_toString existing newDoc options.
Proof. now rewrite analyzeDocuments_eq. Qed.

End AnalyzerFacts.

Section AnalyzerTheorems.
Import DriftDetection.
Variable Number_toString : float -> string.

Lemma minor_is_low (similarity : Q) :
  Qlt_bool 0.95%Q similarity = true -> determineSignificance similarity = low.
Proof.
  intros H. apply Qlt_bool_iff in H. unfold determineSignificance.
  destruct (Qlt_bool similarity HIGH_SIGNIFICANCE_THRESHOLD) eqn:E1.
  - apply Qlt_bool_iff in E1. exfalso.
    apply (Qlt_irrefl similarity).
    apply Qlt_trans with HIGH_SIGNIFICANCE_THRESHOLD; [assumption|].
    apply Qlt_trans with 0.95%Q; [reflexivity | assumption].
  - destruct (Qlt_bool similarity MEDIUM_SIGNIFICANCE_THRESHOLD) eqn:E2;
      [| reflexivity].
    apply Qlt_bool_iff in E2. exfalso.
    apply (Qlt_irrefl similarity).
    apply Qlt_trans with MEDIUM_SIGNIFICANCE_THRESHOLD; [assumption|].
    apply Qlt_trans with 0.95%Q; [reflexivity | assumption].
Qed.

Lemma filter_flat_map (A B : Type) (p : B -> bool) (f : A -> list B)
  (l : list A) :
  filter p (flat_map f l) = flat_map (fun x => filter p (f x)) l.
Proof.
  induction l as [| a l IH]; simpl; [reflexivity|].
  now rewrite filter_app, IH.
Qed.

Lemma analyzeTextChanges_ignoreMinor (section a b : string)
  (ignoreMinor : option bool) :
  filter notLow (analyzeTextChanges section a b ignoreMinor)
  = filter notLow (analyzeTextChanges section a b None).
Proof.
  unfold analyzeTextChanges. cbv zeta.
  destruct (String.eqb a b); [reflexivity|].
  destruct (orFalse ignoreMinor); [| reflexivity].
  cbn [orFalse andb].
  destruct (Qlt_bool 0.95%Q (calculateStringSimilarity a b)) eqn:E;
    [| reflexivity].
  cbn [filter]. unfold notLow. cbn [DriftChange.significance].
  now rewrite (minor_is_low _ E).
Qed.

Lemma sectionChangesOfMaps_ignoreMinor
  (existingMap newMap : list (string * DocumentSection.t))
  (ignoreMinor : bool) :
  filter notLow (sectionChangesOfMaps existingMap newMap ignoreMinor)
  = filter notLow (sectionChangesOfMaps existingMap newMap false).
Proof.
  unfold sectionChangesOfMaps. cbv zeta. rewrite !for_of_flat_map.
  rewrite !filter_app. f_equal. rewrite !filter_flat_map.
  apply flat_map_ext. intros [k s].
  destruct (Js.Map_get existingMap k) as [e |]; [| reflexivity].
  destruct (negb (String.eqb _ _)); [| reflexivity].
  destruct ignoreMinor; [| reflexivity]. cbn [andb].
  destruct (Qlt_bool 0.95%Q _) eqn:E; [| reflexivity].
  cbn [filter]. unfold notLow. cbn [DriftChange.significance].
  now rewrite (minor_is_low _ E).
Qed.

Lemma allChanges_ignoreMinor (existing newDoc : EnrichedDocument.t)
  (threshold1 threshold2 : option float) (ignoreMinor : option bool)
  (focusAreas : option (list string)) :
  filter notLow
    (allChanges Number_toString existing newDoc
       (Options.mk threshold1 ignoreMinor focusAreas))
  = filter notLow
      (allChanges Number_toString existing newDoc
         (Options.mk threshold2 None focusAreas)).
Proof.
  unfold allChanges. cbv zeta. cbn [Options.ignoreMinorChanges
    Options.focusAreas]. rewrite !filter_app.
  rewrite (analyzeTextChanges_ignoreMinor "description" _ _ ignoreMinor).
  rewrite (analyzeTextChanges_ignoreMinor "purpose" _ _ ignoreMinor).
  unfold analyzeSectionChanges. cbv zeta.
  rewrite (sectionChangesOfMaps_ignoreMinor _ _ (orFalse ignoreMinor)).
  reflexivity.
Qed.

(** X6: with [ignoreMinorChanges] set, the analysis is the one of the
    changes of the plain analysis that are not of low significance: the
    separate skip of a change whose similarity is above 0.95 removes nothing
    that the final filter would keep. *)
Theorem analyzeDocuments_ignoreMinorChanges
  (existing newDoc : EnrichedDocument.t) (threshold1 threshold2 : option float)
  (focusAreas : option (list string)) :
  analyzeDocuments Number_toString existing newDoc
    (Options.mk threshold1 (Some true) focusAreas)
  = analysisOf
      (filter notLow
         (DriftAnalysis.changes
            (analyzeDocuments Number_toString existing newDoc
               (Options.mk threshold2 None focusAreas)))).
Proof.
  rewrite analyzeDocuments_eq, analyzeDocuments_changes.
  cbn [Options.ignoreMinorChanges orFalse].
  now rewrite (allChanges_ignoreMinor existing newDoc threshold1 threshold2).
Qed.

Lemma titleChange_differs (oldTitle newTitle : string) :
  oldTitle <> newTitle ->
  exists c,
    titleChange oldTitle newTitle = [c]
    /\ DriftChange.section c = "title"%string
    /\ DriftChange.type c = modification
    /\ DriftChange.oldValue c = Some oldTitle
    /\ DriftChange.newValue c = Some newTitle
    /\ notLow c = true.
Proof.
  intros Hne. unfold titleChange. apply String.eqb_neq in Hne. rewrite Hne.
  cbn [negb]. eexists. split; [reflexivity|]. repeat split.
  unfold notLow. cbn [DriftChange.significance].
  now destruct (Qlt_bool _ _).
Qed.

(** X7: two documents with different titles always have changes, whatever
    the options: the first change is the modification of the title, with
    the two titles as values and a significance that is not low. *)
Theorem analyzeDocuments_title_reported
  (existing newDoc : EnrichedDocument.t) (options : Options.t) :
  DocumentContent.title (EnrichedDocument.enrichedContent existing)
  <> DocumentContent.title (EnrichedDocument.enrichedContent newDoc) ->
  let analysis := analyzeDocuments Number_toString existing newDoc options in
  DriftAnalysis.hasChanges analysis = true
  /\ exists c rest,
      DriftAnalysis.changes analysis = c :: rest
      /\ DriftChange.section c = "title"%string
      /\ DriftChange.type c = modification
      /\ DriftChange.oldValue c
         = Some (DocumentContent.title
                   (EnrichedDocument.enrichedContent existing))
      /\ DriftChange.newValue c
         = Some (DocumentContent.title
                   (EnrichedDocument.enrichedContent newDoc))
      /\ DriftChange.significance c <> low.
Proof.
  intros Hne. cbv zeta. rewrite analyzeDocuments_eq.
  destruct (titleChange_differs Hne) as (c & Hc & Hs & Ht & Ho & Hn & Hl).
  unfold allChanges. cbv zeta. rewrite Hc. cbn [app].
  assert (Hsig : DriftChange.significance c <> low).
  { intros H. unfold notLow in Hl. rewrite H in Hl. discriminate. }
  destruct (orFalse (Options.ignoreMinorChanges options)).
  - cbn [filter]. rewrite Hl. split; [reflexivity|].
    eexists. eexists. split; [reflexivity|]. auto.
  - split; [reflexivity|].
    eexists. eexists. split; [reflexivity|]. auto.
Qed.

Lemma analyzeMetadataChanges_agree
  (m1 m2 : EnrichedDocumentMetadata.t) (focusAreas : option (list string)) :
  (forall field,
      In field (match focusAreas with
                | Some fields => fields
                | None => defaultFields
                end) ->
      EnrichedDocumentMetadata.get m1 field
      = EnrichedDocumentMetadata.get m2 field) ->
  analyzeMetadataChanges Number_toString m1 m2 focusAreas = [].
Proof.
  intros H. unfold analyzeMetadataChanges. cbv zeta.
  rewrite for_of_flat_map. cbn [app]. apply flat_map_nil.
  intros field Hin. rewrite (H field Hin).
  now rewrite strictNotEqual_same.
Qed.

Lemma analyzeDocuments_agreeing
  (existing newDoc : EnrichedDocument.t) (options : Options.t) :
  let c1 := EnrichedDocument.enrichedContent existing in
  let c2 := EnrichedDocument.enrichedContent newDoc in
  DocumentContent.title c1 = DocumentContent.title c2 ->
  DocumentContent.description c1 = DocumentContent.description c2 ->
  DocumentContent.purpose c1 = DocumentContent.purpose c2 ->
  DocumentContent.sections c1 = DocumentContent.sections c2 ->
  (forall field,
      In field (fieldsChecked options) ->
      EnrichedDocumentMetadata.get (EnrichedDocument.metadata existing) field
      = EnrichedDocumentMetadata.get (EnrichedDocument.metadata newDoc) field) ->
  analyzeDocuments Number_toString existing newDoc options
  = DriftAnalysis.mk false 1.0%float [] create_new.
Proof.
  cbv zeta. intros Ht Hd Hp Hs Hm. rewrite analyzeDocuments_eq.
  unfold allChanges, titleChange. cbv zeta. rewrite Ht, Hd, Hp, Hs.
  rewrite String.eqb_refl, !analyzeTextChanges_same,
    analyzeSectionChanges_same.
  rewrite (analyzeMetadataChanges_agree _ _ _ Hm). cbn [negb app filter].
  now destruct (orFalse (Options.ignoreMinorChanges options)).
Qed.


End AnalyzerTheorems.

Section ChangeLists.
Import DriftDetection.
Variable Number_toString : float -> string.

Lemma Forall_app_intro (A : Type) (P : A -> Prop) (l1 l2 : list A) :
  Forall P l1 -> Forall P l2 -> Forall P (l1 ++ l2).
Proof. intros H1 H2. apply Forall_app. now split. Qed.

Lemma titleChange_shaped (oldTitle newTitle : string) :
  Forall (fun c => changeShaped c = true) (titleChange oldTitle newTitle).
Proof.
  unfold titleChange. destruct (negb (String.eqb oldTitle newTitle));
    repeat constructor.
Qed.

Lemma analyzeTextChanges_shaped (section a b : string)
  (ignoreMinor : option bool) :
  Forall (fun c => changeShaped c = true)
    (analyzeTextChanges section a b ignoreMinor).
Proof.
  unfold analyzeTextChanges. cbv zeta. destruct (String.eqb a b);
    [constructor|].
  destruct (orFalse ignoreMinor && Qlt_bool 0.95%Q _); repeat constructor.
Qed.

Lemma sectionChangesOfMaps_shaped
  (existingMap newMap : list (string * DocumentSection.t))
  (ignoreMinor : bool) :
  Forall (fun c => changeShaped c = true)
    (sectionChangesOfMaps existingMap newMap ignoreMinor).
Proof.
  unfold sectionChangesOfMaps. cbv zeta. rewrite !for_of_flat_map.
  cbn [app]. repeat apply Forall_app_intro;
    apply Forall_flat_map, Forall_forall; intros [k s] _.
  - destruct (negb (Js.Map_has newMap k)); repeat constructor.
  - destruct (negb (Js.Map_has existingMap k)); repeat constructor.
  - destruct (Js.Map_get existingMap k) as [e |]; [| constructor].
    destruct (negb (String.eqb _ _)); [| constructor].
    destruct (ignoreMinor && Qlt_bool 0.95%Q _); repeat constructor.
Qed.

Lemma analyzeMetadataChanges_shaped
  (m1 m2 : EnrichedDocumentMetadata.t) (focusAreas : option (list string)) :
  Forall (fun c => changeShaped c = true)
    (analyzeMetadataChanges Number_toString m1 m2 focusAreas).
Proof.
  unfold analyzeMetadataChanges. cbv zeta. rewrite for_of_flat_map.
  cbn [app]. apply Forall_flat_map, Forall_forall. intros field _.
  destruct (Js.strictNotEqual _ _); repeat constructor.
Qed.

(** X9: every change that the analysis returns has the shape that its type
    asks for: an addition carries a new value and no old one, a deletion an
    old value and no new one, both with medium significance, and a
    modification carries both values. *)
Theorem analyzeDocuments_changes_shaped
  (existing newDoc : EnrichedDocument.t) (options : Options.t) :
  Forall (fun c => changeShaped c = true)
    (DriftAnalysis.changes
       (analyzeDocuments Number_toString existing newDoc options)).
Proof.
  rewrite analyzeDocuments_changes.
  assert (Hall : Forall (fun c => changeShaped c = true)
                   (allChanges Number_toString existing newDoc options)).
  { unfold allChanges. cbv zeta. repeat apply Forall_app_intro.
    - apply titleChange_shaped.
    - apply analyzeTextChanges_shaped.
    - apply analyzeTextChanges_shaped.
    - apply sectionChangesOfMaps_shaped.
    - apply analyzeMetadataChanges_shaped. }
  destruct (orFalse (Options.ignoreMinorChanges options)); [| exact Hall].
  rewrite Forall_forall in *. intros c Hc. apply filter_In in Hc.
  apply Hall. tauto.
Qed.

Lemma deletions_of_map (other m : list (string * DocumentSection.t)) :
  TitleKeyed m ->
  flat_map
    (fun '(title, section) =>
       if negb (Js.Map_has other title) then
         [DriftChange.mk (sectionPath title) deletion
            (Some (DocumentSection.content section)) None medium]
       else [])
    m
  = map deletionOf (flat_map (absentFrom other) m).
Proof.
  induction m as [| [k s] m IH]; intros Hm; [reflexivity|].
  cbn [flat_map]. rewrite map_app, IH by (eapply TitleKeyed_tail; eassumption).
  f_equal. unfold absentFrom. cbn [fst snd].
  destruct (negb (Js.Map_has other k)); [| reflexivity].
  unfold deletionOf. cbn [map]. now rewrite (Hm k s) by now left.
Qed.

Lemma additions_of_map (other m : list (string * DocumentSection.t)) :
  TitleKeyed m ->
  flat_map
    (fun '(title, section) =>
       if negb (Js.Map_has other title) then
         [DriftChange.mk (sectionPath title) addition
            None (Some (DocumentSection.content section)) medium]
       else [])
    m
  = map additionOf (flat_map (absentFrom other) m).
Proof.
  induction m as [| [k s] m IH]; intros Hm; [reflexivity|].
  cbn [flat_map]. rewrite map_app, IH by (eapply TitleKeyed_tail; eassumption).
  f_equal. unfold absentFrom. cbn [fst snd].
  destruct (negb (Js.Map_has other k)); [| reflexivity].
  unfold additionOf. cbn [map]. now rewrite (Hm k s) by now left.
Qed.

Lemma modifications_of_map
  (existingMap m : list (string * DocumentSection.t)) (ignoreMinor : bool) :
  flat_map
    (fun '(title, newSection) =>
       match Js.Map_get existingMap title with
       | Some existingSection =>
           if negb (String.eqb (DocumentSection.content existingSection)
                               (DocumentSection.content newSection))
           then
             if ignoreMinor
                && Qlt_bool 0.95%Q
                     (calculateStringSimilarity
                        (DocumentSection.content existingSection)
                        (DocumentSection.content newSection))
             then []
             else
               [DriftChange.mk (sectionPath title) modification
                  (Some (DocumentSection.content existingSection))
                  (Some (DocumentSection.content newSection))
                  (determineSignificance
                     (calculateStringSimilarity
                        (DocumentSection.content existingSection)
                        (DocumentSection.content newSection)))]
           else []
       | None => []
       end)
    m
  = map modificationOf
      (filter (reported ignoreMinor) (flat_map (modifiedOf existingMap) m)).
Proof.
  induction m as [| [k s] m IH]; [reflexivity|].
  cbn [flat_map]. rewrite filter_app, map_app, IH. f_equal.
  unfold modifiedOf. cbn [fst snd].
  destruct (Js.Map_get existingMap k) as [e |]; [| reflexivity].
  destruct (String.eqb _ _); [reflexivity|].
  cbn [negb filter]. unfold reported at 1.
  cbn [ModifiedSection.similarity].
  destruct (ignoreMinor && Qlt_bool 0.95%Q _); reflexivity.
Qed.

(** X10: [analyzeSectionChanges] and [compareSections] classify alike: the
    section changes are a deletion for every removed section, then an
    addition for every added one, then a modification for every modified
    one, a modification being left out only when minor changes are ignored
    and its similarity is above 0.95; sections that are unchanged give no
    change. *)
Theorem analyzeSectionChanges_compareSections
  (existingSections newSections : list DocumentSection.t)
  (ignoreMinor : option bool) :
  let c := compareSections existingSections newSections in
  analyzeSectionChanges existingSections newSections ignoreMinor
  = map deletionOf (SectionComparison.removed c)
    ++ map additionOf (SectionComparison.added c)
    ++ map modificationOf
         (filter (reported (orFalse ignoreMinor))
            (SectionComparison.modified c)).
Proof.
  cbv zeta. rewrite compareSections_buckets.
  cbn [SectionComparison.removed SectionComparison.added
       SectionComparison.modified].
  unfold analyzeSectionChanges, sectionChangesOfMaps. cbv zeta.
  rewrite !for_of_flat_map. cbn [app].
  fold (sectionMap existingSections). fold (sectionMap newSections).
  rewrite deletions_of_map by apply sectionMap_TitleKeyed.
  rewrite additions_of_map by apply sectionMap_TitleKeyed.
  rewrite modifications_of_map. now rewrite <- app_assoc.
Qed.

End ChangeLists.


(* ================================================================= *)
(** ** Further facts: the metadata differ *)

Section MetadataFacts.
Import DriftDetection.
Variable Number_toString : float -> string.
Local Open Scope string_scope.

Lemma append_assoc (a b c : string) : (a ++ b) ++ c = a ++ (b ++ c).
Proof. induction a as [| x a IH]; simpl; [reflexivity | now rewrite IH]. Qed.

Lemma unquoteChar_quoteChar (c : ascii) (rest : string) :
  unquoteChar (Js.quoteChar c ++ rest) = Some (c, rest).
Proof.
  destruct c as [[] [] [] [] [] [] [] []]; reflexivity.
Qed.

Lemma unquoteChar_dquote (rest : string) :
  unquoteChar (Js.dquote ++ rest) = None.
Proof. reflexivity. Qed.

(** A quoted string ends where its closing quote stands: what follows it
    can be anything. *)
Lemma quoteBody_delimited (x y r1 r2 : string) :
  Js.quoteBody x ++ Js.dquote ++ r1 = Js.quoteBody y ++ Js.dquote ++ r2 ->
  x = y /\ r1 = r2.
Proof.
  revert y. induction x as [| c x IH]; intros [| d y] H.
  - simpl in H. injection H as H. now split.
  - apply (f_equal unquoteChar) in H. cbn [Js.quoteBody] in H.
    rewrite append_assoc, unquoteChar_quoteChar in H.
    cbn [Js.quoteBody append] in H. rewrite unquoteChar_dquote in H.
    discriminate.
  - apply (f_equal unquoteChar) in H. cbn [Js.quoteBody] in H.
    rewrite append_assoc, unquoteChar_quoteChar in H.
    cbn [Js.quoteBody append] in H. rewrite unquoteChar_dquote in H.
    discriminate.
  - cbn [Js.quoteBody] in H. rewrite !append_assoc in H.
    pose proof (f_equal unquoteChar H) as Hc.
    rewrite !unquoteChar_quoteChar in Hc. injection Hc as Hcd Hrest.
    subst d. destruct (IH y Hrest) as [-> ->]. now split.
Qed.

Lemma quote_delimited (x y r1 r2 : string) :
  Js.quote x ++ r1 = Js.quote y ++ r2 -> x = y /\ r1 = r2.
Proof.
  unfold Js.quote. rewrite !append_assoc. intros H.
  cbn [Js.dquote append] in H. injection H as H.
  apply quoteBody_delimited. exact H.
Qed.

Lemma quote_injective (x y : string) : Js.quote x = Js.quote y -> x = y.
Proof.
  intros H. apply (@quote_delimited x y "" "").
  now rewrite H.
Qed.

Lemma join_quote_cons (x : string) (l : list string) :
  Js.join "," (map Js.quote (x :: l)) ++ "]"
  = Js.quote x
    ++ match l with
       | [] => "]"
       | _ :: _ => "," ++ (Js.join "," (map Js.quote l) ++ "]")
       end.
Proof.
  destruct l as [| y l]; [reflexivity|].
  cbn [map Js.join]. now rewrite !append_assoc.
Qed.

Lemma quote_starts (x : string) :
  exists body, Js.quote x = String (ascii_of_nat 34) body.
Proof. unfold Js.quote. cbn [Js.dquote append]. eexists. reflexivity. Qed.

Lemma joined_quotes_injective (l1 l2 : list string) :
  Js.join "," (map Js.quote l1) ++ "]" = Js.join "," (map Js.quote l2) ++ "]"
  -> l1 = l2.
Proof.
  revert l2. induction l1 as [| x l1 IH]; intros [| y l2] H.
  - reflexivity.
  - rewrite join_quote_cons in H. destruct (quote_starts y) as [b Hb].
    rewrite Hb in H. discriminate.
  - rewrite join_quote_cons in H. destruct (quote_starts x) as [b Hb].
    rewrite Hb in H. discriminate.
  - rewrite !join_quote_cons in H. apply quote_delimited in H.
    destruct H as [-> H]. f_equal.
    destruct l1 as [| x1 l1], l2 as [| y1 l2]; try reflexivity;
      try discriminate.
    injection H as H. now apply IH.
Qed.

Lemma stringify_ofString (a b : option string) :
  Js.strictNotEqual
    (Js.JSON_stringify Number_toString (EnrichedDocumentMetadata.ofString a))
    (Js.JSON_stringify Number_toString (EnrichedDocumentMetadata.ofString b))
  = false ->
  a = b.
Proof.
  destruct a as [a |], b as [b |];
    cbn [EnrichedDocumentMetadata.ofString Js.JSON_stringify
         Js.strictNotEqual];
    try discriminate; [| reflexivity].
  rewrite negb_false_iff. intros H. apply String.eqb_eq in H.
  apply quote_injective in H. now subst.
Qed.

Lemma stringify_ofStrings (a b : option (list string)) :
  Js.strictNotEqual
    (Js.JSON_stringify Number_toString (EnrichedDocumentMetadata.ofStrings a))
    (Js.JSON_stringify Number_toString (EnrichedDocumentMetadata.ofStrings b))
  = false ->
  a = b.
Proof.
  destruct a as [a |], b as [b |];
    cbn [EnrichedDocumentMetadata.ofStrings Js.JSON_stringify
         Js.strictNotEqual];
    try discriminate; [| reflexivity].
  rewrite negb_false_iff. intros H. apply String.eqb_eq in H.
  cbn [append] in H. injection H as H.
  apply joined_quotes_injective in H. now subst.
Qed.

Lemma flat_map_nil_inv (A B : Type) (f : A -> list B) (l : list A) (a : A) :
  flat_map f l = [] -> In a l -> f a = [].
Proof.
  induction l as [| x l IH]; simpl; intros H Hin; [contradiction|].
  apply app_eq_nil in H. destruct H as [Hx Hl].
  destruct Hin as [-> | Hin]; [assumption | now apply IH].
Qed.

Lemma metadata_field_silent (m1 m2 : EnrichedDocumentMetadata.t)
  (field : string) :
  analyzeMetadataChanges Number_toString m1 m2 None = [] ->
  In field defaultFields ->
  Js.strictNotEqual
    (Js.JSON_stringify Number_toString
       (EnrichedDocumentMetadata.get m1 field))
    (Js.JSON_stringify Number_toString
       (EnrichedDocumentMetadata.get m2 field))
  = false.
Proof.
  unfold analyzeMetadataChanges. cbv zeta. rewrite for_of_flat_map.
  cbn [app]. intros H Hin.
  pose proof (flat_map_nil_inv _ _ field H Hin) as Hf. cbv beta in Hf.
  destruct (Js.strictNotEqual _ _); [discriminate | reflexivity].
Qed.

Lemma metadata_silent_iff
  (m1 m2 : EnrichedDocumentMetadata.t) :
  analyzeMetadataChanges Number_toString m1 m2 None = []
  <-> EnrichedDocumentMetadata.serviceName m1
      = EnrichedDocumentMetadata.serviceName m2
      /\ EnrichedDocumentMetadata.version m1
         = EnrichedDocumentMetadata.version m2
      /\ EnrichedDocumentMetadata.dependencies m1
         = EnrichedDocumentMetadata.dependencies m2
      /\ EnrichedDocumentMetadata.tags m1 = EnrichedDocumentMetadata.tags m2
      /\ EnrichedDocumentMetadata.category m1
         = EnrichedDocumentMetadata.category m2
      /\ EnrichedDocumentMetadata.businessUnit m1
         = EnrichedDocumentMetadata.businessUnit m2.
Proof.
  split.
  - intros H.
    pose proof (@metadata_field_silent m1 m2 "serviceName" H) as H1.
    pose proof (@metadata_field_silent m1 m2 "version" H) as H2.
    pose proof (@metadata_field_silent m1 m2 "dependencies" H) as H3.
    pose proof (@metadata_field_silent m1 m2 "tags" H) as H4.
    pose proof (@metadata_field_silent m1 m2 "category" H) as H5.
    pose proof (@metadata_field_silent m1 m2 "businessUnit" H) as H6.
    unfold defaultFields in *. cbn [In] in *.
    repeat split.
    + apply stringify_ofString, H1. tauto.
    + apply stringify_ofString, H2. tauto.
    + apply stringify_ofStrings, H3. tauto.
    + apply stringify_ofStrings, H4. tauto.
    + apply stringify_ofString, H5. tauto.
    + apply stringify_ofString, H6. tauto.
  - intros (H1 & H2 & H3 & H4 & H5 & H6).
    apply analyzeMetadataChanges_agree. unfold defaultFields. cbn [In].
    intros field [<- | [<- | [<- | [<- | [<- | [<- | []]]]]]];
      cbn; congruence.
Qed.

(** X11: with the default fields, the metadata comparison is silent exactly
    when the two metadata records agree on the service name, the version,
    the dependencies, the tags, the category and the business unit; the
    dependencies and the tags are compared as ordered lists. *)
Theorem analyzeMetadataChanges_silent_iff
  (m1 m2 : EnrichedDocumentMetadata.t) :
  analyzeMetadataChanges Number_toString m1 m2 None = []
  <-> EnrichedDocumentMetadata.serviceName m1
      = EnrichedDocumentMetadata.serviceName m2
      /\ EnrichedDocumentMetadata.version m1
         = EnrichedDocumentMetadata.version m2
      /\ EnrichedDocumentMetadata.dependencies m1
         = EnrichedDocumentMetadata.dependencies m2
      /\ EnrichedDocumentMetadata.tags m1 = EnrichedDocumentMetadata.tags m2
      /\ EnrichedDocumentMetadata.category m1
         = EnrichedDocumentMetadata.category m2
      /\ EnrichedDocumentMetadata.businessUnit m1
         = EnrichedDocumentMetadata.businessUnit m2.
Proof. exact (metadata_silent_iff m1 m2). Qed.

End MetadataFacts.


(* ================================================================= *)
(** ** Further facts: the merge resolver *)

Section MergeFacts.
Import DriftDetection.

Lemma Map_set_fresh (V : Type) (m : list (string * V)) (k : string) (v : V) :
  Js.Map_has m k = false -> Js.Map_set m k v = m ++ [(k, v)].
Proof.
  unfold Js.Map_has. induction m as [| [k0 v0] m IH]; simpl; intros H.
  - reflexivity.
  - destruct (String.eqb k0 k); [discriminate|]. now rewrite IH.
Qed.

Lemma Map_fold_distinct (V : Type) (entries acc : list (string * V)) :
  NoDup (keys (acc ++ entries)) ->
  fold_left (fun m kv => Js.Map_set m (fst kv) (snd kv)) entries acc
  = acc ++ entries.
Proof.
  revert acc. induction entries as [| [k v] entries IH]; intros acc Hnd.
  - simpl. now rewrite app_nil_r.
  - cbn [fold_left fst snd]. rewrite Map_set_fresh.
    + rewrite IH; rewrite <- app_assoc; [reflexivity | exact Hnd].
    + apply Map_has_false. unfold keys in Hnd. rewrite map_app in Hnd.
      apply NoDup_remove_2 in Hnd. intros Hin. apply Hnd.
      apply in_or_app. now left.
Qed.

(** A map built from entries with distinct keys holds them as they come. *)
Lemma Map_of_distinct (V : Type) (entries : list (string * V)) :
  NoDup (keys entries) -> Js.Map_of entries = entries.
Proof. intros H. unfold Js.Map_of. now rewrite Map_fold_distinct. Qed.

Lemma sectionMap_distinct (l : list DocumentSection.t) :
  NoDup (titlesOf l) -> sectionMap l = map sectionEntry l.
Proof.
  intros H. unfold sectionMap. apply Map_of_distinct.
  now rewrite keys_sectionEntry.
Qed.

Lemma Permutation_flat_map_app (A B : Type) (f g : A -> list B)
  (l : list A) :
  Permutation (flat_map f l ++ flat_map g l)
    (flat_map (fun x => f x ++ g x) l).
Proof.
  induction l as [| a l IH]; simpl; [constructor|].
  rewrite <- !app_assoc. apply Permutation_app_head.
  apply Permutation_trans with (g a ++ flat_map f l ++ flat_map g l).
  - apply Permutation_app_swap_app.
  - now apply Permutation_app_head.
Qed.

Lemma map_flat_map (A B C : Type) (h : B -> C) (f : A -> list B)
  (l : list A) :
  map h (flat_map f l) = flat_map (fun x => map h (f x)) l.
Proof.
  induction l as [| a l IH]; simpl; [reflexivity|].
  now rewrite map_app, IH.
Qed.

Lemma flat_map_singleton (A B : Type) (f : A -> B) (l : list A) :
  flat_map (fun x => [f x]) l = map f l.
Proof. induction l as [| a l IH]; simpl; [reflexivity | now rewrite IH]. Qed.

(** Every entry of the incoming map lands in exactly one of the three
    buckets that the merge keeps, with its own section. *)
Lemma entry_kept_once (existingMap : list (string * DocumentSection.t))
  (entry : string * DocumentSection.t) :
  unchangedOf existingMap entry
  ++ map ModifiedSection.new (modifiedOf existingMap entry)
  ++ absentFrom existingMap entry
  = [snd entry].
Proof.
  unfold unchangedOf, modifiedOf, absentFrom, Js.Map_has.
  destruct (Js.Map_get existingMap (fst entry)) as [e |]; [| reflexivity].
  now destruct (String.eqb _ _).
Qed.

Lemma mergedSectionsOf_Permutation
  (existingSections newSections : list DocumentSection.t) :
  Permutation (mergedSectionsOf existingSections newSections)
    (map snd (sectionMap newSections)).
Proof.
  unfold mergedSectionsOf. cbv zeta. rewrite compareSections_buckets.
  cbn [SectionComparison.added SectionComparison.modified
       SectionComparison.unchanged].
  rewrite map_flat_map.
  set (E := sectionMap existingSections). set (N := sectionMap newSections).
  apply Permutation_trans with
    (flat_map (unchangedOf E) N
     ++ flat_map (fun x => map ModifiedSection.new (modifiedOf E x)
                           ++ absentFrom E x) N).
  - apply Permutation_app_head. apply Permutation_flat_map_app.
  - eapply Permutation_trans; [apply Permutation_flat_map_app|].
    rewrite (flat_map_ext _ (fun x => [snd x])).
    + now rewrite flat_map_singleton.
    + intros x. apply entry_kept_once.
Qed.

Lemma TitleKeyed_titles (m : list (string * DocumentSection.t)) :
  TitleKeyed m -> titlesOf (map snd m) = keys m.
Proof.
  intros Hm. unfold titlesOf, keys. rewrite map_map.
  apply map_ext_in. intros [k s] Hin. cbn [snd fst]. now apply Hm.
Qed.

Lemma mergedSectionsOf_NoDup
  (existingSections newSections : list DocumentSection.t) :
  NoDup (titlesOf (mergedSectionsOf existingSections newSections)).
Proof.
  apply Permutation_NoDup with (keys (sectionMap newSections)).
  - rewrite <- (TitleKeyed_titles (sectionMap_TitleKeyed newSections)).
    unfold titlesOf. apply Permutation_map. apply Permutation_sym.
    apply mergedSectionsOf_Permutation.
  - apply sectionMap_NoDup.
Qed.

Lemma In_map_snd (m : list (string * DocumentSection.t))
  (s : DocumentSection.t) :
  TitleKeyed m ->
  In s (map snd m) <-> In (DocumentSection.title s, s) m.
Proof.
  intros Hm. rewrite in_map_iff. split.
  - intros [[k s'] [Heq Hin]]. cbn [snd] in Heq. subst s'.
    now rewrite (Hm k s Hin).
  - intros Hin. now exists (DocumentSection.title s, s).
Qed.

Lemma In_mergedSectionsOf
  (existingSections newSections : list DocumentSection.t)
  (s : DocumentSection.t) :
  In s (mergedSectionsOf existingSections newSections)
  <-> Js.Map_get (sectionMap newSections) (DocumentSection.title s) = Some s.
Proof.
  split.
  - intros H.
    apply (Permutation_in _ (mergedSectionsOf_Permutation _ _)) in H.
    apply In_map_snd in H; [| apply sectionMap_TitleKeyed].
    apply Map_get_In; [apply sectionMap_NoDup | exact H].
  - intros H. apply Map_get_Some_In in H.
    apply (Permutation_in _
             (Permutation_sym (mergedSectionsOf_Permutation _ _))).
    apply In_map_snd; [apply sectionMap_TitleKeyed | exact H].
Qed.

(** X12: the merged section list holds, each once and under distinct
    titles, exactly the sections of the incoming list that are the last
    with their title: no section of the existing document survives a merge
    unless the incoming document has the very same section. *)
Theorem mergeSections_keeps_incoming
  (existing newDoc : EnrichedDocument.t) (clock : Clock) :
  let merged :=
    createMergePreview existing newDoc (Some merge_sections) clock in
  NoDup (titlesOf (sectionsOf merged))
  /\ (forall s : DocumentSection.t,
         In s (sectionsOf merged)
         <-> find (fun s' => String.eqb (DocumentSection.title s')
                               (DocumentSection.title s))
               (rev (sectionsOf newDoc))
             = Some s)
  /\ List.length (sectionsOf merged)
     = List.length (keys (sectionMap (sectionsOf newDoc))).
Proof.
  cbv zeta. rewrite mergeSections_sections. split; [| split].
  - apply mergedSectionsOf_NoDup.
  - intros s. rewrite In_mergedSectionsOf. now rewrite sectionMap_last_wins.
  - rewrite (Permutation_length (mergedSectionsOf_Permutation _ _)).
    unfold keys. now rewrite !length_map.
Qed.

End MergeFacts.

Section MergeAgain.
Import DriftDetection.

Lemma flat_map_identity (A : Type) (f : A -> list A) (l : list A) :
  (forall x, In x l -> f x = [x]) -> flat_map f l = l.
Proof.
  induction l as [| a l IH]; simpl; intros H; [reflexivity|].
  rewrite (H a) by now left. simpl. f_equal. apply IH.
  intros x Hx. apply H. now right.
Qed.

Lemma flat_map_of_map (A B C : Type) (g : A -> B) (f : B -> list C)
  (l : list A) :
  flat_map f (map g l) = flat_map (fun x => f (g x)) l.
Proof.
  induction l as [| a l IH]; simpl; [reflexivity | now rewrite IH].
Qed.

Lemma TitleKeyed_entry (m : list (string * DocumentSection.t))
  (x : string * DocumentSection.t) :
  TitleKeyed m -> In x m -> x = sectionEntry (snd x).
Proof.
  intros Hm Hin. destruct x as [k s]. unfold sectionEntry. cbn [snd].
  now rewrite (Hm k s Hin).
Qed.

(** Where a section of one of the three kept buckets lands when it is
    classified again. *)
Lemma unchanged_again (E N : list (string * DocumentSection.t))
  (s : DocumentSection.t) :
  TitleKeyed N -> In s (flat_map (unchangedOf E) N) ->
  unchangedOf E (sectionEntry s) = [s].
Proof.
  intros HN Hin. apply in_flat_map in Hin. destruct Hin as [x [Hx Hs]].
  rewrite (@TitleKeyed_entry N x HN Hx) in Hs.
  assert (Heq : s = snd x).
  { unfold unchangedOf in Hs.
    destruct (Js.Map_get E _); [| contradiction].
    destruct (String.eqb _ _); [| contradiction].
    cbn [sectionEntry snd] in Hs. destruct Hs as [<- | []]. reflexivity. }
  subst s. unfold unchangedOf in *.
  destruct (Js.Map_get E _); [| contradiction].
  destruct (String.eqb _ _); [reflexivity | contradiction].
Qed.

Lemma modified_again (E N : list (string * DocumentSection.t))
  (s : DocumentSection.t) :
  TitleKeyed N ->
  In s (map ModifiedSection.new (flat_map (modifiedOf E) N)) ->
  map ModifiedSection.new (modifiedOf E (sectionEntry s)) = [s].
Proof.
  intros HN Hin. rewrite map_flat_map in Hin.
  apply in_flat_map in Hin. destruct Hin as [x [Hx Hs]].
  rewrite (@TitleKeyed_entry N x HN Hx) in Hs.
  assert (Heq : s = snd x).
  { unfold modifiedOf in Hs.
    destruct (Js.Map_get E _); [| contradiction].
    destruct (String.eqb _ _); [contradiction|].
    cbn [map ModifiedSection.new sectionEntry snd] in Hs.
    destruct Hs as [<- | []]. reflexivity. }
  subst s. unfold modifiedOf in *.
  destruct (Js.Map_get E _); [| contradiction].
  destruct (String.eqb _ _); [contradiction | reflexivity].
Qed.

Lemma added_again (E N : list (string * DocumentSection.t))
  (s : DocumentSection.t) :
  TitleKeyed N -> In s (flat_map (absentFrom E) N) ->
  absentFrom E (sectionEntry s) = [s].
Proof.
  intros HN Hin. apply in_flat_map in Hin. destruct Hin as [x [Hx Hs]].
  rewrite (@TitleKeyed_entry N x HN Hx) in Hs.
  assert (Heq : s = snd x).
  { unfold absentFrom in Hs.
    destruct (negb _); [| contradiction].
    cbn [sectionEntry snd] in Hs. destruct Hs as [<- | []]. reflexivity. }
  subst s. unfold absentFrom in *.
  destruct (negb _); [reflexivity | contradiction].
Qed.

Lemma singleton_split (A : Type) (x y z : list A) (s : A) :
  x ++ y ++ z = [s] ->
  (x = [s] -> y = [] /\ z = [])
  /\ (y = [s] -> x = [] /\ z = [])
  /\ (z = [s] -> x = [] /\ y = []).
Proof.
  intros H. apply (f_equal (@List.length A)) in H.
  rewrite !length_app in H. cbn [List.length] in H.
  split; [| split]; intros ->; cbn [List.length] in H;
    split; apply length_zero_iff_nil; lia.
Qed.

(** The three buckets of a second merge, over the sections of the first. *)
Lemma buckets_again (E N : list (string * DocumentSection.t)) :
  TitleKeyed N ->
  let U := flat_map (unchangedOf E) N in
  let M := map ModifiedSection.new (flat_map (modifiedOf E) N) in
  let A := flat_map (absentFrom E) N in
  let entries := map sectionEntry (U ++ M ++ A) in
  flat_map (unchangedOf E) entries = U
  /\ map ModifiedSection.new (flat_map (modifiedOf E) entries) = M
  /\ flat_map (absentFrom E) entries = A.
Proof.
  intros HN U M A entries. unfold entries.
  rewrite map_flat_map, !flat_map_of_map, !flat_map_app.
  assert (HU : forall s, In s U ->
                 unchangedOf E (sectionEntry s) = [s]
                 /\ map ModifiedSection.new (modifiedOf E (sectionEntry s))
                    = []
                 /\ absentFrom E (sectionEntry s) = []).
  { intros s Hs. pose proof (@unchanged_again E N s HN Hs) as H1.
    destruct (@singleton_split _ _ _ _ _ (entry_kept_once E (sectionEntry s)))
      as (Hx & _ & _).
    cbn [sectionEntry snd] in Hx. specialize (Hx H1). tauto. }
  assert (HM : forall s, In s M ->
                 unchangedOf E (sectionEntry s) = []
                 /\ map ModifiedSection.new (modifiedOf E (sectionEntry s))
                    = [s]
                 /\ absentFrom E (sectionEntry s) = []).
  { intros s Hs. pose proof (@modified_again E N s HN Hs) as H1.
    destruct (@singleton_split _ _ _ _ _ (entry_kept_once E (sectionEntry s)))
      as (_ & Hy & _).
    cbn [sectionEntry snd] in Hy. specialize (Hy H1). tauto. }
  assert (HA : forall s, In s A ->
                 unchangedOf E (sectionEntry s) = []
                 /\ map ModifiedSection.new (modifiedOf E (sectionEntry s))
                    = []
                 /\ absentFrom E (sectionEntry s) = [s]).
  { intros s Hs. pose proof (@added_again E N s HN Hs) as H1.
    destruct (@singleton_split _ _ _ _ _ (entry_kept_once E (sectionEntry s)))
      as (_ & _ & Hz).
    cbn [sectionEntry snd] in Hz. specialize (Hz H1). tauto. }
  repeat split.
  - rewrite (@flat_map_identity _ _ U) by (intros s Hs; apply HU, Hs).
    rewrite (@flat_map_nil _ _ M) by (intros s Hs; apply HM, Hs).
    rewrite (@flat_map_nil _ _ A) by (intros s Hs; apply HA, Hs).
    now rewrite !app_nil_r.
  - rewrite (@flat_map_nil _ _ U) by (intros s Hs; apply HU, Hs).
    rewrite (@flat_map_identity _ _ M) by (intros s Hs; apply HM, Hs).
    rewrite (@flat_map_nil _ _ A) by (intros s Hs; apply HA, Hs).
    now rewrite app_nil_r.
  - rewrite (@flat_map_nil _ _ U) by (intros s Hs; apply HU, Hs).
    rewrite (@flat_map_nil _ _ M) by (intros s Hs; apply HM, Hs).
    now rewrite (@flat_map_identity _ _ A) by (intros s Hs; apply HA, Hs).
Qed.

Lemma mergedSectionsOf_idempotent
  (existingSections newSections : list DocumentSection.t) :
  mergedSectionsOf existingSections
    (mergedSectionsOf existingSections newSections)
  = mergedSectionsOf existingSections newSections.
Proof.
  pose proof (mergedSectionsOf_NoDup existingSections newSections) as Hnd.
  unfold mergedSectionsOf at 1. cbv zeta. rewrite compareSections_buckets.
  cbn [SectionComparison.added SectionComparison.modified
       SectionComparison.unchanged].
  rewrite (@sectionMap_distinct _ Hnd).
  unfold mergedSectionsOf. cbv zeta. rewrite compareSections_buckets.
  cbn [SectionComparison.added SectionComparison.modified
       SectionComparison.unchanged].
  destruct (@buckets_again (sectionMap existingSections)
              (sectionMap newSections)
              (sectionMap_TitleKeyed newSections)) as (HU & HM & HA).
  cbv zeta in HU, HM, HA. now rewrite HU, HM, HA.
Qed.

(** X13: merging is idempotent on the sections: merging the existing
    document with the result of a merge gives the sections of that result
    again, in the same order. *)
Theorem mergeSections_idempotent (existing newDoc : EnrichedDocument.t)
  (clock1 clock2 : Clock) :
  let merged :=
    createMergePreview existing newDoc (Some merge_sections) clock1 in
  sectionsOf (createMergePreview existing merged (Some merge_sections) clock2)
  = sectionsOf merged.
Proof.
  cbv zeta. rewrite !mergeSections_sections.
  apply mergedSectionsOf_idempotent.
Qed.

End MergeAgain.

Section MergePreviews.
Import DriftDetection.
Variable Number_toString : float -> string.

Lemma flat_map_ext_in (A B : Type) (f g : A -> list B) (l : list A) :
  (forall x, In x l -> f x = g x) -> flat_map f l = flat_map g l.
Proof.
  induction l as [| a l IH]; simpl; intros H; [reflexivity|].
  rewrite (H a) by now left. f_equal. apply IH.
  intros x Hx. apply H. now right.
Qed.

Lemma mergedSectionsOf_same (l : list DocumentSection.t) :
  mergedSectionsOf l l = map snd (sectionMap l).
Proof.
  unfold mergedSectionsOf. cbv zeta. rewrite compareSections_buckets.
  cbn [SectionComparison.added SectionComparison.modified
       SectionComparison.unchanged].
  set (N := sectionMap l).
  assert (Hget : forall x, In x N -> Js.Map_get N (fst x) = Some (snd x)).
  { intros [k s] Hin. apply Map_get_In; [apply sectionMap_NoDup | exact Hin]. }
  rewrite (@flat_map_ext_in _ _ (unchangedOf N) (fun x => [snd x]) N).
  - rewrite (@flat_map_nil _ _ N (modifiedOf N)).
    + rewrite (@flat_map_nil _ _ N (absentFrom N)).
      * cbn [map app]. now rewrite app_nil_r, flat_map_singleton.
      * intros x Hx. unfold absentFrom, Js.Map_has. now rewrite (Hget x Hx).
    + intros x Hx. unfold modifiedOf.
      now rewrite (Hget x Hx), String.eqb_refl.
  - intros x Hx. unfold unchangedOf.
    now rewrite (Hget x Hx), String.eqb_refl.
Qed.

(** X14: merging two documents that have the same section list, with
    distinct titles, returns that list as it is. *)
Theorem mergeSections_same_sections (existing newDoc : EnrichedDocument.t)
  (clock : Clock) :
  sectionsOf existing = sectionsOf newDoc ->
  NoDup (titlesOf (sectionsOf newDoc)) ->
  sectionsOf (createMergePreview existing newDoc (Some merge_sections) clock)
  = sectionsOf newDoc.
Proof.
  intros Heq Hnd. rewrite mergeSections_sections, Heq, mergedSectionsOf_same.
  rewrite (@sectionMap_distinct _ Hnd), map_map. cbn [sectionEntry snd].
  apply map_id.
Qed.

Lemma sectionChangesOfMaps_equal_maps
  (N M : list (string * DocumentSection.t)) (ignoreMinor : bool) :
  NoDup (keys N) -> NoDup (keys M) ->
  (forall k, Js.Map_get M k = Js.Map_get N k) ->
  sectionChangesOfMaps N M ignoreMinor = [].
Proof.
  intros HN HM Hget. unfold sectionChangesOfMaps. cbv zeta.
  rewrite !for_of_flat_map. rewrite !flat_map_nil; try reflexivity.
  - intros [k s] Hin. rewrite <- Hget.
    rewrite (@Map_get_In _ M k s HM Hin). now rewrite String.eqb_refl.
  - intros [k s] Hin. unfold Js.Map_has. rewrite <- Hget.
    now rewrite (@Map_get_In _ M k s HM Hin).
  - intros [k s] Hin. unfold Js.Map_has. rewrite Hget.
    now rewrite (@Map_get_In _ N k s HN Hin).
Qed.

Lemma mergedSections_get
  (existingSections newSections : list DocumentSection.t) (k : string) :
  Js.Map_get (sectionMap (mergedSectionsOf existingSections newSections)) k
  = Js.Map_get (sectionMap newSections) k.
Proof.
  pose proof (mergedSectionsOf_NoDup existingSections newSections) as Hnd.
  set (merged := mergedSectionsOf existingSections newSections) in *.
  assert (HndM : NoDup (keys (sectionMap merged))) by apply sectionMap_NoDup.
  destruct (Js.Map_get (sectionMap newSections) k) as [s |] eqn:E.
  - assert (Hk : DocumentSection.title s = k).
    { apply (sectionMap_TitleKeyed newSections).
      now apply Map_get_Some_In. }
    apply Map_get_In; [exact HndM|].
    rewrite (@sectionMap_distinct _ Hnd). apply in_map_iff.
    exists s. split; [unfold sectionEntry; now rewrite Hk|].
    apply In_mergedSectionsOf. now rewrite Hk.
  - destruct (Js.Map_get (sectionMap merged) k) as [s |] eqn:E';
      [| reflexivity].
    apply Map_get_Some_In in E'.
    pose proof (sectionMap_TitleKeyed merged k s E') as Hk.
    rewrite (@sectionMap_distinct _ Hnd) in E'. apply in_map_iff in E'.
    destruct E' as [s' [Heq Hin]]. unfold sectionEntry in Heq.
    injection Heq as _ ->. apply In_mergedSectionsOf in Hin.
    rewrite Hk in Hin. congruence.
Qed.

Lemma analyzeSectionChanges_merged
  (existingSections newSections : list DocumentSection.t)
  (ignoreMinor : option bool) :
  analyzeSectionChanges newSections
    (mergedSectionsOf existingSections newSections) ignoreMinor
  = [].
Proof.
  unfold analyzeSectionChanges. cbv zeta.
  apply sectionChangesOfMaps_equal_maps.
  - apply sectionMap_NoDup.
  - apply sectionMap_NoDup.
  - apply mergedSections_get.
Qed.

(** X15: against the incoming document the merge preview shows no drift of
    content: comparing the two reports no change of the title, the
    description, the purpose or any section, only the changes of the
    metadata comparison. *)
Theorem analyzeDocuments_incoming_against_merged
  (existing newDoc : EnrichedDocument.t) (clock : Clock)
  (options : Options.t) :
  let merged :=
    createMergePreview existing newDoc (Some merge_sections) clock in
  let metadataChanges :=
    analyzeMetadataChanges Number_toString
      (EnrichedDocument.metadata newDoc) (EnrichedDocument.metadata merged)
      (Options.focusAreas options) in
  DriftAnalysis.changes
    (analyzeDocuments Number_toString newDoc merged options)
  = if orFalse (Options.ignoreMinorChanges options)
    then filter notLow metadataChanges
    else metadataChanges.
Proof.
  cbv zeta. rewrite analyzeDocuments_changes.
  assert (Hall : allChanges Number_toString newDoc
                   (createMergePreview existing newDoc (Some merge_sections)
                      clock) options
                 = analyzeMetadataChanges Number_toString
                     (EnrichedDocument.metadata newDoc)
                     (EnrichedDocument.metadata
                        (createMergePreview existing newDoc
                           (Some merge_sections) clock))
                     (Options.focusAreas options)).
  { unfold allChanges, titleChange. cbv zeta.
    change (DocumentContent.sections
              (EnrichedDocument.enrichedContent
                 (createMergePreview existing newDoc (Some merge_sections)
                    clock)))
      with (mergedSectionsOf (sectionsOf existing) (sectionsOf newDoc)).
    change (DocumentContent.sections (EnrichedDocument.enrichedContent newDoc))
      with (sectionsOf newDoc).
    rewrite analyzeSectionChanges_merged.
    cbn [createMergePreview mergeSections EnrichedDocument.enrichedContent
         DocumentContent.title DocumentContent.description
         DocumentContent.purpose].
    now rewrite String.eqb_refl, !analyzeTextChanges_same. }
  now rewrite Hall.
Qed.

(** X16: the other two previews show no drift at all against the document
    they prefer: the prefer-new preview against the incoming document and
    the prefer-existing preview against the existing one, whatever the
    options. *)
Theorem analyzeDocuments_against_preferred
  (existing newDoc : EnrichedDocument.t) (clock : Clock)
  (options : Options.t) :
  analyzeDocuments Number_toString newDoc
    (createMergePreview existing newDoc (Some prefer_new) clock) options
  = DriftAnalysis.mk false 1.0%float [] create_new
  /\ analyzeDocuments Number_toString existing
       (createMergePreview existing newDoc (Some prefer_existing) clock)
       options
     = DriftAnalysis.mk false 1.0%float [] create_new.
Proof.
  split; apply analyzeDocuments_agreeing; reflexivity.
Qed.

End MergePreviews.


(* ================================================================= *)
(** ** Further facts: the recommendation on short change lists *)

Section RecommendationTable.
Import DriftDetection.
Variable Number_toString : float -> string.

Lemma calculateConfidence_counts (changes : list DriftChange.t) :
  calculateConfidence changes
  = confidenceOf (List.length changes) (Spec.count high changes)
      (Spec.count medium changes).
Proof.
  unfold calculateConfidence, confidenceOf, Js.size. cbv zeta.
  now rewrite !countSignificance_count.
Qed.

Lemma generateRecommendation_counts (changes : list DriftChange.t) :
  generateRecommendation changes (calculateConfidence changes)
  = recommendationOf (List.length changes) (Spec.count high changes)
      (Spec.count medium changes).
Proof.
  unfold generateRecommendation, recommendationOf, Js.size. cbv zeta.
  now rewrite calculateConfidence_counts, !countSignificance_count.
Qed.

Lemma counts_bounded (changes : list DriftChange.t) :
  Spec.count high changes + Spec.count medium changes
  <= List.length changes.
Proof.
  induction changes as [| c rest IH]; simpl; [lia|].
  destruct (DriftChange.significance c); simpl; lia.
Qed.

Lemma tables_hold : tablesHoldUpTo 5 = true.
Proof. vm_compute. reflexivity. Qed.

Lemma tables_at (n h m : nat) :
  n <= 5 -> h + m <= n ->
  DriftRecommendation_eqb (recommendationOf n h m) merge_required
  = mergeRequiredFor n h m
  /\ DriftRecommendation_eqb (recommendationOf n h m) update_existing
     = updateExistingFor n h m.
Proof.
  intros Hn Hhm.
  assert (In_n : In n (seq 0 6)) by (apply in_seq; lia).
  assert (In_h : In h (seq 0 6)) by (apply in_seq; lia).
  assert (In_m : In m (seq 0 6)) by (apply in_seq; lia).
  pose proof tables_hold as H. unfold tablesHoldUpTo in H.
  pose proof (proj1 (forallb_forall _ _) H n In_n) as H1. cbv beta in H1.
  pose proof (proj1 (forallb_forall _ _) H1 h In_h) as H2. cbv beta in H2.
  pose proof (proj1 (forallb_forall _ _) H2 m In_m) as H3. cbv beta in H3.
  apply Nat.leb_le in Hhm. rewrite Hhm in H3.
  cbn [negb orb] in H3. apply andb_true_iff in H3. destruct H3 as [T1 T2].
  apply Bool.eqb_prop in T1. apply Bool.eqb_prop in T2. now split.
Qed.

Lemma recommendationOf_long (n h m : nat) :
  5 < n ->
  recommendationOf n h m <> merge_required
  /\ recommendationOf n h m <> update_existing.
Proof.
  intros Hn. unfold recommendationOf.
  assert (E0 : (n =? 0) = false) by (apply Nat.eqb_neq; lia).
  assert (E3 : (n <=? 3) = false) by (apply Nat.leb_gt; lia).
  assert (E5 : (5 <? n) = true) by (apply Nat.ltb_lt; lia).
  rewrite E0, E3, E5. cbn [andb].
  destruct ((2 <? h) || _); split; discriminate.
Qed.

Lemma DriftRecommendation_eqb_eq (a b : DriftRecommendation) :
  DriftRecommendation_eqb a b = true <-> a = b.
Proof. destruct a, b; simpl; split; congruence. Qed.

Lemma analyzeDocuments_recommendation_counts
  (existing newDoc : EnrichedDocument.t) (options : Options.t) :
  let analysis := analyzeDocuments Number_toString existing newDoc options in
  DriftAnalysis.recommendation analysis
  = recommendationOf (List.length (DriftAnalysis.changes analysis))
      (Spec.count high (DriftAnalysis.changes analysis))
      (Spec.count medium (DriftAnalysis.changes analysis)).
Proof.
  cbv zeta. rewrite analyzeDocuments_eq. unfold analysisOf.
  cbn [DriftAnalysis.recommendation DriftAnalysis.changes].
  apply generateRecommendation_counts.
Qed.

(** X17: merge-required is recommended in two cases only: for four changes
    of which none is of high and at most one of medium significance, and for
    five changes that are all of low significance. *)
Theorem merge_required_iff
  (existing newDoc : EnrichedDocument.t) (options : Options.t) :
  let analysis := analyzeDocuments Number_toString existing newDoc options in
  let n := List.length (DriftAnalysis.changes analysis) in
  let h := Spec.count high (DriftAnalysis.changes analysis) in
  let m := Spec.count medium (DriftAnalysis.changes analysis) in
  DriftAnalysis.recommendation analysis = merge_required
  <-> (n = 4 /\ h = 0 /\ m <= 1) \/ (n = 5 /\ h = 0 /\ m = 0).
Proof.
  cbv zeta. rewrite analyzeDocuments_recommendation_counts.
  set (changes := DriftAnalysis.changes _).
  pose proof (counts_bounded changes) as Hb.
  set (n := List.length changes) in *.
  set (h := Spec.count high changes) in *.
  set (m := Spec.count medium changes) in *.
  destruct (le_lt_dec n 5) as [Hn | Hn].
  - destruct (@tables_at n h m Hn Hb) as [Ht _].
    rewrite <- DriftRecommendation_eqb_eq, Ht. unfold mergeRequiredFor.
    rewrite orb_true_iff, !andb_true_iff, !Nat.eqb_eq, Nat.leb_le. tauto.
  - destruct (@recommendationOf_long n h m Hn) as [Hne _]. split.
    + intros H. contradiction.
    + intros [[H _] | [H _]]; lia.
Qed.

(** X18: update-existing is recommended in these cases only: for one
    change; for two changes unless both are of high significance or one is
    of high and the other of medium significance; and for three changes of
    which at most one is not of low significance. *)
Theorem update_existing_iff
  (existing newDoc : EnrichedDocument.t) (options : Options.t) :
  let analysis := analyzeDocuments Number_toString existing newDoc options in
  let n := List.length (DriftAnalysis.changes analysis) in
  let h := Spec.count high (DriftAnalysis.changes analysis) in
  let m := Spec.count medium (DriftAnalysis.changes analysis) in
  DriftAnalysis.recommendation analysis = update_existing
  <-> n = 1
      \/ (n = 2 /\ (h = 0 \/ (h = 1 /\ m = 0)))
      \/ (n = 3 /\ h + m <= 1).
Proof.
  cbv zeta. rewrite analyzeDocuments_recommendation_counts.
  set (changes := DriftAnalysis.changes _).
  pose proof (counts_bounded changes) as Hb.
  set (n := List.length changes) in *.
  set (h := Spec.count high changes) in *.
  set (m := Spec.count medium changes) in *.
  destruct (le_lt_dec n 5) as [Hn | Hn].
  - destruct (@tables_at n h m Hn Hb) as [_ Ht].
    rewrite <- DriftRecommendation_eqb_eq, Ht. unfold updateExistingFor.
    rewrite !orb_true_iff, !andb_true_iff, !orb_true_iff, !andb_true_iff,
      !Nat.eqb_eq, Nat.leb_le. tauto.
  - destruct (@recommendationOf_long n h m Hn) as [_ Hne]. split.
    + intros H. contradiction.
    + intros [H | [[H _] | [H _]]]; lia.
Qed.

End RecommendationTable.


(* ================================================================= *)
(** ** Further facts: the two documents traded *)

Section Symmetry.
Import DriftDetection.
Variable Number_toString : float -> string.

Lemma titleChange_mirror (t1 t2 : string) :
  titleChange t2 t1 = map mirror (titleChange t1 t2).
Proof.
  unfold titleChange. rewrite (String.eqb_sym t2 t1), (similarity_swap t2 t1).
  now destruct (negb (String.eqb t1 t2)).
Qed.

Lemma analyzeTextChanges_mirror (section a b : string)
  (ignoreMinor : option bool) :
  analyzeTextChanges section b a ignoreMinor
  = map mirror (analyzeTextChanges section a b ignoreMinor).
Proof.
  unfold analyzeTextChanges. cbv zeta.
  rewrite (String.eqb_sym b a), (similarity_swap b a).
  destruct (String.eqb a b); [reflexivity|].
  now destruct (orFalse ignoreMinor && Qlt_bool 0.95%Q _).
Qed.

Lemma strictNotEqual_sym (a b : option string) :
  Js.strictNotEqual a b = Js.strictNotEqual b a.
Proof.
  destruct a, b; simpl; try reflexivity. now rewrite String.eqb_sym.
Qed.

Lemma analyzeMetadataChanges_mirror
  (m1 m2 : EnrichedDocumentMetadata.t) (focusAreas : option (list string)) :
  analyzeMetadataChanges Number_toString m2 m1 focusAreas
  = map mirror (analyzeMetadataChanges Number_toString m1 m2 focusAreas).
Proof.
  unfold analyzeMetadataChanges. cbv zeta. rewrite !for_of_flat_map.
  cbn [app]. rewrite map_flat_map. apply flat_map_ext. intros field.
  rewrite (strictNotEqual_sym
             (Js.JSON_stringify Number_toString
                (EnrichedDocumentMetadata.get m2 field))).
  now destruct (Js.strictNotEqual _ _).
Qed.

Lemma modificationEntry_mirror (ignoreMinor : bool) (k : string)
  (sa sb : DocumentSection.t) :
  map mirror (modificationEntry ignoreMinor k sa sb)
  = modificationEntry ignoreMinor k sb sa.
Proof.
  unfold modificationEntry.
  rewrite (String.eqb_sym (DocumentSection.content sb)),
    (similarity_swap (DocumentSection.content sb)).
  destruct (negb (String.eqb _ _)); [| reflexivity].
  now destruct (ignoreMinor && Qlt_bool 0.95%Q _).
Qed.

Lemma modificationEntry_section (ignoreMinor : bool) (k : string)
  (sa sb : DocumentSection.t) (c : DriftChange.t) :
  In c (modificationEntry ignoreMinor k sa sb) ->
  DriftChange.section c = sectionPath k.
Proof.
  unfold modificationEntry. destruct (negb (String.eqb _ _)); [| contradiction].
  destruct (ignoreMinor && Qlt_bool 0.95%Q _); [contradiction|].
  intros [<- | []]. reflexivity.
Qed.

Lemma modificationEntry_short (ignoreMinor : bool) (k : string)
  (sa sb : DocumentSection.t) :
  modificationEntry ignoreMinor k sa sb = []
  \/ exists c, modificationEntry ignoreMinor k sa sb = [c].
Proof.
  unfold modificationEntry. destruct (negb (String.eqb _ _)); [| now left].
  destruct (ignoreMinor && Qlt_bool 0.95%Q _); [now left|].
  right. eexists. reflexivity.
Qed.

Lemma In_modificationsOver (ignoreMinor : bool)
  (A B : list (string * DocumentSection.t)) (c : DriftChange.t) :
  NoDup (keys B) ->
  In c (modificationsOver ignoreMinor A B)
  <-> exists k sa sb,
        Js.Map_get A k = Some sa /\ Js.Map_get B k = Some sb
        /\ In c (modificationEntry ignoreMinor k sa sb).
Proof.
  intros HB. unfold modificationsOver. rewrite in_flat_map. split.
  - intros [[k sb] [Hin Hc]]. cbn [fst snd] in Hc.
    destruct (Js.Map_get A k) as [sa |] eqn:E; [| contradiction].
    exists k, sa, sb. repeat split; try assumption.
    now apply Map_get_In.
  - intros (k & sa & sb & HA & HBk & Hc). exists (k, sb). split.
    + now apply Map_get_Some_In.
    + cbn [fst snd]. now rewrite HA.
Qed.

Lemma sectionPath_injective (k1 k2 : string) :
  sectionPath k1 = sectionPath k2 -> k1 = k2.
Proof. unfold sectionPath. cbn [append]. now intros [= ->]. Qed.

Lemma modificationsOver_sections (ignoreMinor : bool)
  (A B : list (string * DocumentSection.t)) (c : DriftChange.t) :
  In c (modificationsOver ignoreMinor A B) ->
  exists k, In k (keys B) /\ DriftChange.section c = sectionPath k.
Proof.
  unfold modificationsOver. rewrite in_flat_map.
  intros [[k sb] [Hin Hc]]. cbn [fst snd] in Hc.
  destruct (Js.Map_get A k) as [sa |]; [| contradiction].
  exists k. split; [now apply In_keys with sb|].
  now apply modificationEntry_section in Hc.
Qed.

Lemma modificationsOver_NoDup (ignoreMinor : bool)
  (A B : list (string * DocumentSection.t)) :
  NoDup (keys B) ->
  NoDup (map DriftChange.section (modificationsOver ignoreMinor A B)).
Proof.
  induction B as [| [k sb] B IH]; intros HB; [constructor|].
  inversion HB as [| ? ? Hk HB']; subst.
  change (modificationsOver ignoreMinor A ((k, sb) :: B))
    with (match Js.Map_get A k with
          | Some sa => modificationEntry ignoreMinor k sa sb
          | None => []
          end ++ modificationsOver ignoreMinor A B).
  destruct (Js.Map_get A k) as [sa |]; [| now apply IH].
  destruct (modificationEntry_short ignoreMinor k sa sb) as [E | [c E]].
  - rewrite E. now apply IH.
  - rewrite E. cbn [app map]. constructor; [| now apply IH].
    assert (Hc : DriftChange.section c = sectionPath k).
    { apply (@modificationEntry_section ignoreMinor k sa sb).
      rewrite E. now left. }
    rewrite Hc. intros Hin. apply in_map_iff in Hin.
    destruct Hin as [c' [Hs Hc']].
    apply modificationsOver_sections in Hc'.
    destruct Hc' as [k' [Hk' Hs']]. rewrite Hs' in Hs.
    apply sectionPath_injective in Hs. subst k'. contradiction.
Qed.

Lemma mirror_section (l : list DriftChange.t) :
  map DriftChange.section (map mirror l) = map DriftChange.section l.
Proof. rewrite map_map. reflexivity. Qed.

Lemma modificationsOver_mirror (ignoreMinor : bool)
  (A B : list (string * DocumentSection.t)) :
  NoDup (keys A) -> NoDup (keys B) ->
  Permutation (modificationsOver ignoreMinor B A)
    (map mirror (modificationsOver ignoreMinor A B)).
Proof.
  intros HA HB. apply NoDup_Permutation.
  - apply NoDup_map_inv with (f := DriftChange.section).
    now apply modificationsOver_NoDup.
  - apply NoDup_map_inv with (f := DriftChange.section).
    rewrite mirror_section. now apply modificationsOver_NoDup.
  - intros c. rewrite (@In_modificationsOver ignoreMinor B A c HA).
    rewrite in_map_iff. split.
    + intros (k & sb & sa & Hb & Ha & Hc).
      rewrite <- modificationEntry_mirror in Hc. apply in_map_iff in Hc.
      destruct Hc as [c0 [Hm Hc0]]. exists c0. split; [assumption|].
      apply (@In_modificationsOver ignoreMinor A B c0 HB).
      now exists k, sa, sb.
    + intros [c0 [Hm Hc0]].
      apply (@In_modificationsOver ignoreMinor A B c0 HB) in Hc0.
      destruct Hc0 as (k & sa & sb & Ha & Hb & Hc).
      exists k, sb, sa. repeat split; try assumption.
      rewrite <- modificationEntry_mirror. apply in_map_iff. now exists c0.
Qed.

End Symmetry.

Section SymmetryTheorem.
Import DriftDetection.
Variable Number_toString : float -> string.

Lemma sectionChangesOfMaps_parts
  (A B : list (string * DocumentSection.t)) (ignoreMinor : bool) :
  sectionChangesOfMaps A B ignoreMinor
  = deletionsOver A B ++ additionsOver A B
    ++ modificationsOver ignoreMinor A B.
Proof.
  unfold sectionChangesOfMaps, deletionsOver, additionsOver,
    modificationsOver. cbv zeta. rewrite !for_of_flat_map. cbn [app].
  rewrite <- app_assoc. f_equal; [| f_equal]; apply flat_map_ext;
    intros [k s]; reflexivity.
Qed.

Lemma deletionsOver_mirror (A B : list (string * DocumentSection.t)) :
  map mirror (deletionsOver A B) = additionsOver B A.
Proof.
  unfold deletionsOver, additionsOver. rewrite map_flat_map.
  apply flat_map_ext. intros [k s]. cbn [fst snd].
  now destruct (negb (Js.Map_has B k)).
Qed.

Lemma additionsOver_mirror (A B : list (string * DocumentSection.t)) :
  map mirror (additionsOver A B) = deletionsOver B A.
Proof.
  unfold deletionsOver, additionsOver. rewrite map_flat_map.
  apply flat_map_ext. intros [k s]. cbn [fst snd].
  now destruct (negb (Js.Map_has A k)).
Qed.

Lemma analyzeSectionChanges_mirror
  (l1 l2 : list DocumentSection.t) (ignoreMinor : option bool) :
  Permutation (analyzeSectionChanges l2 l1 ignoreMinor)
    (map mirror (analyzeSectionChanges l1 l2 ignoreMinor)).
Proof.
  unfold analyzeSectionChanges. cbv zeta.
  fold (sectionMap l1). fold (sectionMap l2).
  rewrite !sectionChangesOfMaps_parts, !map_app.
  rewrite deletionsOver_mirror, additionsOver_mirror.
  eapply Permutation_trans; [apply Permutation_app_swap_app|].
  apply Permutation_app_head, Permutation_app_head.
  apply modificationsOver_mirror; apply sectionMap_NoDup.
Qed.

Lemma allChanges_mirror (existing newDoc : EnrichedDocument.t)
  (options : Options.t) :
  Permutation (allChanges Number_toString newDoc existing options)
    (map mirror (allChanges Number_toString existing newDoc options)).
Proof.
  unfold allChanges. cbv zeta. rewrite !map_app.
  rewrite <- titleChange_mirror, <- !analyzeTextChanges_mirror,
    <- analyzeMetadataChanges_mirror.
  repeat apply Permutation_app_head.
  apply Permutation_app_tail. apply analyzeSectionChanges_mirror.
Qed.

Lemma count_mirror (s : Significance) (l : list DriftChange.t) :
  Spec.count s (map mirror l) = Spec.count s l.
Proof.
  induction l as [| c l IH]; simpl; [reflexivity|]. now rewrite IH.
Qed.

Lemma count_Permutation (s : Significance) (l l' : list DriftChange.t) :
  Permutation l l' -> Spec.count s l = Spec.count s l'.
Proof.
  induction 1 as [| x l l' _ IH | x y l | l l' l'' _ IH1 _ IH2]; simpl.
  - reflexivity.
  - now rewrite IH.
  - destruct (Significance_eqb (DriftChange.significance y) s),
      (Significance_eqb (DriftChange.significance x) s); reflexivity.
  - now rewrite IH1.
Qed.

Lemma filter_Permutation (A : Type) (p : A -> bool) (l l' : list A) :
  Permutation l l' -> Permutation (filter p l) (filter p l').
Proof.
  induction 1 as [| x l l' _ IH | x y l | l l' l'' _ IH1 _ IH2]; simpl.
  - constructor.
  - destruct (p x); [now constructor | assumption].
  - destruct (p x), (p y); try apply Permutation_refl; constructor.
  - now apply Permutation_trans with (filter p l').
Qed.

Lemma filter_notLow_mirror (l : list DriftChange.t) :
  filter notLow (map mirror l) = map mirror (filter notLow l).
Proof.
  induction l as [| c l IH]; simpl; [reflexivity|].
  change (notLow (mirror c)) with (notLow c).
  destruct (notLow c); simpl; now rewrite IH.
Qed.

Lemma changes_mirror (existing newDoc : EnrichedDocument.t)
  (options : Options.t) :
  Permutation
    (DriftAnalysis.changes
       (analyzeDocuments Number_toString newDoc existing options))
    (map mirror
       (DriftAnalysis.changes
          (analyzeDocuments Number_toString existing newDoc options))).
Proof.
  rewrite !analyzeDocuments_changes.
  destruct (orFalse (Options.ignoreMinorChanges options)).
  - rewrite <- filter_notLow_mirror. apply filter_Permutation.
    apply allChanges_mirror.
  - apply allChanges_mirror.
Qed.

(** X19: the analysis is symmetric in the two documents: trading them
    turns additions into deletions and back and trades the old and the new
    value of every change, up to the order of the changes, and leaves
    [hasChanges], the confidence and the recommendation as they are. *)
Theorem analyzeDocuments_symmetric (existing newDoc : EnrichedDocument.t)
  (options : Options.t) :
  let forth := analyzeDocuments Number_toString existing newDoc options in
  let back := analyzeDocuments Number_toString newDoc existing options in
  Permutation (DriftAnalysis.changes back)
    (map mirror (DriftAnalysis.changes forth))
  /\ DriftAnalysis.hasChanges back = DriftAnalysis.hasChanges forth
  /\ DriftAnalysis.confidence back = DriftAnalysis.confidence forth
  /\ DriftAnalysis.recommendation back = DriftAnalysis.recommendation forth.
Proof.
  cbv zeta. pose proof (changes_mirror existing newDoc options) as Hperm.
  split; [exact Hperm|].
  assert (Hlen : List.length
                   (DriftAnalysis.changes
                      (analyzeDocuments Number_toString newDoc existing
                         options))
                 = List.length
                     (DriftAnalysis.changes
                        (analyzeDocuments Number_toString existing newDoc
                           options))).
  { rewrite (Permutation_length Hperm). apply length_map. }
  assert (Hcount : forall s,
             Spec.count s
               (DriftAnalysis.changes
                  (analyzeDocuments Number_toString newDoc existing options))
             = Spec.count s
                 (DriftAnalysis.changes
                    (analyzeDocuments Number_toString existing newDoc
                       options))).
  { intros s. rewrite (count_Permutation s Hperm). apply count_mirror. }
  revert Hlen Hcount. rewrite !analyzeDocuments_eq. unfold analysisOf.
  cbn [DriftAnalysis.changes DriftAnalysis.hasChanges
       DriftAnalysis.confidence DriftAnalysis.recommendation].
  intros Hlen Hcount.
  rewrite !generateRecommendation_counts, !calculateConfidence_counts.
  unfold Js.size. now rewrite Hlen, !Hcount.
Qed.

End SymmetryTheorem.


(* ================================================================= *)
(** ** Further facts: the local drift detection of the search service *)

Section LocalDetection.
Import DriftDetection.
Variable Number_toString : float -> string.
Local Open Scope string_scope.

Lemma calculateSimilarity_agrees (a b : string) :
  QAService.calculateSimilarity a b = calculateStringSimilarity a b.
Proof.
  unfold QAService.calculateSimilarity, calculateStringSimilarity, sizeRatio.
  cbv zeta. fold (tokenSet a). fold (tokenSet b).
  destruct (Nat.eqb (Js.size (Js.Set_of (tokenSet a ++ tokenSet b))) 0)
    eqn:E; [| reflexivity].
  apply Nat.eqb_eq in E. now apply union_size_positive in E.
Qed.

(** X20: the two similarity functions of the repository are one function:
    they differ in the value that they give an empty union, zero here and
    one there, and no pair of strings has an empty union. *)
Theorem calculateSimilarity_same_function (a b : string) :
  QAService.calculateSimilarity a b = calculateStringSimilarity a b.
Proof. exact (calculateSimilarity_agrees a b). Qed.

Lemma similarity_same (a : string) : (calculateStringSimilarity a a == 1)%Q.
Proof.
  unfold calculateStringSimilarity. cbv zeta. unfold Js.size.
  assert (H : List.length
                (Js.Set_of (filter (Js.Set_has (tokenSet a)) (tokenSet a)))
              = List.length (Js.Set_of (tokenSet a ++ tokenSet a))).
  { apply Permutation_length. apply NoDup_Permutation;
      try apply Set_of_NoDup.
    intros x. rewrite In_intersection, In_union. tauto. }
  rewrite H. apply sizeRatio_same.
Qed.

Lemma similarity_same_not_below (a : string) (t : Q) :
  (t <= 1)%Q -> Qlt_bool (calculateStringSimilarity a a) t = false.
Proof.
  intros Ht. destruct (Qlt_bool _ t) eqn:E; [| reflexivity].
  apply Qlt_bool_iff in E. rewrite similarity_same in E.
  exfalso. now apply (Qlt_not_le 1 t).
Qed.

Lemma below_half_below_most (x : Q) :
  Qlt_bool x 0.5%Q = true -> Qlt_bool x 0.8%Q = true.
Proof.
  intros H. apply Qlt_bool_iff. apply Qlt_bool_iff in H.
  apply Qlt_trans with 0.5%Q; [assumption | reflexivity].
Qed.

(** What is left of a text change once the changes of low significance are
    dropped and the title is graded: the change that the local detection
    pushes. *)
Lemma graded_text (section a b : string) :
  String.eqb section "title" = false ->
  map gradeTitleMedium (filter notLow (analyzeTextChanges section a b None))
  = if Qlt_bool (calculateStringSimilarity a b) 0.8%Q then
      [DriftChange.mk section modification (Some a) (Some b)
         (if Qlt_bool (calculateStringSimilarity a b) 0.5%Q
          then high else medium)]
    else [].
Proof.
  intros Hs. unfold analyzeTextChanges. cbv zeta. cbn [orFalse andb].
  destruct (String.eqb a b) eqn:E.
  - apply String.eqb_eq in E. subst b.
    now rewrite similarity_same_not_below.
  - unfold determineSignificance, HIGH_SIGNIFICANCE_THRESHOLD,
      MEDIUM_SIGNIFICANCE_THRESHOLD.
    destruct (Qlt_bool (calculateStringSimilarity a b) 0.5%Q) eqn:E5.
    + rewrite (below_half_below_most _ E5).
      change (filter notLow
                [DriftChange.mk section modification (Some a) (Some b) high])
        with [DriftChange.mk section modification (Some a) (Some b) high].
      cbn [map]. unfold gradeTitleMedium. cbn [DriftChange.section].
      now rewrite Hs.
    + destruct (Qlt_bool (calculateStringSimilarity a b) 0.8%Q);
        [| reflexivity].
      change (filter notLow
                [DriftChange.mk section modification (Some a) (Some b)
                   medium])
        with [DriftChange.mk section modification (Some a) (Some b) medium].
      cbn [map]. unfold gradeTitleMedium. cbn [DriftChange.section].
      now rewrite Hs.
Qed.

Lemma graded_title (t1 t2 : string) :
  map gradeTitleMedium (filter notLow (titleChange t1 t2))
  = if negb (String.eqb t1 t2) then
      [DriftChange.mk "title" modification (Some t1) (Some t2) medium]
    else [].
Proof.
  unfold titleChange. destruct (negb (String.eqb t1 t2)); [| reflexivity].
  now destruct (Qlt_bool _ _).
Qed.

Lemma graded_section_path (l : list DriftChange.t) :
  (forall c, In c l ->
     exists k, DriftChange.section c = sectionPath k) ->
  map gradeTitleMedium l = l.
Proof.
  intros H. rewrite <- (map_id l) at 2. apply map_ext_in. intros c Hc.
  destruct (H c Hc) as [k Hk]. unfold gradeTitleMedium. now rewrite Hk.
Qed.

Lemma graded_modification (k : string) (ex s : DocumentSection.t) :
  filter notLow (modificationEntry false k ex s)
  = if Qlt_bool
         (calculateStringSimilarity (DocumentSection.content ex)
            (DocumentSection.content s)) 0.8%Q
    then
      [DriftChange.mk (sectionPath k) modification
         (Some (DocumentSection.content ex))
         (Some (DocumentSection.content s))
         (if Qlt_bool
               (calculateStringSimilarity (DocumentSection.content ex)
                  (DocumentSection.content s)) 0.5%Q
          then high else medium)]
    else [].
Proof.
  unfold modificationEntry. cbn [andb].
  destruct (String.eqb (DocumentSection.content ex)
              (DocumentSection.content s)) eqn:E.
  - apply String.eqb_eq in E. rewrite E.
    now rewrite similarity_same_not_below.
  - cbn [negb]. unfold determineSignificance, HIGH_SIGNIFICANCE_THRESHOLD,
      MEDIUM_SIGNIFICANCE_THRESHOLD.
    destruct (Qlt_bool _ 0.5%Q) eqn:E5.
    + now rewrite (below_half_below_most _ E5).
    + now destruct (Qlt_bool _ 0.8%Q).
Qed.

Lemma filter_deletionsOver (A B : list (string * DocumentSection.t)) :
  filter notLow (deletionsOver A B) = deletionsOver A B.
Proof.
  unfold deletionsOver. rewrite filter_flat_map. apply flat_map_ext.
  intros [k s]. cbn [fst snd]. now destruct (negb (Js.Map_has B k)).
Qed.

Lemma filter_additionsOver (A B : list (string * DocumentSection.t)) :
  filter notLow (additionsOver A B) = additionsOver A B.
Proof.
  unfold additionsOver. rewrite filter_flat_map. apply flat_map_ext.
  intros [k s]. cbn [fst snd]. now destruct (negb (Js.Map_has A k)).
Qed.

Lemma section_changes_paths (A B : list (string * DocumentSection.t))
  (ignoreMinor : bool) (c : DriftChange.t) :
  In c (sectionChangesOfMaps A B ignoreMinor) ->
  exists k, DriftChange.section c = sectionPath k.
Proof.
  rewrite sectionChangesOfMaps_parts, !in_app_iff.
  intros [H | [H | H]].
  - unfold deletionsOver in H. apply in_flat_map in H.
    destruct H as [[k s] [_ H]]. cbn [fst snd] in H.
    destruct (negb _); [| contradiction]. destruct H as [<- | []].
    now exists k.
  - unfold additionsOver in H. apply in_flat_map in H.
    destruct H as [[k s] [_ H]]. cbn [fst snd] in H.
    destruct (negb _); [| contradiction]. destruct H as [<- | []].
    now exists k.
  - apply modificationsOver_sections in H. destruct H as [k [_ H]].
    now exists k.
Qed.

End LocalDetection.

Section LocalDetectionTheorems.
Import DriftDetection.
Variable Number_toString : float -> string.

(** The changes of the local detection, group by group. *)
Lemma performLocalDriftDetection_changes
  (existing newDoc : EnrichedDocument.t) :
  let c1 := EnrichedDocument.enrichedContent existing in
  let c2 := EnrichedDocument.enrichedContent newDoc in
  let A := sectionMap (DocumentContent.sections c1) in
  let B := sectionMap (DocumentContent.sections c2) in
  DriftAnalysis.changes (QAService.performLocalDriftDetection existing newDoc)
  = map gradeTitleMedium
      (filter notLow
         (titleChange (DocumentContent.title c1) (DocumentContent.title c2)))
    ++ map gradeTitleMedium
         (filter notLow
            (analyzeTextChanges "description"
               (DocumentContent.description c1)
               (DocumentContent.description c2) None))
    ++ deletionsOver A B ++ additionsOver A B
    ++ filter notLow (modificationsOver false A B).
Proof.
  cbv zeta. unfold QAService.performLocalDriftDetection. cbv zeta.
  cbn [DriftAnalysis.changes]. rewrite !for_of_flat_map.
  rewrite graded_title, graded_text by reflexivity.
  rewrite calculateSimilarity_agrees.
  change (Js.Map_of
            (map (fun s : DocumentSection.t => (DocumentSection.title s, s))
               (DocumentContent.sections
                  (EnrichedDocument.enrichedContent existing))))
    with (sectionMap (DocumentContent.sections
                        (EnrichedDocument.enrichedContent existing))).
  change (Js.Map_of
            (map (fun s : DocumentSection.t => (DocumentSection.title s, s))
               (DocumentContent.sections
                  (EnrichedDocument.enrichedContent newDoc))))
    with (sectionMap (DocumentContent.sections
                        (EnrichedDocument.enrichedContent newDoc))).
  set (A := sectionMap (DocumentContent.sections
                          (EnrichedDocument.enrichedContent existing))).
  set (B := sectionMap (DocumentContent.sections
                          (EnrichedDocument.enrichedContent newDoc))).
  assert (Hmod :
            flat_map
              (fun '(title, newSection) =>
                 match Js.Map_get A title with
                 | Some existingSection =>
                     if Qlt_bool
                          (QAService.calculateSimilarity
                             (DocumentSection.content existingSection)
                             (DocumentSection.content newSection)) 0.8%Q
                     then
                       [DriftChange.mk ("sections." ++ title)%string
                          modification
                          (Some (DocumentSection.content existingSection))
                          (Some (DocumentSection.content newSection))
                          (if Qlt_bool
                                (QAService.calculateSimilarity
                                   (DocumentSection.content existingSection)
                                   (DocumentSection.content newSection))
                                0.5%Q
                           then high else medium)]
                     else []
                 | None => []
                 end) B
            = filter notLow (modificationsOver false A B)).
  { unfold modificationsOver. rewrite filter_flat_map.
    apply flat_map_ext. intros [k s]. cbn [fst snd].
    destruct (Js.Map_get A k) as [ex |]; [| reflexivity].
    now rewrite calculateSimilarity_agrees, graded_modification. }
  assert (Hdel :
            flat_map
              (fun '(title, section) =>
                 if negb (Js.Map_has B title) then
                   [DriftChange.mk ("sections." ++ title)%string deletion
                      (Some (DocumentSection.content section)) None medium]
                 else []) A
            = deletionsOver A B).
  { apply flat_map_ext. now intros [k s]. }
  assert (Hadd :
            flat_map
              (fun '(title, section) =>
                 if negb (Js.Map_has A title) then
                   [DriftChange.mk ("sections." ++ title)%string addition
                      None (Some (DocumentSection.content section)) medium]
                 else []) B
            = additionsOver A B).
  { apply flat_map_ext. now intros [k s]. }
  rewrite Hmod, Hdel, Hadd. rewrite <- !app_assoc.
  destruct (negb (String.eqb _ _)); destruct (Qlt_bool _ 0.8%Q);
    reflexivity.
Qed.

(** X21: besides the purpose and the metadata, which it does not read, the
    local detection reports what [analyzeDocuments] reports when minor
    changes are ignored: on two documents with the same purpose and the
    same checked metadata the two change lists are equal, but for the
    change of the title, which the local detection always grades medium. *)
Theorem performLocalDriftDetection_agrees
  (existing newDoc : EnrichedDocument.t) :
  DocumentContent.purpose (EnrichedDocument.enrichedContent existing)
  = DocumentContent.purpose (EnrichedDocument.enrichedContent newDoc) ->
  analyzeMetadataChanges Number_toString (EnrichedDocument.metadata existing)
    (EnrichedDocument.metadata newDoc) None = [] ->
  DriftAnalysis.changes (QAService.performLocalDriftDetection existing newDoc)
  = map gradeTitleMedium
      (DriftAnalysis.changes
         (analyzeDocuments Number_toString existing newDoc
            (Options.mk None (Some true) None))).
Proof.
  intros Hp Hm. rewrite performLocalDriftDetection_changes. cbv zeta.
  rewrite analyzeDocuments_changes. cbn [Options.ignoreMinorChanges orFalse].
  rewrite (allChanges_ignoreMinor Number_toString existing newDoc None None
             (Some true) None).
  unfold allChanges. cbv zeta. cbn [Options.ignoreMinorChanges
    Options.focusAreas]. rewrite Hm, Hp, analyzeTextChanges_same.
  rewrite app_nil_r. cbn [app]. rewrite !filter_app, !map_app.
  f_equal. f_equal.
  unfold analyzeSectionChanges. cbv zeta. cbn [orFalse].
  fold (sectionMap (DocumentContent.sections
                      (EnrichedDocument.enrichedContent existing))).
  fold (sectionMap (DocumentContent.sections
                      (EnrichedDocument.enrichedContent newDoc))).
  rewrite graded_section_path.
  - rewrite sectionChangesOfMaps_parts, !filter_app.
    now rewrite filter_deletionsOver, filter_additionsOver.
  - intros c Hc. apply filter_In in Hc. destruct Hc as [Hc _].
    now apply section_changes_paths in Hc.
Qed.

(** X22: the local detection never reports a change of low significance
    and never recommends merge-required; it recommends create-new exactly
    when it found no change. *)
Theorem performLocalDriftDetection_never
  (existing newDoc : EnrichedDocument.t) :
  let analysis := QAService.performLocalDriftDetection existing newDoc in
  Forall (fun c => DriftChange.significance c <> low)
    (DriftAnalysis.changes analysis)
  /\ DriftAnalysis.recommendation analysis <> merge_required
  /\ (DriftAnalysis.recommendation analysis = create_new
      <-> DriftAnalysis.changes analysis = []).
Proof.
  cbv zeta. split; [| split].
  - rewrite performLocalDriftDetection_changes. cbv zeta.
    assert (Hf : forall l, Forall (fun c => DriftChange.significance c <> low)
                          (filter notLow l)).
    { intros l. apply Forall_forall. intros c Hc. apply filter_In in Hc.
      destruct Hc as [_ Hc]. unfold notLow in Hc. intros E.
      rewrite E in Hc. discriminate. }
    assert (Hg : forall l, Forall (fun c => DriftChange.significance c <> low)
                          l ->
                        Forall (fun c => DriftChange.significance c <> low)
                          (map gradeTitleMedium l)).
    { intros l Hl. apply Forall_map. rewrite Forall_forall in *.
      intros c Hc. unfold gradeTitleMedium.
      destruct (String.eqb _ _); [discriminate | now apply Hl]. }
    repeat apply Forall_app_intro.
    + apply Hg, Hf.
    + apply Hg, Hf.
    + rewrite <- filter_deletionsOver. apply Hf.
    + rewrite <- filter_additionsOver. apply Hf.
    + apply Hf.
  - unfold QAService.performLocalDriftDetection. cbv zeta.
    cbn [DriftAnalysis.recommendation].
    repeat match goal with
           | |- context [if ?b then _ else _] => destruct b
           end; discriminate.
  - unfold QAService.performLocalDriftDetection. cbv zeta.
    cbn [DriftAnalysis.recommendation DriftAnalysis.changes].
    match goal with
    | |- context [0 <? Js.size ?l] => set (changes := l)
    end.
    destruct changes as [| c rest].
    + split; reflexivity.
    + change (0 <? Js.size (c :: rest)) with true. cbn [negb].
      repeat match goal with
             | |- context [if ?b then _ else _] => destruct b
             end; split; discriminate.
Qed.

End LocalDetectionTheorems.


(* ================================================================= *)
(** ** Further facts: repeated titles *)

Section RepeatedTitles.
Import DriftDetection.

Lemma sectionMap_lastByTitle (l : list DocumentSection.t) :
  sectionMap (lastByTitle l) = sectionMap l.
Proof.
  unfold lastByTitle.
  assert (Hnd : NoDup (titlesOf (map snd (sectionMap l)))).
  { rewrite (TitleKeyed_titles (sectionMap_TitleKeyed l)).
    apply sectionMap_NoDup. }
  rewrite (@sectionMap_distinct _ Hnd), map_map.
  rewrite <- (map_id (sectionMap l)) at 2. apply map_ext_in.
  intros [k s] Hin. unfold sectionEntry. cbn [snd].
  now rewrite (sectionMap_TitleKeyed l k s Hin).
Qed.

(** X23: of the sections that share a title only the last counts, at the
    place of the first: the section comparison and the section changes of
    two lists are those of the lists without the hidden sections, and a
    section is kept exactly when it is the last of its title. *)
Theorem repeated_titles_hidden
  (existingSections newSections : list DocumentSection.t)
  (ignoreMinor : option bool) :
  compareSections (lastByTitle existingSections) (lastByTitle newSections)
  = compareSections existingSections newSections
  /\ analyzeSectionChanges (lastByTitle existingSections)
       (lastByTitle newSections) ignoreMinor
     = analyzeSectionChanges existingSections newSections ignoreMinor
  /\ (forall s : DocumentSection.t,
         In s (lastByTitle existingSections)
         <-> find (fun s' => String.eqb (DocumentSection.title s')
                               (DocumentSection.title s))
               (rev existingSections)
             = Some s).
Proof.
  split; [| split].
  - rewrite !compareSections_buckets. now rewrite !sectionMap_lastByTitle.
  - unfold analyzeSectionChanges. cbv zeta.
    fold (sectionMap (lastByTitle existingSections)).
    fold (sectionMap (lastByTitle newSections)).
    fold (sectionMap existingSections). fold (sectionMap newSections).
    now rewrite !sectionMap_lastByTitle.
  - intros s. unfold lastByTitle.
    rewrite (In_map_snd s (sectionMap_TitleKeyed existingSections)).
    rewrite <- sectionMap_last_wins. split.
    + apply Map_get_In. apply sectionMap_NoDup.
    + apply Map_get_Some_In.
Qed.

End RepeatedTitles.


(* ================================================================= *)
(** ** Further facts: the metadata of a merge *)

Section MergedMetadata.
Import DriftDetection.
Variable Number_toString : float -> string.




End MergedMetadata.


(* ================================================================= *)
(** ** Further facts: the order of the sections *)

Section SectionOrder.
Import DriftDetection.
Variable Number_toString : float -> string.

Lemma Map_get_ext (V : Type) (M M' : list (string * V)) :
  NoDup (keys M) -> NoDup (keys M') ->
  (forall x, In x M <-> In x M') ->
  forall k, Js.Map_get M k = Js.Map_get M' k.
Proof.
  intros HM HM' Hin k.
  destruct (Js.Map_get M k) as [v |] eqn:E.
  - apply Map_get_Some_In in E. apply Hin in E.
    symmetry. now apply Map_get_In.
  - destruct (Js.Map_get M' k) as [v |] eqn:E'; [| reflexivity].
    apply Map_get_Some_In in E'. apply Hin in E'.
    apply (@Map_get_In _ M k v HM) in E'. congruence.
Qed.

Lemma sectionMap_Permutation (l l' : list DocumentSection.t) :
  NoDup (titlesOf l) -> Permutation l' l ->
  Permutation (sectionMap l') (sectionMap l)
  /\ (forall k, Js.Map_get (sectionMap l') k = Js.Map_get (sectionMap l) k).
Proof.
  intros Hnd Hperm.
  assert (Hnd' : NoDup (titlesOf l')).
  { apply Permutation_NoDup with (titlesOf l); [| assumption].
    unfold titlesOf. apply Permutation_map. now apply Permutation_sym. }
  assert (HP : Permutation (sectionMap l') (sectionMap l)).
  { rewrite (@sectionMap_distinct _ Hnd), (@sectionMap_distinct _ Hnd').
    now apply Permutation_map. }
  split; [exact HP|].
  apply Map_get_ext; try apply sectionMap_NoDup.
  intros x. split; intros Hx.
  - now apply (Permutation_in _ HP).
  - now apply (Permutation_in _ (Permutation_sym HP)).
Qed.

Lemma sectionChangesOfMaps_Permutation
  (A A' B B' : list (string * DocumentSection.t)) (ignoreMinor : bool) :
  Permutation A' A -> Permutation B' B ->
  (forall k, Js.Map_get A' k = Js.Map_get A k) ->
  (forall k, Js.Map_get B' k = Js.Map_get B k) ->
  Permutation (sectionChangesOfMaps A' B' ignoreMinor)
    (sectionChangesOfMaps A B ignoreMinor).
Proof.
  intros HA HB HgA HgB. rewrite !sectionChangesOfMaps_parts.
  assert (HhA : forall k, Js.Map_has A' k = Js.Map_has A k).
  { intros k. unfold Js.Map_has. now rewrite HgA. }
  assert (HhB : forall k, Js.Map_has B' k = Js.Map_has B k).
  { intros k. unfold Js.Map_has. now rewrite HgB. }
  repeat apply Permutation_app.
  - unfold deletionsOver.
    rewrite (flat_map_ext _
               (fun entry =>
                  if negb (Js.Map_has B (fst entry)) then
                    [DriftChange.mk (sectionPath (fst entry)) deletion
                       (Some (DocumentSection.content (snd entry))) None
                       medium]
                  else [])) by (intros x; now rewrite HhB).
    now apply Permutation_flat_map.
  - unfold additionsOver.
    rewrite (flat_map_ext _
               (fun entry =>
                  if negb (Js.Map_has A (fst entry)) then
                    [DriftChange.mk (sectionPath (fst entry)) addition
                       None (Some (DocumentSection.content (snd entry)))
                       medium]
                  else [])) by (intros x; now rewrite HhA).
    now apply Permutation_flat_map.
  - unfold modificationsOver.
    rewrite (flat_map_ext _
               (fun entry =>
                  match Js.Map_get A (fst entry) with
                  | Some existingSection =>
                      modificationEntry ignoreMinor (fst entry)
                        existingSection (snd entry)
                  | None => []
                  end)) by (intros x; now rewrite HgA).
    now apply Permutation_flat_map.
Qed.

Lemma allChanges_section_order (d1 d2 : EnrichedDocument.t)
  (l1 l2 : list DocumentSection.t) (options : Options.t) :
  NoDup (titlesOf (sectionsOf d1)) -> NoDup (titlesOf (sectionsOf d2)) ->
  Permutation l1 (sectionsOf d1) -> Permutation l2 (sectionsOf d2) ->
  Permutation
    (allChanges Number_toString (withSections d1 l1) (withSections d2 l2)
       options)
    (allChanges Number_toString d1 d2 options).
Proof.
  intros H1 H2 P1 P2. unfold allChanges, withSections. cbv zeta.
  cbn [EnrichedDocument.enrichedContent EnrichedDocument.metadata
       DocumentContent.title DocumentContent.description
       DocumentContent.purpose DocumentContent.sections].
  repeat apply Permutation_app_head. apply Permutation_app_tail.
  unfold analyzeSectionChanges. cbv zeta.
  destruct (sectionMap_Permutation H1 P1) as [PA GA].
  destruct (sectionMap_Permutation H2 P2) as [PB GB].
  now apply sectionChangesOfMaps_Permutation.
Qed.

(** X25: the order of the sections does not matter to the verdict: when
    the titles of each document are distinct, listing its sections in
    another order gives the same changes in another order, and the same
    [hasChanges], confidence and recommendation. *)
Theorem analyzeDocuments_section_order (d1 d2 : EnrichedDocument.t)
  (l1 l2 : list DocumentSection.t) (options : Options.t) :
  NoDup (titlesOf (sectionsOf d1)) -> NoDup (titlesOf (sectionsOf d2)) ->
  Permutation l1 (sectionsOf d1) -> Permutation l2 (sectionsOf d2) ->
  let plain := analyzeDocuments Number_toString d1 d2 options in
  let shuffled :=
    analyzeDocuments Number_toString (withSections d1 l1)
      (withSections d2 l2) options in
  Permutation (DriftAnalysis.changes shuffled) (DriftAnalysis.changes plain)
  /\ DriftAnalysis.hasChanges shuffled = DriftAnalysis.hasChanges plain
  /\ DriftAnalysis.confidence shuffled = DriftAnalysis.confidence plain
  /\ DriftAnalysis.recommendation shuffled
     = DriftAnalysis.recommendation plain.
Proof.
  intros H1 H2 P1 P2. cbv zeta.
  pose proof (@allChanges_section_order d1 d2 l1 l2 options H1 H2 P1 P2)
    as Hall.
  rewrite !analyzeDocuments_eq.
  set (f := fun l : list DriftChange.t =>
              if orFalse (Options.ignoreMinorChanges options)
              then filter notLow l else l).
  assert (Hperm : Permutation
                    (f (allChanges Number_toString (withSections d1 l1)
                          (withSections d2 l2) options))
                    (f (allChanges Number_toString d1 d2 options))).
  { unfold f. destruct (orFalse _); [now apply filter_Permutation|].
    exact Hall. }
  fold (f (allChanges Number_toString (withSections d1 l1)
             (withSections d2 l2) options)).
  fold (f (allChanges Number_toString d1 d2 options)).
  unfold analysisOf.
  cbn [DriftAnalysis.changes DriftAnalysis.hasChanges
       DriftAnalysis.confidence DriftAnalysis.recommendation].
  rewrite !generateRecommendation_counts, !calculateConfidence_counts.
  unfold Js.size. rewrite (Permutation_length Hperm).
  rewrite (count_Permutation high Hperm), (count_Permutation medium Hperm).
  repeat split. exact Hperm.
Qed.

End SectionOrder.


(* ================================================================= *)
(** ** The further theorems on the example documents *)

Section OnMoreExamples.
Import DriftDetection.
Local Open Scope string_scope.

Lemma determineSignificance_antitone_witness :
  (1 # 3 <= 9 # 10)%Q
  /\ Significance_rank (determineSignificance (9 # 10))
     <= Significance_rank (determineSignificance (1 # 3)).
Proof.
  assert (H : (1 # 3 <= 9 # 10)%Q) by (unfold Qle; simpl; lia).
  split.
  - exact H.
  - exact (determineSignificance_antitone H).
Defined.

Lemma analyzeDocuments_title_reported_witness :
  DocumentContent.title (EnrichedDocument.enrichedContent Examples.authExisting)
  <> DocumentContent.title
       (EnrichedDocument.enrichedContent Examples.authIncoming)
  /\ DriftAnalysis.hasChanges
       (analyzeDocuments Examples.numberToString Examples.authExisting
          Examples.authIncoming Examples.lenient)
     = true.
Proof.
  assert (H : DocumentContent.title
                (EnrichedDocument.enrichedContent Examples.authExisting)
              <> DocumentContent.title
                   (EnrichedDocument.enrichedContent Examples.authIncoming))
    by (simpl; discriminate).
  split.
  - exact H.
  - exact (proj1 (@analyzeDocuments_title_reported Examples.numberToString
                    Examples.authExisting Examples.authIncoming
                    Examples.lenient H)).
Defined.


Lemma mergeSections_same_sections_witness :
  sectionsOf Examples.stored = sectionsOf MoreExamples.storedElsewhere
  /\ sectionsOf
       (createMergePreview Examples.stored MoreExamples.storedElsewhere
          (Some merge_sections) Examples.clock)
     = sectionsOf MoreExamples.storedElsewhere.
Proof.
  split.
  - reflexivity.
  - apply (@mergeSections_same_sections Examples.stored
             MoreExamples.storedElsewhere Examples.clock).
    + reflexivity.
    + simpl. repeat constructor; simpl; intuition discriminate.
Defined.

Lemma performLocalDriftDetection_agrees_witness :
  DocumentContent.purpose (EnrichedDocument.enrichedContent Examples.stored)
  = DocumentContent.purpose (EnrichedDocument.enrichedContent Examples.incoming)
  /\ DriftAnalysis.changes
       (QAService.performLocalDriftDetection Examples.stored Examples.incoming)
     = map gradeTitleMedium
         (DriftAnalysis.changes
            (analyzeDocuments Examples.numberToString Examples.stored
               Examples.incoming (Options.mk None (Some true) None))).
Proof.
  split.
  - reflexivity.
  - apply (@performLocalDriftDetection_agrees Examples.numberToString
             Examples.stored Examples.incoming); reflexivity.
Defined.

Lemma analyzeDocuments_section_order_witness :
  let l1 := [Examples.legacySection; Examples.overviewSection;
             Examples.inputsSection] in
  let l2 := [Examples.outputsSection; Examples.overviewRevised;
             Examples.inputsSection] in
  Permutation l1 (sectionsOf Examples.stored)
  /\ Permutation l2 (sectionsOf Examples.incoming)
  /\ DriftAnalysis.recommendation
       (analyzeDocuments Examples.numberToString
          (withSections Examples.stored l1)
          (withSections Examples.incoming l2) Options.empty)
     = DriftAnalysis.recommendation
         (analyzeDocuments Examples.numberToString Examples.stored
            Examples.incoming Options.empty).
Proof.
  cbv zeta.
  assert (P1 : Permutation
                 [Examples.legacySection; Examples.overviewSection;
                  Examples.inputsSection] (sectionsOf Examples.stored)).
  { exact (Permutation_cons_append
             [Examples.overviewSection; Examples.inputsSection]
             Examples.legacySection). }
  assert (P2 : Permutation
                 [Examples.outputsSection; Examples.overviewRevised;
                  Examples.inputsSection] (sectionsOf Examples.incoming)).
  { exact (Permutation_cons_append
             [Examples.overviewRevised; Examples.inputsSection]
             Examples.outputsSection). }
  assert (N1 : NoDup (titlesOf (sectionsOf Examples.stored))).
  { simpl. repeat constructor; simpl; intuition discriminate. }
  assert (N2 : NoDup (titlesOf (sectionsOf Examples.incoming))).
  { simpl. repeat constructor; simpl; intuition discriminate. }
  split; [exact P1 |]. split; [exact P2 |].
  exact (proj2 (proj2 (proj2
           (@analyzeDocuments_section_order Examples.numberToString
              Examples.stored Examples.incoming _ _ Options.empty
              N1 N2 P1 P2)))).
Defined.

End OnMoreExamples.
